(** * hyperknowledge: provisioning script and event-db helpers

    A shallow embedding of [scripts/initial_setup.py] and of the tuple
    helpers of [hyperknowledge/eventdb/__init__.py], with the properties
    their specification states about them and further properties read off
    the code.

    Python dictionaries are finite maps ([gmap] with string keys), strings
    are [string], the database server behind [psql_command] and the other
    sources of effects (random tokens, the operator's keyboard, the files
    written) are threaded through an explicit state with an error monad for
    the exceptions the script raises and catches. *)

From Stdlib Require Import ZArith Ascii String DecimalString.
From stdpp Require Import base option list strings gmap fin_maps.

Local Open Scope Z_scope.

(** ** Python strings *)

Module PyStr.

(** [str.isspace] on the ASCII range: TAB, LF, VT, FF, CR, the four
    separators FS, GS, RS, US, and the blank. *)
Definition isspace (c : ascii) : bool :=
  let n := nat_of_ascii c in
  ((9 <=? n) && (n <=? 13) || (28 <=? n) && (n <=? 32))%nat.

Definition lower_char (c : ascii) : ascii :=
  let n := nat_of_ascii c in
  if ((65 <=? n) && (n <=? 90))%nat then ascii_of_nat (n + 32) else c.

(** [s.lower()] *)
Fixpoint lower (s : string) : string :=
  match s with
  | EmptyString => EmptyString
  | String c s' => String (lower_char c) (lower s')
  end.

(** [s.split()]: the maximal runs of non-blank characters, in order.
    [cur] is the word being read, kept reversed. *)
Fixpoint split_go (cur : string) (s : string) : list string :=
  match s with
  | EmptyString =>
      match cur with EmptyString => [] | _ => [String.rev cur] end
  | String c s' =>
      if isspace c then
        match cur with
        | EmptyString => split_go EmptyString s'
        | _ => String.rev cur :: split_go EmptyString s'
        end
      else split_go (String c cur) s'
  end.

Definition split (s : string) : list string := split_go EmptyString s.

(** [sep.join(l)] *)
Fixpoint join (sep : string) (l : list string) : string :=
  match l with
  | [] => EmptyString
  | [x] => x
  | x :: l' => x +:+ sep +:+ join sep l'
  end.

Fixpoint lstrip (s : string) : string :=
  match s with
  | String c s' => if isspace c then lstrip s' else s
  | EmptyString => EmptyString
  end.

(** [s.strip()] *)
Definition strip (s : string) : string :=
  String.rev (lstrip (String.rev (lstrip s))).

(** Truth value of a string: every string but the empty one. *)
Definition nonempty (s : string) : bool :=
  match s with EmptyString => false | _ => true end.

Definition eqb (a b : string) : bool := bool_decide (a = b).

(** [str(n)] for an integer. *)
Definition of_Z (z : Z) : string := NilZero.string_of_int (Z.to_int z).

(** The double quote and the line feed, as one-character strings. *)
Definition dquote : string := String "034" EmptyString.
Definition nl : string := String "010" EmptyString.

End PyStr.

(** ** Python values *)

#[warnings="-register-all"]
Inductive value : Type :=
| VNone
| VBool (b : bool)
| VInt (z : Z)
| VStr (s : string)
| VList (l : list value)
| VTuple (l : list value).

(** [bool(v)] *)
Definition truthy (v : value) : bool :=
  match v with
  | VNone => false
  | VBool b => b
  | VInt z => negb (z =? 0)
  | VStr s => PyStr.nonempty s
  | VList l | VTuple l => match l with [] => false | _ => true end
  end.

(** [a or b] *)
Definition py_or (a b : value) : value := if truthy a then a else b.

Definition is_none (v : value) : bool :=
  match v with VNone => true | _ => false end.

(** [str(v)], as an f-string renders the scalars the script handles. *)
Definition py_str (v : value) : string :=
  match v with
  | VNone => "None"
  | VBool true => "True"
  | VBool false => "False"
  | VInt z => PyStr.of_Z z
  | VStr s => s
  | VList _ | VTuple _ => EmptyString
  end.

(** ** hyperknowledge.eventdb: tuple helpers *)

Module EventDb.

(** [isinstance(val, (tuple, list))] *)
Definition is_sequence (val : value) : bool :=
  match val with VList _ | VTuple _ => true | _ => false end.

(** [tuple(val)] for a list or a tuple. *)
Definition tuple (val : value) : value :=
  match val with
  | VList l | VTuple l => VTuple l
  | _ => val
  end.

Definition as_tuple (val : value) : value :=
  if is_sequence val then tuple val else VTuple [val].

Definition as_tuple_or_scalar (val : value) : value :=
  if is_sequence val then tuple val else val.

End EventDb.

(** ** The provisioning script: commands, state and exceptions *)

(** Keyword arguments and the script's [dict]s. The per-environment record
    [data] holds strings only; connection parameters mix strings, integers,
    booleans and [None]. *)
Abbreviation kwargs := (gmap string value).
Abbreviation dict := (gmap string string).

(** [ConfigParser]: sections of options. Interpolation and the DEFAULT
    section of the library are left out: values are read back as written. *)
Abbreviation ini := (gmap string (gmap string string)).

Definition CONFIG_FILE : string := "config.ini".
Definition DATABASES : list string := ["development"; "test"; "production"].
Definition DB_SUFFIXES : list string := ["_dev"; "_test"; EmptyString].
Definition POSTGREST_PORT : Z := 3000.

(** The SQL statements of the script, one constructor per f-string of the
    source; [render] is the text handed to [psql_command]. *)
Inductive sql : Type :=
| SelectDatabase (test : string)
| SelectRole (role : string)
| CreateRole (member : string)
| AlterRole (user extra_perms password : string)
| CreateUser (user extra_perms password : string)
| SelectExtraRoles (database : string)
| DropDatabase (database : string)
| DropRole (extra_roles : string)
| CreateDatabase (database owner : string)
| SelectOwner (database : string)
| AlterSetOwner (database owner : string)
| AlterGroupAddUser (group user : string)
| SetJwtSecret (database auth_secret : string)
| AlterSchemaOwner (owner : string).

Definition render (c : sql) : string :=
  match c with
  | SelectDatabase test =>
      "select datname from pg_catalog.pg_database where datname='" +:+ test +:+ "'"
  | SelectRole role =>
      "select rolname from pg_catalog.pg_roles where rolname='" +:+ role +:+ "'"
  | CreateRole member => "CREATE ROLE " +:+ member
  | AlterRole user extra_perms password =>
      "ALTER ROLE " +:+ user +:+ " WITH LOGIN " +:+ extra_perms
        +:+ " ENCRYPTED PASSWORD '" +:+ password +:+ "'"
  | CreateUser user extra_perms password =>
      "CREATE USER " +:+ user +:+ " WITH LOGIN " +:+ extra_perms
        +:+ " ENCRYPTED PASSWORD '" +:+ password +:+ "'"
  | SelectExtraRoles database =>
      "select string_agg(rolname, ', ') from pg_catalog.pg_roles where rolname like '"
        +:+ database +:+ "\_\__\_%'"
  | DropDatabase database => "DROP DATABASE " +:+ database
  | DropRole extra_roles => "DROP ROLE " +:+ extra_roles
  | CreateDatabase database owner =>
      "CREATE DATABASE " +:+ database +:+ " WITH OWNER " +:+ owner +:+ " ENCODING UTF8"
  | SelectOwner database =>
      "SELECT pg_catalog.pg_get_userbyid(datdba) FROM pg_catalog.pg_database WHERE datname='"
        +:+ database +:+ "'"
  | AlterSetOwner database owner =>
      "ALTER " +:+ database +:+ " SET OWNER TO " +:+ owner
  | AlterGroupAddUser group user =>
      "ALTER GROUP " +:+ group +:+ " ADD USER " +:+ user
  | SetJwtSecret database auth_secret =>
      "ALTER DATABASE " +:+ database +:+ " SET " +:+ PyStr.dquote +:+ "app.jwt_secret"
        +:+ PyStr.dquote +:+ " TO '" +:+ auth_secret +:+ "'"
  | AlterSchemaOwner owner => "ALTER SCHEMA public OWNER TO " +:+ owner
  end.

(** A statement that creates a login role or sets a role's password. *)
Definition changes_role (c : sql) : bool :=
  match c with
  | AlterRole _ _ _ | CreateUser _ _ _ => true
  | _ => false
  end.

(** One call of [psql_command]: the statement, the keyword arguments it was
    called with, and its output ([None] when its assertion failed). *)
Record event : Type := Event {
  ev_cmd : sql;
  ev_conn : kwargs;
  ev_out : option string
}.

Inductive exn : Type :=
| AssertionError
| RuntimeError (msg : string)
| EOFError
| KeyError (key : string)
| ValueError.

Inductive result (A : Type) : Type :=
| Ok (a : A)
| Raise (e : exn).
Arguments Ok {A} a.
Arguments Raise {A} e.

(** ** The script's effects

    [psql_command] lives in the script's [utils] module, outside this
    development: it is the parameter [psql], a transition of the database server's state [W] that
    answers a statement sent under given keyword arguments with its output,
    or with [None] when the assertion on the outcome fails. The platform
    ([sys.platform], [getuser()]) and the random tokens are parameters too:
    [token k n] is the value of the [k]-th call [token_urlsafe(n)]. *)

Section Script.

Context {W : Type}.
Variable psql : W → string → kwargs → W * option string.
Variable token : nat → nat → string.
Variable darwin : bool.
Variable getuser : string.

Record state : Type := State {
  world : W;                      (* the database server *)
  log : list event;               (* calls of psql_command, oldest first *)
  drawn : nat;                    (* calls of token_urlsafe so far *)
  stdin : list string;            (* lines the operator will type *)
  conf_files : gmap string string; (* postgrest_*.conf files written *)
  config_ini : option ini         (* content of config.ini, if it exists *)
}.

Definition M (A : Type) : Type := state → result A * state.

Definition ret {A} (a : A) : M A := fun st => (Ok a, st).

Definition raise {A} (e : exn) : M A := fun st => (Raise e, st).

Definition bind {A B} (f : A → M B) (m : M A) : M B :=
  fun st =>
    match m st with
    | (Ok a, st') => f a st'
    | (Raise e, st') => (Raise e, st')
    end.

(** [try: m  except AssertionError: h] *)
Definition try_except {A} (m : M A) (h : M A) : M A :=
  fun st =>
    match m st with
    | (Raise AssertionError, st') => h st'
    | r => r
    end.

#[global] Instance M_ret : MRet M := @ret.
#[global] Instance M_bind : MBind M := @bind.

(** [d[key]] on a [dict]. *)
Definition getitem (d : dict) (key : string) : M string :=
  match d !! key with
  | Some v => ret v
  | None => raise (KeyError key)
  end.

(** [token_urlsafe(n)] *)
Definition token_urlsafe (n : nat) : M string :=
  fun st =>
    (Ok (token (drawn st) n),
     State (world st) (log st) (S (drawn st)) (stdin st)
           (conf_files st) (config_ini st)).

(** [input(...)] and [getpass(...)]: the next line typed by the operator;
    [EOFError] when there is none. *)
Definition input : M string :=
  fun st =>
    match stdin st with
    | [] => (Raise EOFError, st)
    | line :: rest =>
        (Ok line,
         State (world st) (log st) (drawn st) rest
               (conf_files st) (config_ini st))
    end.

(** [psql_command(command, **kw)] *)
Definition psql_command (command : sql) (kw : kwargs) : M string :=
  fun st =>
    let '(w', out) := psql (world st) (render command) kw in
    let st' := State w' (log st ++ [Event command kw out]) (drawn st)
                     (stdin st) (conf_files st) (config_ini st) in
    match out with
    | Some o => (Ok o, st')
    | None => (Raise AssertionError, st')
    end.

Definition test_db_exists (test : string) (kw : kwargs) : M bool :=
  o ← psql_command (SelectDatabase test) kw;
  mret (PyStr.eqb (PyStr.strip o) test).

Definition test_user_exists (role : string) (kw : kwargs) : M bool :=
  o ← psql_command (SelectRole role) kw;
  mret (PyStr.eqb (PyStr.strip o) role).

(** *** get_conn_params *)

(** The keyword arguments of a probe or of the returned [dict]:
    [dict(user=user, host=host, password=password, **rest)]. *)
Definition login_args (user host password : value) (rest : kwargs) : kwargs :=
  <["user" := user]> (<["host" := host]> (<["password" := password]> rest)).

(** The [while True] loop of [get_conn_params]. One round reads the role
    and the password, then probes with them, without a [sudo] argument.
    The loop runs as long as the operator keeps typing: [lines] is what
    is left of [stdin] when the round starts. *)
Fixpoint prompt_loop (lines : list string) (user host : value) (rest : kwargs)
    : M (value * value) :=
  match lines with
  | [] | [_] => input;; input;; raise EOFError
  | _ :: _ :: lines' =>
      answer ← input;
      let user := py_or (VStr answer) user in
      typed ← input;
      let password := VStr typed in
      ok ← try_except
             (test_db_exists "postgres" (login_args user host password rest);;
              mret true)
             (mret false);
      if ok : bool then mret (user, password)
      else prompt_loop lines' user host rest
  end.

(** [get_conn_params] called with [conn_data] as keyword arguments: [host], [user], [password] and [sudo]
    bind the named parameters (with their defaults when absent), the other
    keys are [**kwargs]. *)
Definition get_conn_params (conn_data : kwargs) : M kwargs :=
  let host := default (VStr "localhost") (conn_data !! "host") in
  let user := default VNone (conn_data !! "user") in
  let password := default VNone (conn_data !! "password") in
  let sudo := default VNone (conn_data !! "sudo") in
  let rest :=
    delete "host" (delete "user" (delete "password" (delete "sudo" conn_data))) in
  let user :=
    if darwin then py_or user (VStr getuser) else py_or user (VStr "postgres") in
  let sudo :=
    if darwin then (if is_none sudo then VBool false else sudo)
    else if is_none sudo && is_none password then VBool true
         else py_or sudo (VBool false) in
  '(user, password) ←
    try_except
      (test_db_exists "postgres"
         (<["sudo" := sudo]> (login_args user host password rest));;
       mret (user, password))
      (fun st => prompt_loop (stdin st) user host rest st);
  mret (<["sudo" := sudo]> (login_args user host password rest)).

(** *** create_database *)

(** [user_conn]: the administrator's [conn_data] with the role and its
    password in place of the administrator's. *)
Definition role_conn (conn_data : kwargs) (user password : string) : kwargs :=
  <["password" := VStr password]> (<["user" := VStr user]> conn_data).

(** One round of [for usert in ("owner", "client")]. [continue] leaves the
    round with [data] as it is. *)
Definition provision_role (conn_data : kwargs) (usert : string) (data : dict)
    : M dict :=
  user ← getitem data usert;
  let has_pass := default EmptyString (data !! (usert +:+ "_password")) in
  password ←
    (if PyStr.nonempty has_pass then mret has_pass else token_urlsafe 16);
  let user_conn := role_conn conn_data user password in
  '(skip, data) ←
    (if PyStr.nonempty has_pass then
       try_except
         (test_user_exists user user_conn;; mret (true, data))
         (mret (false, data))
     else mret (false, <[usert +:+ "_password" := password]> data));
  if skip : bool then mret data
  else
    let extra_perms :=
      if PyStr.eqb usert "owner" then "CREATEROLE" else "NOINHERIT" in
    present ← test_user_exists user conn_data;
    (if present : bool
     then psql_command (AlterRole user extra_perms password) conn_data
     else psql_command (CreateUser user extra_perms password) conn_data);;
    mret data.

(** The part of [create_database] after the roles: the signing secret, the
    database with its owner, the memberships, the schema. *)
Definition provision_database (database member : string) (conn_data : kwargs)
    (dropdb : bool) (data : dict) : M dict :=
  let has_secret := default EmptyString (data !! "auth_secret") in
  auth_secret ←
    (if PyStr.nonempty has_secret then mret has_secret else token_urlsafe 32);
  let data := <["auth_secret" := auth_secret]> data in
  owner ← getitem data "owner";
  db_exists ← test_db_exists database conn_data;
  db_exists ←
    (if db_exists && dropdb then
       out ← psql_command (SelectExtraRoles database) conn_data;
       let extra_roles := PyStr.strip out in
       psql_command (DropDatabase database) conn_data;;
       (if PyStr.nonempty extra_roles
        then psql_command (DropRole extra_roles) conn_data;; mret tt
        else mret tt);;
       mret false
     else mret db_exists);
  (if negb db_exists then
     psql_command (CreateDatabase database owner) conn_data;; mret tt
   else
     out ← psql_command (SelectOwner database) conn_data;
     if negb (PyStr.eqb (PyStr.strip out) owner)
     then psql_command (AlterSetOwner database owner) conn_data;; mret tt
     else mret tt);;
  client ← getitem data "client";
  psql_command (AlterGroupAddUser owner client) conn_data;;
  client ← getitem data "client";
  psql_command (AlterGroupAddUser member client) conn_data;;
  psql_command (SetJwtSecret database auth_secret) conn_data;;
  let conn_data := <["db" := VStr database]> conn_data in
  psql_command (AlterSchemaOwner owner) conn_data;;
  mret data.

Definition create_database (data : dict) (conn_data : kwargs) (dropdb : bool)
    : M dict :=
  database ← getitem data "database";
  let member := database +:+ "__member" in
  present ← test_user_exists member conn_data;
  (if negb present
   then psql_command (CreateRole member) conn_data;; mret tt
   else mret tt);;
  data ← provision_role conn_data "owner" data;
  data ← provision_role conn_data "client" data;
  provision_database database member conn_data dropdb data.

(** *** The command line *)

(** What the operator typed: [None] (or [false]) for an option that was
    not given. For [--sudo]/[--no-sudo] and the [--create-*]/[--no-create-*]
    pairs the field is the value the parser ends with. *)
Record cli : Type := Cli {
  cli_app_name : option string;
  cli_host : option string;
  cli_port : option string;
  cli_user : option string;
  cli_password : option string;
  cli_store_password : bool;
  cli_sudo : option bool;
  cli_development : option string;
  cli_production : option string;
  cli_test : option string;
  cli_create_development : bool;
  cli_create_production : bool;
  cli_create_test : bool;
  cli_dropdb : bool;
  cli_debug : bool
}.

(** The namespace [argp.parse_args()] returns. *)
Record namespace : Type := Namespace {
  app_name : string;
  host : value;
  port : value;
  user : value;
  password : value;
  store_password : bool;
  sudo : value;
  development : option string;
  production : option string;
  test : option string;
  create_development : bool;
  create_production : bool;
  create_test : bool;
  dropdb : bool;
  debug : bool
}.

Definition opt_str (o : option string) : value :=
  match o with Some s => VStr s | None => VNone end.

(** [ini_file.get(section, option, fallback=None)] *)
Definition ini_get (ini_file : ini) (section key : string) : option string :=
  ini_file !! section ≫= (.!! key).

(** [ini_file.set(section, option, value)], for a section that exists:
    the script adds every section before it sets an option in it. *)
Definition ini_set (section key v : string) (ini_file : ini) : ini :=
  <[section := <[key := v]> (default ∅ (ini_file !! section))]> ini_file.

(** [ini_file.getboolean(section, "sudo", fallback=None)] on the options
    of the section. *)
Definition getboolean (options : dict) (key : string) : M value :=
  match options !! key with
  | None => mret VNone
  | Some v =>
      let v := PyStr.lower v in
      if bool_decide (v ∈ ["1"; "yes"; "true"; "on"]) then mret (VBool true)
      else if bool_decide (v ∈ ["0"; "no"; "false"; "off"]) then mret (VBool false)
      else raise ValueError
  end.

(** The defaults are those the script gives to [add_argument]. *)
Definition parse_args (argv : cli) (ini_file : ini) (conn_data : kwargs)
    (name : string) : namespace :=
  {| app_name := default name (cli_app_name argv);
     host := from_option VStr (default VNone (conn_data !! "host")) (cli_host argv);
     port := from_option VStr (default VNone (conn_data !! "port")) (cli_port argv);
     user := from_option VStr (default VNone (conn_data !! "user")) (cli_user argv);
     password := opt_str (cli_password argv);
     store_password := cli_store_password argv;
     sudo := from_option VBool (default VNone (conn_data !! "sudo")) (cli_sudo argv);
     development :=
       from_option Some (ini_get ini_file "development" "database") (cli_development argv);
     production :=
       from_option Some (ini_get ini_file "production" "database") (cli_production argv);
     test := from_option Some (ini_get ini_file "test" "database") (cli_test argv);
     create_development := cli_create_development argv;
     create_production := cli_create_production argv;
     create_test := cli_create_test argv;
     dropdb := cli_dropdb argv;
     debug := cli_debug argv |}.

(** [getattr(args, db)] and [getattr(args, "create_" + db)] for the names
    of [DATABASES]. *)
Definition database_arg (args : namespace) (db : string) : option string :=
  if PyStr.eqb db "development" then development args
  else if PyStr.eqb db "test" then test args
  else production args.

Definition create_arg (args : namespace) (db : string) : bool :=
  if PyStr.eqb db "development" then create_development args
  else if PyStr.eqb db "test" then create_test args
  else create_production args.

(** [postgrest_config.format(url=..., port=..., client=..., jwt=...)] *)
Definition postgrest_config (url client jwt : string) (port : Z) : string :=
  "db-uri = " +:+ PyStr.dquote +:+ url +:+ PyStr.dquote +:+ PyStr.nl
  +:+ "db-schema = " +:+ PyStr.dquote +:+ "public" +:+ PyStr.dquote +:+ PyStr.nl
  +:+ "db-anon-role = " +:+ PyStr.dquote +:+ client +:+ PyStr.dquote +:+ PyStr.nl
  +:+ "jwt-secret = " +:+ PyStr.dquote +:+ jwt +:+ PyStr.dquote +:+ PyStr.nl
  +:+ "server-port = " +:+ PyStr.of_Z port +:+ PyStr.nl
  +:+ "server-host = " +:+ PyStr.dquote +:+ "*" +:+ PyStr.dquote +:+ PyStr.nl.

(** The connection URL written to the REST-proxy configuration. *)
Definition db_url (client client_password : string) (host port : value)
    (dbname : string) : string :=
  "postgres://" +:+ client +:+ ":" +:+ client_password +:+ "@"
  +:+ py_str host +:+ ":" +:+ py_str port +:+ "/" +:+ dbname.

Definition conf_name (db : string) : string := "postgrest_" +:+ db +:+ ".conf".

Definition write_conf (name content : string) : M unit :=
  fun st =>
    (Ok tt,
     State (world st) (log st) (drawn st) (stdin st)
           (<[name := content]> (conf_files st)) (config_ini st)).

(** [exists(CONFIG_FILE)] and [ini_file.read_file(f)] *)
Definition read_config : M ini :=
  fun st => (Ok (default ∅ (config_ini st)), st).

(** [ini_file.write(f)] on [CONFIG_FILE] *)
Definition write_config (ini_file : ini) : M unit :=
  fun st =>
    (Ok tt,
     State (world st) (log st) (drawn st) (stdin st) (conf_files st)
           (Some ini_file)).

(** [base_app_name] *)
Definition base_name (app_name : string) : string :=
  PyStr.join "_" (PyStr.split (PyStr.lower app_name)).

(** The name of the database of an environment. *)
Definition db_name (args : namespace) (index : nat) (db : string) : string :=
  let computed :=
    base_name (app_name args) +:+ default EmptyString (DB_SUFFIXES !! index) in
  match database_arg args db with
  | Some name => if PyStr.nonempty name then name else computed
  | None => computed
  end.

(** The [data] of an environment before [create_database] is called: the
    three names, overridden by what the state file has for it. *)
Definition env_data (dbname : string) (stored : option dict) : dict :=
  let data : dict :=
    <["database" := dbname]>
      (<["owner" := dbname +:+ "__owner"]>
         (<["client" := dbname +:+ "__client"]> ∅)) in
  match stored with
  | Some options => options ∪ data
  | None => data
  end.

(** One round of [for index, db in enumerate(DATABASES)]. *)
Definition provision_env (args : namespace) (conn_data : kwargs)
    (index : nat) (db : string) (ini_file : ini) : M ini :=
  if create_arg args db then
    let dbname := db_name args index db in
    let data := env_data dbname (ini_file !! db) in
    let ini_file :=
      match ini_file !! db with
      | Some _ => ini_file
      | None => <[db := ∅]> ini_file
      end in
    data ← create_database data conn_data (dropdb args);
    (* for k, v in data.items(): ini_file.set(db, k, v) *)
    let ini_file := <[db := data ∪ default ∅ (ini_file !! db)]> ini_file in
    client ← getitem data "client";
    client_password ← getitem data "client_password";
    let url :=
      db_url client client_password
             (default VNone (conn_data !! "host"))
             (default VNone (conn_data !! "port")) dbname in
    client ← getitem data "client";
    jwt ← getitem data "auth_secret";
    write_conf (conf_name db)
      (postgrest_config url client jwt (POSTGREST_PORT + Z.of_nat index));;
    mret ini_file
  else mret ini_file.

Fixpoint provision_all (args : namespace) (conn_data : kwargs) (index : nat)
    (dbs : list string) (ini_file : ini) : M ini :=
  match dbs with
  | [] => mret ini_file
  | db :: dbs' =>
      ini_file ← provision_env args conn_data index db ini_file;
      provision_all args conn_data (S index) dbs' ini_file
  end.

(** The connection parameters before the command line is read: the
    built-in ones, overridden by the [postgres] section of the state file
    when it has one; the section is added when it has none. *)
Definition connection_defaults (ini_file : ini) : M (kwargs * ini) :=
  let conn_data : kwargs :=
    <["host" := VStr "localhost"]> (<["port" := VInt 5432]> ∅) in
  match ini_file !! "postgres" with
  | Some options =>
      let conn_data := (VStr <$> options) ∪ conn_data in
      sudo ← getboolean options "sudo";
      mret (<["sudo" := sudo]> conn_data, ini_file)
  | None => mret (conn_data, <["postgres" := ∅]> ini_file)
  end.

(** The start of the [__main__] block, up to the check of the application
    name: the state file is read, the command line parsed. *)
Definition startup (argv : cli) : M (namespace * kwargs * ini) :=
  ini_file ← read_config;
  '(conn_data, ini_file) ← connection_defaults ini_file;
  let '(name, ini_file) :=
    match ini_file !! "base" with
    | Some options => (default "MISSING" (options !! "app_name"), ini_file)
    | None => ("MISSING", <["base" := ∅]> ini_file)
    end in
  let args := parse_args argv ini_file conn_data name in
  if PyStr.eqb (app_name args) "MISSING"
  then raise (RuntimeError "You must specify an app_name")
  else mret (args, conn_data, ini_file).

(** The connection parameters: those of the state file, then those of the
    command line, then what [get_conn_params] makes of them. *)
Definition connect (args : namespace) (conn_data : kwargs) : M kwargs :=
  let conn_data := <["host" := host args]> conn_data in
  let conn_data := <["port" := port args]> conn_data in
  let conn_data :=
    if truthy (user args) then <["user" := user args]> conn_data
    else conn_data in
  let conn_data := <["password" := password args]> conn_data in
  let conn_data := <["sudo" := sudo args]> conn_data in
  conn_data ← get_conn_params conn_data;
  mret (<["debug" := VBool (debug args)]> conn_data).

(** The options set in the [postgres] and [base] sections. *)
Definition record_connection (args : namespace) (conn_data : kwargs)
    (ini_file : ini) : ini :=
  let get key := py_str (default VNone (conn_data !! key)) in
  let ini_file := ini_set "postgres" "host" (get "host") ini_file in
  let ini_file := ini_set "postgres" "port" (get "port") ini_file in
  let ini_file := ini_set "postgres" "user" (get "user") ini_file in
  let ini_file :=
    ini_set "postgres" "sudo" (PyStr.lower (get "sudo")) ini_file in
  let ini_file :=
    if store_password args
    then ini_set "postgres" "password" (get "password") ini_file
    else ini_set "postgres" "needs_password"
           (PyStr.lower (py_str (VBool (truthy (password args))))) ini_file in
  ini_set "base" "app_name" (app_name args) ini_file.

(** The script's [__main__] block. *)
Definition main (argv : cli) : M unit :=
  '(args, conn_data, ini_file) ← startup argv;
  conn_data ← connect args conn_data;
  let ini_file := record_connection args conn_data ini_file in
  ini_file ← provision_all args conn_data 0 DATABASES ini_file;
  write_config ini_file.

End Script.

Arguments state W : clear implicits.
Arguments M W A : clear implicits.
Arguments render : simpl never.
Arguments role_conn : simpl never.
Arguments login_args : simpl never.

(** ** Stand-ins for the server, for running the script on concrete inputs

    [scripted] answers the calls of [psql_command] one after the other with
    the outcomes listed in its state, whatever the statement, and with an
    empty output once the list is used up. [numbered] names the [k]-th
    token [tok<k>]. *)

Definition scripted (w : list (option string)) (_ : string) (_ : kwargs)
    : list (option string) * option string :=
  match w with
  | [] => ([], Some EmptyString)
  | out :: w' => (w', out)
  end.

Definition numbered (k n : nat) : string := "tok" +:+ PyStr.of_Z (Z.of_nat k).

(** A machine on which nothing was run yet: the outcomes the server will
    give, the lines the operator will type, the state file if there is one. *)
Definition boot (outcomes : list (option string)) (lines : list string)
    (config : option ini) : state (list (option string)) :=
  State outcomes [] 0 lines ∅ config.

(** The statements sent so far, as text, with their outcomes. *)
Definition transcript {W} (st : state W) : list (string * option string) :=
  (fun e => (render (ev_cmd e), ev_out e)) <$> log st.

(** What a computation returned, if it returned. *)
Definition returned {A} (r : result A) : option A :=
  match r with Ok a => Some a | Raise _ => None end.

(** The calls of [psql_command] made from [st] to [st']. *)
Definition issued {W} (st st' : state W) : list event :=
  drop (length (log st)) (log st').

(** ** Vocabulary of the properties *)

Section Vocabulary.

Context {W : Type}.

(** A relation between the states before and after, kept by every run of
    a computation, whether it returns or raises. *)
Definition keeps (R : relation (state W)) {A} (m : M W A) : Prop :=
  ∀ st r st', m st = (r, st') → R st st'.

(** From [st] to [st'] the script only talked to the server and drew
    tokens: the calls made in between all satisfy [P], and no file was
    written. *)
Definition advances (P : event → Prop) (st st' : state W) : Prop :=
  (∃ d, log st' = log st ++ d ∧ Forall P d)
  ∧ (drawn st ≤ drawn st')%nat
  ∧ conf_files st' = conf_files st
  ∧ config_ini st' = config_ini st.

(** A call that neither creates a login role nor sets a password. *)
Definition quiet (e : event) : Prop := changes_role (ev_cmd e) = false.

(** The check of a stored password failed: the probe sent as the role,
    with the password the state file has for it, raised. *)
Definition rejected (conn_data : kwargs) (user password : string)
    (e : event) : Prop :=
  e = Event (SelectRole user) (role_conn conn_data user password) None.

(** From [st] to [st'] no call created a login role or set a password,
    unless a call that satisfies [V] was made. *)
Definition guarded (V : event → Prop) (st st' : state W) : Prop :=
  ∃ d, log st' = log st ++ d ∧ (Forall quiet d ∨ Exists V d).

(** The statements of the first part of [create_database], which deals
    with the member group and the two login roles. *)
Definition role_stage (e : event) : Prop :=
  match ev_cmd e with
  | SelectRole _ | CreateRole _ | AlterRole _ _ _ | CreateUser _ _ _ => True
  | _ => False
  end.

(** The statements [create_database] ends with, once the database is
    there: the two memberships, the signing secret, the schema. *)
Definition closing (database member owner client secret : string) : list sql :=
  [AlterGroupAddUser owner client; AlterGroupAddUser member client;
   SetJwtSecret database secret; AlterSchemaOwner owner].

(** The calls made from [st] to [st'] are exactly [d]. *)
Definition emits (d : list event) (st st' : state W) : Prop :=
  log st' = log st ++ d.

(** The calls so far are those of [st], and maybe more. *)
Definition grows (st st' : state W) : Prop :=
  ∃ d, log st' = log st ++ d.

(** [sub in s] *)
Definition contains (sub s : string) : Prop :=
  ∃ pre post, s = pre +:+ sub +:+ post.

End Vocabulary.

(** What the state file and the command line say, in the words of the
    specification. *)

(** The value the state file has for an option, if any. *)
Definition stored (config : option ini) (section key : string) : option string :=
  config ≫= fun ini_file => ini_get ini_file section key.

(** The application name: the one of the command line, else the one of the
    state file, else the placeholder. *)
Definition resolved_app_name (argv : cli) (config : option ini) : string :=
  default (default "MISSING" (stored config "base" "app_name"))
          (cli_app_name argv).

(** The [sudo] option of the state file, when there is one, reads as a
    boolean: the script gets as far as its command line. *)
Definition sudo_readable (config : option ini) : bool :=
  match stored config "postgres" "sudo" with
  | None => true
  | Some v =>
      bool_decide (PyStr.lower v
                     ∈ ["1"; "yes"; "true"; "on"; "0"; "no"; "false"; "off"])
  end.

(** The database name given on the command line for an environment, and
    whether the environment is to be provisioned. *)
Definition cli_database (argv : cli) (db : string) : option string :=
  if PyStr.eqb db "development" then cli_development argv
  else if PyStr.eqb db "test" then cli_test argv
  else cli_production argv.

Definition cli_create (argv : cli) (db : string) : bool :=
  if PyStr.eqb db "development" then cli_create_development argv
  else if PyStr.eqb db "test" then cli_create_test argv
  else cli_create_production argv.



(** The namespace stands for the command line [argv] read against the
    state file [config]. *)
Definition parsed (argv : cli) (config : option ini) (args : namespace) : Prop :=
  app_name args = resolved_app_name argv config
  ∧ (∀ db, create_arg args db = cli_create argv db)
  ∧ (∀ db, db ∈ DATABASES →
           database_arg args db
           = from_option Some (stored config db "database") (cli_database argv db))
  ∧ dropdb args = cli_dropdb argv
  ∧ store_password args = cli_store_password argv
  ∧ password args = opt_str (cli_password argv).

(** ** Statements of the specification the script does not meet as worded

    Each is refuted below on a run of the script, and proved in the form
    the script does meet. *)

(** Without [--store-password] no password generated during the run gets
    into the state file. *)
Definition generated_passwords_need_store_password : Prop :=
  ∀ (W : Type) (psql : W → string → kwargs → W * option string)
    (token : nat → nat → string) darwin getuser argv (st st' : state W)
    written,
    cli_store_password argv = false →
    main psql token darwin getuser argv st = (Ok (), st') →
    config_ini st' = Some written →
    ∀ k n section key,
      (drawn st ≤ k < drawn st')%nat →
      ini_get written section key ≠ Some (token k n).




(** ** Sample runs *)

Module Sample.

(** A command line that names the application [My App] and asks for the
    development environment only. *)
Definition argv : cli :=
  {| cli_app_name := Some "My App"; cli_host := None; cli_port := None;
     cli_user := None; cli_password := None; cli_store_password := false;
     cli_sudo := None; cli_development := None; cli_production := None;
     cli_test := None; cli_create_development := true;
     cli_create_production := false; cli_create_test := false;
     cli_dropdb := false; cli_debug := false |}.

(** The same with the application named as the placeholder is. *)
Definition argv_placeholder : cli :=
  {| cli_app_name := Some "MISSING"; cli_host := None; cli_port := None;
     cli_user := None; cli_password := None; cli_store_password := false;
     cli_sudo := None; cli_development := None; cli_production := None;
     cli_test := None; cli_create_development := true;
     cli_create_production := false; cli_create_test := false;
     cli_dropdb := false; cli_debug := false |}.

(** The administrator's connection. *)
Definition conn_data : kwargs :=
  <["host" := VStr "localhost"]> (<["port" := VInt 5432]>
    (<["user" := VStr "postgres"]> (<["password" := VNone]>
      (<["sudo" := VBool false]> ∅)))).

(** What a command line without connection options leaves of
    [conn_data] for [get_conn_params] on a machine without state file. *)
Definition conn_fresh : kwargs :=
  <["host" := VStr "localhost"]> (<["port" := VInt 5432]>
    (<["password" := VNone]> (<["sudo" := VNone]> ∅))).

(** The record of an environment provisioned before. *)
Definition data : dict :=
  <["database" := "app"]> (<["owner" := "app__owner"]>
    (<["client" := "app__client"]> (<["owner_password" := "s3cret"]>
      (<["client_password" := "pa55"]> (<["auth_secret" := "jwt"]> ∅))))).

(** A server on which everything of [data] exists: the answers to the
    probes of the member group, of the two passwords, of the database
    and of its owner. *)
Definition provisioned : list (option string) :=
  [Some "app__member"; Some "app__owner"; Some "app__client";
   Some "app"; Some "app__owner"].

(** A server that has the database and two roles that match the
    pattern: the answers with [dropdb]. *)
Definition to_drop : list (option string) :=
  [Some "app__member"; Some "app__owner"; Some "app__client";
   Some "app"; Some "app__r_1, app__r_2"].


(** A server that refuses the first probe of the administrator and
    accepts the second, and an operator who keeps the role proposed and
    types a password. *)
Definition probe_refused_once : list (option string) :=
  [None; Some EmptyString].

Definition keyboard : list string := [EmptyString; "secret"].


End Sample.

(** ** Vocabulary of the properties on names, statements and options *)




(** The elements of a list or a tuple; a scalar has none of its own. *)
Definition items_of (v : value) : option (list value) :=
  match v with
  | VList l | VTuple l => Some l
  | _ => None
  end.

(** A statement that drops a database or roles. *)
Definition drops (c : sql) : bool :=
  match c with
  | DropDatabase _ | DropRole _ => true
  | _ => false
  end.

(** The first character of [s], if any, is not a blank. *)
Definition starts_clean (s : string) : bool :=
  match s with
  | EmptyString => true
  | String c _ => negb (PyStr.isspace c)
  end.

(** No blank at either end of [s]. *)
Definition trimmed (s : string) : bool :=
  starts_clean s && starts_clean (String.rev s).

(** The answers to the prompt for the role among the lines typed at the
    prompts of [get_conn_params]: every other line, from the first. *)
Fixpoint role_answers (typed : list string) : list string :=
  match typed with
  | answer :: _ :: typed' => answer :: role_answers typed'
  | _ => []
  end.

(** A probe of the administrator's connection that was refused. *)
Definition refused_probe (e : event) : Prop :=
  ev_cmd e = SelectDatabase "postgres" ∧ ev_out e = None.

Section Outcomes.

Context {W : Type}.

(** From [st] to [st'] every call made satisfies [P]; files may have been
    written meanwhile. *)
Definition sends (P : event → Prop) (st st' : state W) : Prop :=
  ∃ d, log st' = log st ++ d ∧ Forall P d.


(** The check of a role's password: the probe of the role, sent as the
    role. *)
Definition password_check (conn_data : kwargs) (e : event) : Prop :=
  ∃ u p, ev_cmd e = SelectRole u ∧ ev_conn e = role_conn conn_data u p.

(** A call that was answered, or a password check. *)
Definition settled (conn_data : kwargs) (e : event) : Prop :=
  is_Some (ev_out e) ∨ password_check conn_data e.

(** The calls [d] of a run that ended with [r]: when the run raised an
    [AssertionError], the last call was refused; every other call was
    answered or is a password check. *)
Definition stops_at_refusal {A} (conn_data : kwargs) (r : result A)
    (d : list event) : Prop :=
  match r with
  | Raise AssertionError =>
      ∃ before e, d = before ++ [e] ∧ Forall (settled conn_data) before
                  ∧ ev_out e = None
  | _ => Forall (settled conn_data) d
  end.

(** Every run of [m] stops at the first refusal that is not a password
    check. *)
Definition abortive (conn_data : kwargs) {A} (m : M W A) : Prop :=
  ∀ st r st', m st = (r, st') →
    ∃ d, log st' = log st ++ d ∧ stops_at_refusal conn_data r d.

End Outcomes.

(** A secret [create_database] has to generate for a record: the record
    has nothing, or the empty string, under [key]. *)
Definition lacks (data : dict) (key : string) : bool :=
  negb (PyStr.nonempty (default EmptyString (data !! key))).

(** One when [b] holds, else none. *)
Definition one_if (b : bool) : nat := if b then 1%nat else 0%nat.



(** The state file is as it was. *)
Definition same_config {W} (st st' : state W) : Prop :=
  config_ini st' = config_ini st.

(** The operator was not asked for anything. *)
Definition same_stdin {W} (st st' : state W) : Prop :=
  stdin st' = stdin st.



(** The options the script sets in the [postgres] and [base] sections. *)
Definition set_by_script (section key : string) : bool :=
  bool_decide (section = "postgres"
               ∧ key ∈ ["host"; "port"; "user"; "sudo"; "password";
                        "needs_password"])
  || bool_decide (section = "base" ∧ key = "app_name").

(** A secret of an environment that is still to be generated. *)
Definition empty_secret (key v : string) : bool :=
  bool_decide (key ∈ ["owner_password"; "client_password"; "auth_secret"])
  && negb (PyStr.nonempty v).

(** ** More sample runs *)

Module Trial.

(** The record of an environment never provisioned. *)
Definition fresh : dict :=
  <["database" := "app"]> (<["owner" := "app__owner"]>
    (<["client" := "app__client"]> ∅)).


(** A server that refuses the administrator twice, and an operator who
    names another role, then keeps it and types another password. *)
Definition refused_twice : list (option string) :=
  [None; None; Some EmptyString].

Definition keyboard_twice : list string :=
  ["admin"; "x"; EmptyString; "secret"].



(** A server that answers the administrator's probe and the first
    statements of [create_database], then refuses to create the owner. *)
Definition refuses_the_owner : list (option string) :=
  [Some EmptyString; Some EmptyString; Some EmptyString; Some EmptyString;
   None].

(** A server on which everything of [Sample.data] exists, the database
    under another owner. *)
Definition other_owner : list (option string) :=
  [Some "app__member"; Some "app__owner"; Some "app__client";
   Some "app"; Some "someone"].

(** A state file as an earlier run left it, with a note added by hand to
    the section of the development environment. *)
Definition config_rerun : ini :=
  <["postgres" :=
      <["host" := "db.local"]> (<["port" := "5433"]>
        (<["user" := "postgres"]> (<["sudo" := "false"]>
          (<["needs_password" := "false"]> ∅))))]>
    (<["base" := <["app_name" := "My App"]> ∅]>
       (<["development" :=
            <["database" := "old_dev"]> (<["notes" := "keep"]> ∅)]> ∅)).

(** A state file whose [sudo] option is no boolean. *)
Definition config_unreadable : ini :=
  <["postgres" := <["sudo" := "maybe"]> ∅]> ∅.

(** A command line that names the development database and another
    host, and leaves the application name to the state file. *)
Definition argv_rename : cli :=
  {| cli_app_name := None; cli_host := Some "other.host"; cli_port := None;
     cli_user := None; cli_password := Some "pw"; cli_store_password := false;
     cli_sudo := None; cli_development := Some "new_dev";
     cli_production := None; cli_test := None;
     cli_create_development := true; cli_create_production := false;
     cli_create_test := false; cli_dropdb := false; cli_debug := false |}.

(** A command line that asks to record the administrator's password. *)
Definition argv_store : cli :=
  {| cli_app_name := Some "My App"; cli_host := None; cli_port := None;
     cli_user := None; cli_password := None; cli_store_password := true;
     cli_sudo := None; cli_development := None; cli_production := None;
     cli_test := None; cli_create_development := true;
     cli_create_production := false; cli_create_test := false;
     cli_dropdb := false; cli_debug := false |}.

End Trial.

(** * Properties *)

(** ** The tuple helpers *)

Lemma tuple_is_tuple (v : value) :
  EventDb.is_sequence v = true → ∃ l, EventDb.tuple v = VTuple l.
Proof. destruct v; simpl; try discriminate; eauto. Qed.

(** C8. For every value [v], [as_tuple v] is a tuple: the tuple of the
    elements of [v] when [v] is a list or a tuple, the one-element tuple
    holding [v] otherwise. Hence [as_tuple] is idempotent; so is
    [as_tuple_or_scalar], which gives back unchanged every value that is
    neither a list nor a tuple. *)
Theorem as_tuple_idempotent (v : value) :
  EventDb.as_tuple v
    = match v with VList l | VTuple l => VTuple l | _ => VTuple [v] end
  ∧ (∃ l, EventDb.as_tuple v = VTuple l)
  ∧ EventDb.as_tuple (EventDb.as_tuple v) = EventDb.as_tuple v
  ∧ EventDb.as_tuple_or_scalar (EventDb.as_tuple_or_scalar v)
      = EventDb.as_tuple_or_scalar v
  ∧ (EventDb.is_sequence v = true ∨ EventDb.as_tuple_or_scalar v = v).
Proof.
  unfold EventDb.as_tuple, EventDb.as_tuple_or_scalar.
  destruct v; simpl; repeat split; eauto.
Qed.

(** ** Reasoning about the script's monad *)

Section Monad.

Context {W : Type}.

Lemma bind_inv {A B} (m : M W A) (f : A → M W B) st r st' :
  (m ≫= f) st = (r, st') →
  (∃ a st1, m st = (Ok a, st1) ∧ f a st1 = (r, st'))
  ∨ (∃ e, m st = (Raise e, st') ∧ r = Raise e).
Proof.
  unfold mbind, M_bind, bind. destruct (m st) as [[a|e] st1]; intros H.
  - left; eauto.
  - right; exists e. by inversion H.
Qed.

Lemma bind_ok {A B} (m : M W A) (f : A → M W B) st b st' :
  (m ≫= f) st = (Ok b, st') →
  ∃ a st1, m st = (Ok a, st1) ∧ f a st1 = (Ok b, st').
Proof.
  intros H. apply bind_inv in H as [H|(e & _ & ?)]; [done|discriminate].
Qed.

Lemma bind_eq {A B} (m : M W A) (f : A → M W B) st a st1 :
  m st = (Ok a, st1) → (m ≫= f) st = f a st1.
Proof. unfold mbind, M_bind, bind. by intros ->. Qed.

Lemma bind_raise {A B} (m : M W A) (f : A → M W B) st e st1 :
  m st = (Raise e, st1) → (m ≫= f) st = (Raise e, st1).
Proof. unfold mbind, M_bind, bind. by intros ->. Qed.

Section Keeps.

Variable R : relation (state W).
Context `{!PreOrder R}.

Lemma keeps_ret {A} (a : A) : keeps R (mret a).
Proof. intros st r st' [= <- <-]. reflexivity. Qed.

Lemma keeps_raise {A} e : keeps R (raise (A:=A) e).
Proof. intros st r st' [= <- <-]. reflexivity. Qed.

Lemma keeps_bind {A B} (m : M W A) (f : A → M W B) :
  keeps R m → (∀ a, keeps R (f a)) → keeps R (m ≫= f).
Proof.
  intros Hm Hf st r st' H.
  apply bind_inv in H as [(a & st1 & H1 & H2)|(e & H1 & _)].
  - etransitivity; [by eapply Hm | by eapply Hf].
  - by eapply Hm.
Qed.

Lemma keeps_try {A} (m h : M W A) :
  keeps R m → keeps R h → keeps R (try_except m h).
Proof.
  intros Hm Hh st r st'. unfold try_except.
  destruct (m st) as [[a|e] st1] eqn:E.
  - intros [= <- <-]. by eapply Hm.
  - destruct e; try (intros [= <- <-]; by eapply Hm).
    intros H. etransitivity; [by eapply Hm | by eapply Hh].
Qed.

Lemma keeps_getitem (d : dict) key : keeps R (getitem d key).
Proof. unfold getitem. destruct (d !! key); [apply keeps_ret|apply keeps_raise]. Qed.

End Keeps.

End Monad.

(** ** What the script does between two states *)

Section Advances.

Context {W : Type}.
Variable psql : W → string → kwargs → W * option string.
Variable token : nat → nat → string.
Variable P : event → Prop.

#[global] Instance advances_preorder : PreOrder (advances (W:=W) P).
Proof.
  split.
  - intros st. repeat split; try done. exists []. by rewrite app_nil_r.
  - intros a b c ((d1 & E1 & F1) & L1 & C1 & I1) ((d2 & E2 & F2) & L2 & C2 & I2).
    repeat split; try congruence; try lia.
    exists (d1 ++ d2). rewrite E2, E1, <- app_assoc. split; [done|].
    by apply Forall_app.
Qed.

Lemma keeps_token n : keeps (advances P) (token_urlsafe (W:=W) token n).
Proof.
  intros st r st' [= <- <-]. repeat split; simpl; try done; try lia.
  exists []. by rewrite app_nil_r.
Qed.

Lemma keeps_psql c kw :
  (∀ out, P (Event c kw out)) → keeps (advances P) (psql_command psql c kw).
Proof.
  intros HP st r st'. unfold psql_command.
  destruct (psql (world st) (render c) kw) as [w' out].
  intros H. assert (st' = State w' (log st ++ [Event c kw out]) (drawn st)
                       (stdin st) (conf_files st) (config_ini st)) as ->
    by (destruct out; by inversion H).
  repeat split; simpl; try done. exists [Event c kw out]. split; [done|].
  by constructor.
Qed.

Lemma advances_ret {A} (a : A) : keeps (advances (W:=W) P) (mret a).
Proof. apply keeps_ret, _. Qed.

Lemma advances_raise {A} e : keeps (advances (W:=W) P) (raise (A:=A) e).
Proof. apply keeps_raise, _. Qed.

Lemma advances_bind {A B} (m : M W A) (f : A → M W B) :
  keeps (advances P) m → (∀ a, keeps (advances P) (f a)) →
  keeps (advances P) (m ≫= f).
Proof. apply keeps_bind, _. Qed.

Lemma advances_try {A} (m h : M W A) :
  keeps (advances P) m → keeps (advances P) h →
  keeps (advances P) (try_except m h).
Proof. apply keeps_try, _. Qed.

Lemma advances_getitem (d : dict) key :
  keeps (advances (W:=W) P) (getitem d key).
Proof. apply keeps_getitem, _. Qed.

Lemma keeps_input : keeps (advances P) (input (W:=W)).
Proof.
  intros st r st'. unfold input. destruct (stdin st); intros [= <- <-];
    repeat split; simpl; try done; exists []; by rewrite app_nil_r.
Qed.

End Advances.

(** Walks through a computation of the script, leaving the conditions on
    the statements it sends. *)
Ltac keeps_step :=
  lazymatch goal with
  | |- keeps _ (mret _) => apply advances_ret
  | |- keeps _ (raise _) => apply advances_raise
  | |- keeps _ (_ ≫= _) => apply advances_bind; [|intros ?]
  | |- keeps _ (try_except _ _) => apply advances_try
  | |- keeps _ (getitem _ _) => apply advances_getitem
  | |- keeps _ (token_urlsafe _ _) => apply keeps_token
  | |- keeps _ input => apply keeps_input
  | |- keeps _ (psql_command _ _ _) => apply keeps_psql; intros; try done
  | |- keeps _ (test_user_exists _ _ _) => unfold test_user_exists
  | |- keeps _ (test_db_exists _ _ _) => unfold test_db_exists
  | |- keeps _ (let '(_, _) := ?x in _) => destruct x
  | |- keeps _ (if ?b then _ else _) => destruct b
  | |- keeps _ (match ?x with _ => _ end) => destruct x
  end.

Section Walk.

Context {W : Type}.
Variable psql : W → string → kwargs → W * option string.
Variable token : nat → nat → string.
Variable darwin : bool.
Variable getuser : string.

Lemma provision_database_quiet database member conn_data dropdb data :
  keeps (advances quiet)
    (provision_database psql token database member conn_data dropdb data).
Proof. unfold provision_database. repeat keeps_step. Qed.

Lemma provision_role_advances conn_data usert data :
  keeps (advances (fun _ => True))
    (provision_role psql token conn_data usert data).
Proof. unfold provision_role. repeat keeps_step. Qed.

Lemma create_database_advances data conn_data dropdb :
  keeps (advances (fun _ => True))
    (create_database psql token data conn_data dropdb).
Proof.
  unfold create_database, provision_database. repeat keeps_step.
  all: apply provision_role_advances.
Qed.

Lemma prompt_loop_quiet lines user host rest :
  keeps (advances quiet) (prompt_loop psql lines user host rest).
Proof.
  revert user. induction lines as [lines IH] using (induction_ltof1 _ length).
  intros user. destruct lines as [|l1 [|l2 lines']]; simpl; repeat keeps_step.
  apply IH. unfold ltof. simpl. lia.
Qed.

Lemma get_conn_params_quiet conn_data :
  keeps (advances quiet) (get_conn_params psql darwin getuser conn_data).
Proof.
  unfold get_conn_params. repeat keeps_step.
  intros st r st'. apply prompt_loop_quiet.
Qed.

End Walk.

Ltac run_psql H :=
  repeat match type of H with
         | context [?f ?w (render ?c) ?k] =>
             destruct (f w (render c) k) as [? [?|]]; simpl in H
         | context [if ?b then _ else _] => destruct b; simpl in H
         end.

Ltac munfold :=
  unfold test_user_exists, test_db_exists in *;
  unfold mbind, M_bind, bind, mret, M_ret, ret, raise, try_except,
    psql_command, getitem, token_urlsafe in *.

Section Roles.

Context {W : Type}.
Variable psql : W → string → kwargs → W * option string.
Variable token : nat → nat → string.

Lemma issued_app (st st' : state W) d :
  log st' = log st ++ d → issued st st' = d.
Proof. intros E. unfold issued. by rewrite E, drop_app_length. Qed.

Lemma advances_issued P (st st' : state W) :
  advances P st st' → Forall P (issued st st').
Proof. intros ((d & E & F) & _). by rewrite (issued_app _ _ _ E). Qed.

#[global] Instance guarded_preorder V : PreOrder (guarded (W:=W) V).
Proof.
  split.
  - intros st. exists []. rewrite app_nil_r. split; [done|]. by left.
  - intros a b c (d1 & E1 & F1) (d2 & E2 & F2).
    exists (d1 ++ d2). rewrite E2, E1, <- app_assoc. split; [done|].
    rewrite Forall_app, Exists_app. tauto.
Qed.

Lemma advances_guarded V (st st' : state W) :
  advances quiet st st' → guarded V st st'.
Proof. intros ((d & E & F) & _). exists d. auto. Qed.

Lemma keeps_weaken (R R' : relation (state W)) {A} (m : M W A) :
  (∀ st st', R st st' → R' st st') → keeps R m → keeps R' m.
Proof. intros HR Hm st r st' H. eapply HR, Hm, H. Qed.

Lemma keeps_bind_with (R : relation (state W)) `{!PreOrder R} {A B}
    (Q : A → Prop) (m : M W A) (f : A → M W B) :
  (∀ st a st1, m st = (Ok a, st1) → Q a) →
  keeps R m → (∀ a, Q a → keeps R (f a)) → keeps R (m ≫= f).
Proof.
  intros HQ Hm Hf st r st' H.
  apply bind_inv in H as [(a & st1 & H1 & H2)|(e & H1 & _)].
  - etransitivity; [by eapply Hm | eapply Hf; [by eapply HQ|done]].
  - by eapply Hm.
Qed.

Lemma provision_role_verified conn_data usert data st user pw w' o :
  data !! usert = Some user →
  data !! (usert +:+ "_password") = Some pw →
  PyStr.nonempty pw = true →
  psql (world st) (render (SelectRole user)) (role_conn conn_data user pw)
    = (w', Some o) →
  provision_role psql token conn_data usert data st
    = (Ok data,
       State w' (log st ++ [Event (SelectRole user) (role_conn conn_data user pw) (Some o)])
             (drawn st) (stdin st) (conf_files st) (config_ini st)).
Proof.
  intros Hu Hp Hne Hv. unfold provision_role. munfold.
  rewrite Hu, Hp. simpl. rewrite Hne. simpl. rewrite Hv. reflexivity.
Qed.

Lemma provision_role_supplied conn_data usert data st pw data1 st1 :
  data !! (usert +:+ "_password") = Some pw →
  PyStr.nonempty pw = true →
  provision_role psql token conn_data usert data st = (Ok data1, st1) →
  data1 = data ∧ drawn st1 = drawn st.
Proof.
  intros Hp Hne. unfold provision_role. munfold.
  destruct (data !! usert) as [user|]; [|discriminate].
  rewrite Hp. simpl. rewrite Hne. simpl. intros H.
  run_psql H; try discriminate.
  all: by injection H as <- <-.
Qed.

Lemma provision_role_guarded V conn_data usert data user pw :
  data !! usert = Some user →
  data !! (usert +:+ "_password") = Some pw →
  PyStr.nonempty pw = true →
  (∀ e, rejected conn_data user pw e → V e) →
  keeps (guarded V) (provision_role psql token conn_data usert data).
Proof.
  intros Hu Hp Hne HV st r st' H.
  destruct (psql (world st) (render (SelectRole user))
              (role_conn conn_data user pw)) as [w' [o|]] eqn:E.
  - erewrite provision_role_verified in H by eassumption.
    injection H as <- <-. eexists. split; [reflexivity|]. left.
    by repeat constructor.
  - unfold provision_role in H. munfold.
    rewrite Hu, Hp in H. simpl in H. rewrite Hne in H. simpl in H.
    rewrite E in H. simpl in H. run_psql H; injection H as <- <-; simpl.
    all: eexists; split; [rewrite <- ?app_assoc; reflexivity|].
    all: right; apply Exists_cons_hd, HV; reflexivity.
Qed.

Lemma provision_database_returns database member conn_data dropdb data st
    data' st' :
  provision_database psql token database member conn_data dropdb data st
    = (Ok data', st') →
  let stored := default EmptyString (data !! "auth_secret") in
  if PyStr.nonempty stored
  then data' = <["auth_secret" := stored]> data ∧ drawn st' = drawn st
  else data' = <["auth_secret" := token (drawn st) 32]> data
       ∧ drawn st' = S (drawn st).
Proof.
  unfold provision_database. munfold. simpl. intros H.
  destruct (PyStr.nonempty _); simpl in H.
  all: destruct (_ !! "owner"); simpl in H; [|discriminate].
  all: destruct (_ !! "client"); simpl in H.
  all: run_psql H; try discriminate.
  all: by injection H as <- <-.
Qed.

Lemma create_database_guarded data conn_data dropdb owner client po pc :
  data !! "owner" = Some owner →
  data !! "client" = Some client →
  data !! "owner_password" = Some po → PyStr.nonempty po = true →
  data !! "client_password" = Some pc → PyStr.nonempty pc = true →
  keeps (guarded (fun e => rejected conn_data owner po e
                           ∨ rejected conn_data client pc e))
    (create_database psql token data conn_data dropdb).
Proof.
  intros Ho Hc Hpo Hneo Hpc Hnec. unfold create_database.
  apply keeps_bind; [apply _|apply keeps_getitem, _|intros database].
  apply keeps_bind; [apply _| |intros present].
  { eapply keeps_weaken; [apply advances_guarded|]. repeat keeps_step. }
  apply keeps_bind; [apply _| |intros _].
  { eapply keeps_weaken; [apply advances_guarded|]. repeat keeps_step. }
  apply (keeps_bind_with _ (fun d => d = data)).
  { intros st d st1 H. by eapply provision_role_supplied in H as [-> _]. }
  { eapply provision_role_guarded; eauto. }
  intros ? ->.
  apply (keeps_bind_with _ (fun d => d = data)).
  { intros st d st1 H. by eapply provision_role_supplied in H as [-> _]. }
  { eapply provision_role_guarded; eauto. }
  intros ? ->.
  eapply keeps_weaken; [apply advances_guarded|].
  apply provision_database_quiet.
Qed.

(** With both passwords stored and no check refused, [create_database]
    neither creates a login role nor sets a password, and the secrets of
    the record it returns are those it was given. *)
Lemma rerun_secrets data conn_data dropdb st r st'
    owner client po pc :
  data !! "owner" = Some owner →
  data !! "client" = Some client →
  data !! "owner_password" = Some po → PyStr.nonempty po = true →
  data !! "client_password" = Some pc → PyStr.nonempty pc = true →
  create_database psql token data conn_data dropdb st = (r, st') →
  Forall (fun e => ¬ rejected conn_data owner po e
                   ∧ ¬ rejected conn_data client pc e) (issued st st') →
  Forall quiet (issued st st')
  ∧ (∀ data', r = Ok data' →
       data' !! "owner_password" = Some po
       ∧ data' !! "client_password" = Some pc
       ∧ let stored := default EmptyString (data !! "auth_secret") in
         if PyStr.nonempty stored
         then data' = data ∧ drawn st' = drawn st
         else data' = <["auth_secret" := token (drawn st) 32]> data
              ∧ drawn st' = S (drawn st)).
Proof.
  intros Ho Hc Hpo Hneo Hpc Hnec H Hver. split.
  - destruct (create_database_guarded _ _ dropdb _ _ _ _
                Ho Hc Hpo Hneo Hpc Hnec _ _ _ H) as (d & E & [F|F]).
    + by rewrite (issued_app _ _ _ E).
    + rewrite (issued_app _ _ _ E) in Hver.
      apply Exists_exists in F as (e & Hin & Hrej).
      rewrite Forall_forall in Hver. destruct (Hver e Hin). tauto.
  - intros data' ->. unfold create_database in H.
    apply bind_ok in H as (database & st1 & H0 & H).
    apply bind_ok in H as (present & st2 & Hm & H).
    apply bind_ok in H as ([] & st3 & Hg & H).
    apply bind_ok in H as (d1 & st4 & H1 & H).
    apply bind_ok in H as (d2 & st5 & H2 & H).
    eapply provision_role_supplied in H1 as [-> E1]; [|done..].
    eapply provision_role_supplied in H2 as [-> E2]; [|done..].
    apply provision_database_returns in H. simpl in H.
    assert (drawn st3 = drawn st) as E3.
    { unfold getitem in H0. destruct (data !! "database"); [|done].
      injection H0 as <- <-.
      munfold. simpl in Hm. run_psql Hm; try discriminate.
      all: injection Hm as <- <-.
      all: simpl in Hg; run_psql Hg; try discriminate.
      all: by injection Hg as <-. }
    rewrite E2, E1, E3 in H.
    destruct (data !! "auth_secret") as [secret|] eqn:Hs; simpl in *.
    + destruct (PyStr.nonempty secret).
      * destruct H as [-> ->]. rewrite insert_id by done. done.
      * destruct H as [-> ->]. by rewrite !lookup_insert_ne.
    + destruct H as [-> ->]. by rewrite !lookup_insert_ne.
Qed.

End Roles.

Section Database.

Context {W : Type}.
Variable psql : W → string → kwargs → W * option string.
Variable token : nat → nat → string.

Lemma emits_nil (st : state W) : emits [] st st.
Proof. unfold emits. by rewrite app_nil_r. Qed.

Lemma emits_app d1 d2 (a b c : state W) :
  emits d1 a b → emits d2 b c → emits (d1 ++ d2) a c.
Proof. unfold emits. intros E1 E2. by rewrite E2, E1, app_assoc. Qed.

Lemma emits_issued d (st st' : state W) : emits d st st' → issued st st' = d.
Proof. apply issued_app. Qed.

Lemma psql_ok c kw st o st1 :
  psql_command psql c kw st = (Ok o, st1) →
  emits [Event c kw (Some o)] st st1.
Proof.
  unfold psql_command, emits.
  destruct (psql _ _ _) as [w' [o'|]]; [|discriminate].
  by intros [= <- <-].
Qed.

Lemma getitem_ok (d : dict) key (st : state W) v st1 :
  getitem d key st = (Ok v, st1) → d !! key = Some v ∧ st1 = st.
Proof.
  unfold getitem. destruct (d !! key); [|discriminate]. by intros [= <- <-].
Qed.

Lemma mret_ok {A} (a : A) (st : state W) b st1 :
  (mret a : M W A) st = (Ok b, st1) → b = a ∧ st1 = st.
Proof. by intros [= <- <-]. Qed.

Lemma test_db_ok t kw st b st1 :
  test_db_exists psql t kw st = (Ok b, st1) →
  ∃ o, b = PyStr.eqb (PyStr.strip o) t
       ∧ emits [Event (SelectDatabase t) kw (Some o)] st st1.
Proof.
  unfold test_db_exists. intros H.
  apply bind_ok in H as (o & st2 & H1 & H). apply psql_ok in H1.
  apply mret_ok in H as [-> ->]. eauto.
Qed.

Lemma secret_ok (data : dict) (st : state W) secret st1 :
  (if PyStr.nonempty (default EmptyString (data !! "auth_secret"))
   then (mret (default EmptyString (data !! "auth_secret")) : M W string)
   else token_urlsafe token 32) st = (Ok secret, st1) →
  emits [] st st1.
Proof.
  destruct (PyStr.nonempty _); intros [= <- <-]; unfold emits; simpl;
    by rewrite app_nil_r.
Qed.

(** The statements of the second part of [create_database], on each of
    its three paths. *)
Lemma provision_database_trace database member conn_data dropdb data st
    data' st' :
  provision_database psql token database member conn_data dropdb data st
    = (Ok data', st') →
  ∃ owner client secret o middle,
    data' !! "owner" = Some owner ∧ data' !! "client" = Some client
    ∧ data' !! "auth_secret" = Some secret
    ∧ Event (SelectDatabase database) conn_data (Some o) ∈ issued st st'
    ∧ ev_cmd <$> issued st st'
      = SelectDatabase database :: middle
          ++ closing database member owner client secret
    ∧ Forall (fun e => is_Some (ev_out e)) (issued st st')
    ∧ if PyStr.eqb (PyStr.strip o) database then
        if dropdb then
          ∃ extra,
            Event (SelectExtraRoles database) conn_data (Some extra)
              ∈ issued st st'
            ∧ middle
              = [SelectExtraRoles database; DropDatabase database]
                  ++ (if PyStr.nonempty (PyStr.strip extra)
                      then [DropRole (PyStr.strip extra)] else [])
                  ++ [CreateDatabase database owner]
        else
          ∃ out,
            Event (SelectOwner database) conn_data (Some out)
              ∈ issued st st'
            ∧ middle
              = SelectOwner database
                  :: (if PyStr.eqb (PyStr.strip out) owner then []
                      else [AlterSetOwner database owner])
      else middle = [CreateDatabase database owner].
Proof.
  unfold provision_database. intros H.
  apply bind_ok in H as (secret & st1 & E1 & H). apply secret_ok in E1.
  apply bind_ok in H as (owner & st2 & E2 & H).
  apply getitem_ok in E2 as [Ho ->].
  apply bind_ok in H as (db_exists & st3 & E3 & H).
  apply test_db_ok in E3 as (o & -> & E3).
  apply bind_ok in H as (db_exists & st4 & E4 & H).
  apply bind_ok in H as ([] & st5 & E5 & H).
  apply bind_ok in H as (client & st6 & E6 & H).
  apply getitem_ok in E6 as [Hc ->].
  apply bind_ok in H as (? & st7 & E7 & H). apply psql_ok in E7.
  apply bind_ok in H as (client' & st8 & E8 & H).
  apply getitem_ok in E8 as [Hc' ->].
  assert (client' = client) as -> by congruence.
  apply bind_ok in H as (? & st9 & E9 & H). apply psql_ok in E9.
  apply bind_ok in H as (? & st10 & E10 & H). apply psql_ok in E10.
  apply bind_ok in H as (? & st11 & E11 & H). apply psql_ok in E11.
  apply mret_ok in H as [-> ->].
  pose proof (emits_app _ _ _ _ _ E7 (emits_app _ _ _ _ _ E9
                (emits_app _ _ _ _ _ E10 E11))) as Etail.
  clear E7 E9 E10 E11. simpl in Etail.
  exists owner, client, secret, o.
  assert (∀ middle dmid,
            emits dmid st3 st5 → ev_cmd <$> dmid = middle →
            Forall (fun e => is_Some (ev_out e)) dmid →
            issued st st11
            = Event (SelectDatabase database) conn_data (Some o) :: dmid
                ++ [Event (AlterGroupAddUser owner client) conn_data (Some x);
                    Event (AlterGroupAddUser member client) conn_data (Some x0);
                    Event (SetJwtSecret database secret) conn_data (Some x1);
                    Event (AlterSchemaOwner owner)
                      (<["db" := VStr database]> conn_data) (Some x2)]
            ∧ ev_cmd <$> issued st st11
              = SelectDatabase database :: middle
                  ++ closing database member owner client secret
            ∧ Forall (fun e => is_Some (ev_out e)) (issued st st11))
    as Hsum.
  { intros middle dmid Emid <- Hmid.
    pose proof (emits_app _ _ _ _ _ E1 (emits_app _ _ _ _ _ E3
                  (emits_app _ _ _ _ _ Emid Etail))) as Eall.
    apply emits_issued in Eall. simpl in Eall. rewrite Eall.
    split; [done|]. split.
    - by rewrite fmap_cons, fmap_app.
    - constructor; [by eexists|]. apply Forall_app. split; [done|].
      repeat constructor; by eexists. }
  destruct (PyStr.eqb (PyStr.strip o) database); simpl in E4;
    [destruct dropdb; simpl in E4|].
  - apply bind_ok in E4 as (extra & sa & Ea & E4). apply psql_ok in Ea.
    apply bind_ok in E4 as (y & sb & Eb & E4). apply psql_ok in Eb.
    apply bind_ok in E4 as ([] & sc & Ec & E4).
    apply mret_ok in E4 as [-> ->]. simpl in E5.
    apply bind_ok in E5 as (z & sd & Ed & E5). apply psql_ok in Ed.
    apply mret_ok in E5 as [_ ->].
    destruct (PyStr.nonempty (PyStr.strip extra)) eqn:Hextra.
    + apply bind_ok in Ec as (y' & se & Ee & Ec). apply psql_ok in Ee.
      apply mret_ok in Ec as [_ ->].
      pose proof (emits_app _ _ _ _ _ Ea (emits_app _ _ _ _ _ Eb
                    (emits_app _ _ _ _ _ Ee Ed))) as Emid.
      simpl in Emid. eexists.
      edestruct Hsum as (Hall & Hcmd & Hout); [exact Emid|reflexivity| |].
      { repeat constructor; by eexists. }
      rewrite lookup_insert_eq. repeat split; try done.
      * rewrite Hall. repeat constructor.
      * exists extra. rewrite Hextra, Hall. split; [repeat constructor|done].
    + apply mret_ok in Ec as [_ ->].
      pose proof (emits_app _ _ _ _ _ Ea (emits_app _ _ _ _ _ Eb Ed)) as Emid.
      simpl in Emid. eexists.
      edestruct Hsum as (Hall & Hcmd & Hout); [exact Emid|reflexivity| |].
      { repeat constructor; by eexists. }
      rewrite lookup_insert_eq. repeat split; try done.
      * rewrite Hall. repeat constructor.
      * exists extra. rewrite Hextra, Hall. split; [repeat constructor|done].
  - apply mret_ok in E4 as [-> ->]. simpl in E5.
    apply bind_ok in E5 as (out & sa & Ea & E5). apply psql_ok in Ea.
    destruct (PyStr.eqb (PyStr.strip out) owner) eqn:Hout'; simpl in E5.
    + apply mret_ok in E5 as [_ ->]. eexists.
      edestruct Hsum as (Hall & Hcmd & Hout); [exact Ea|reflexivity| |].
      { repeat constructor; by eexists. }
      rewrite lookup_insert_eq. repeat split; try done.
      * rewrite Hall. repeat constructor.
      * exists out. rewrite Hout', Hall. split; [repeat constructor|done].
    + apply bind_ok in E5 as (y & sb & Eb & E5). apply psql_ok in Eb.
      apply mret_ok in E5 as [_ ->].
      pose proof (emits_app _ _ _ _ _ Ea Eb) as Emid. simpl in Emid.
      eexists.
      edestruct Hsum as (Hall & Hcmd & Hout); [exact Emid|reflexivity| |].
      { repeat constructor; by eexists. }
      rewrite lookup_insert_eq. repeat split; try done.
      * rewrite Hall. repeat constructor.
      * exists out. rewrite Hout', Hall. split; [repeat constructor|done].
  - apply mret_ok in E4 as [-> ->]. simpl in E5.
    apply bind_ok in E5 as (z & sd & Ed & E5). apply psql_ok in Ed.
    apply mret_ok in E5 as [_ ->]. eexists.
    edestruct Hsum as (Hall & Hcmd & Hout); [exact Ed|reflexivity| |].
    { repeat constructor; by eexists. }
    rewrite lookup_insert_eq. repeat split; try done.
    rewrite Hall. repeat constructor.
Qed.
Lemma try_ok {A} (m h : M W A) st a st' :
  try_except m h st = (Ok a, st') →
  m st = (Ok a, st')
  ∨ ∃ st1, m st = (Raise AssertionError, st1) ∧ h st1 = (Ok a, st').
Proof.
  unfold try_except. destruct (m st) as [[b|[]] st1]; try discriminate; eauto.
Qed.

Lemma provision_role_stage conn_data usert data :
  keeps (advances role_stage)
    (provision_role psql token conn_data usert data).
Proof. unfold provision_role. repeat keeps_step. Qed.

(** A round of the loop on the roles changes [data] at most at the
    password it generates. *)
Lemma provision_role_data conn_data usert data st data1 st1 :
  provision_role psql token conn_data usert data st = (Ok data1, st1) →
  data1 = data ∨ ∃ pw, data1 = <[usert +:+ "_password" := pw]> data.
Proof.
  unfold provision_role. intros H.
  apply bind_ok in H as (user & st2 & _ & H).
  apply bind_ok in H as (pw & st3 & _ & H).
  apply bind_ok in H as ([skip d] & st4 & E & H).
  assert (d = data ∨ d = <[usert +:+ "_password" := pw]> data) as Hd.
  { destruct (PyStr.nonempty _).
    - left. apply try_ok in E as [E|(? & _ & E)].
      + apply bind_ok in E as (? & ? & _ & E). by inversion E.
      + by inversion E.
    - right. by inversion E. }
  assert (data1 = d) as ->.
  { destruct skip.
    - by apply mret_ok in H as [-> _].
    - apply bind_ok in H as (? & ? & _ & H).
      apply bind_ok in H as (? & ? & _ & H).
      by apply mret_ok in H as [-> _]. }
  destruct Hd; eauto.
Qed.

Lemma issued_split (st st1 st' : state W) d :
  log st1 = log st ++ d → (∃ d', log st' = log st1 ++ d') →
  issued st st' = d ++ issued st1 st'.
Proof.
  intros E (d' & E'). rewrite (issued_app _ _ _ E').
  apply issued_app. by rewrite E', E, app_assoc.
Qed.

Lemma provision_role_names conn_data usert data st data1 st1 key :
  provision_role psql token conn_data usert data st = (Ok data1, st1) →
  key ≠ usert +:+ "_password" → data1 !! key = data !! key.
Proof.
  intros H Hne. apply provision_role_data in H as [->|[pw ->]]; [done|].
  by rewrite lookup_insert_ne.
Qed.

Lemma test_user_stage role conn_data :
  keeps (advances role_stage) (test_user_exists psql role conn_data).
Proof. repeat keeps_step. Qed.

Lemma create_member_stage (present : bool) member conn_data :
  keeps (advances role_stage)
    (if negb present
     then psql_command psql (CreateRole member) conn_data;; mret ()
     else mret ()).
Proof. repeat keeps_step. Qed.

(** A run of [create_database] that returns: first the calls about the
    member group and the login roles, then the part on the database. *)
Lemma create_database_stages data conn_data dropdb st data' st' database :
  data !! "database" = Some database →
  create_database psql token data conn_data dropdb st = (Ok data', st') →
  ∃ data2 st2 before,
    emits before st st2 ∧ Forall role_stage before
    ∧ (∀ key, key ≠ "owner_password" → key ≠ "client_password" →
              data2 !! key = data !! key)
    ∧ provision_database psql token database (database +:+ "__member")
        conn_data dropdb data2 st2 = (Ok data', st')
    ∧ issued st st' = before ++ issued st2 st'.
Proof.
  intros Hdb H. unfold create_database in H.
  apply bind_ok in H as (database' & st1 & E0 & H).
  apply getitem_ok in E0 as [E0 ->].
  assert (database' = database) as -> by congruence.
  apply bind_ok in H as (present & sa & Ea & H).
  apply bind_ok in H as ([] & sb & Eb & H).
  apply bind_ok in H as (d1 & sc & Ec & H).
  apply bind_ok in H as (d2 & sd & Ed & H).
  pose proof (test_user_stage _ _ _ _ _ Ea) as Ra.
  pose proof (create_member_stage _ _ _ _ _ _ Eb) as Rb.
  pose proof (provision_role_stage _ _ _ _ _ _ Ec) as Rc.
  pose proof (provision_role_stage _ _ _ _ _ _ Ed) as Rd.
  destruct (transitivity Ra (transitivity Rb (transitivity Rc Rd)))
    as ((before & Elog & Hbefore) & _).
  exists d2, sd, before. repeat split; try done.
  - intros key Ho Hc.
    rewrite (provision_role_names _ _ _ _ _ _ _ Ed) by done.
    by rewrite (provision_role_names _ _ _ _ _ _ _ Ec).
  - apply issued_split; [done|].
    destruct (provision_database_quiet _ _ _ _ _ _ _ _ _ _ H)
      as ((d' & E' & _) & _). eauto.
Qed.

(** C4. When [create_database] runs to its end with [dropdb] set and the
    database is there already, it drops the database, then the roles the
    pattern query reported, all of them in one DROP ROLE statement, then
    creates the database with the expected owner, and no later statement
    changes the owner of the database. In particular the statement that
    gives the database its owner is sent whatever owner the database had
    before. The calls before these concern the member group and the two
    login roles only. *)
Theorem dropdb_recreates data conn_data st data' st' database owner client :
  data !! "database" = Some database →
  data !! "owner" = Some owner →
  data !! "client" = Some client →
  create_database psql token data conn_data true st = (Ok data', st') →
  Forall (fun e => ev_cmd e = SelectDatabase database →
                   ∃ o, ev_out e = Some o ∧ PyStr.strip o = database)
         (issued st st') →
  ∃ before after extra secret,
    issued st st' = before ++ after
    ∧ Forall role_stage before
    ∧ Forall (fun e => is_Some (ev_out e)) after
    ∧ Event (SelectExtraRoles database) conn_data (Some extra) ∈ after
    ∧ ev_cmd <$> after
      = [SelectDatabase database; SelectExtraRoles database;
         DropDatabase database]
          ++ (if PyStr.nonempty (PyStr.strip extra)
              then [DropRole (PyStr.strip extra)] else [])
          ++ [CreateDatabase database owner]
          ++ closing database (database +:+ "__member") owner client secret
    ∧ data' !! "owner" = Some owner.
Proof.
  intros Hdb Ho Hc H Hexists.
  destruct (create_database_stages _ _ _ _ _ _ _ Hdb H)
    as (data2 & st2 & before & Ebefore & Hbefore & Hkeys & H2 & Hsplit).
  assert (data2 !! "owner" = data !! "owner") as Ho2 by by apply Hkeys.
  assert (data2 !! "client" = data !! "client") as Hc2 by by apply Hkeys.
  destruct (provision_database_trace _ _ _ _ _ _ _ _ H2)
    as (owner' & client' & secret & o & middle
        & Ho' & Hc' & Hs' & Hprobe & Hcmds & Houts & Hpath).
  pose proof (provision_database_returns _ _ _ _ _ _ _ _ _ _ H2) as Hret.
  assert (data' !! "owner" = data2 !! "owner"
          ∧ data' !! "client" = data2 !! "client") as [Eo Ec].
  { simpl in Hret. destruct (PyStr.nonempty _); destruct Hret as [-> _];
      by rewrite !lookup_insert_ne. }
  assert (owner' = owner) as -> by congruence.
  assert (client' = client) as -> by congruence.
  assert (PyStr.eqb (PyStr.strip o) database = true) as Hyes.
  { rewrite Forall_forall in Hexists.
    destruct (Hexists (Event (SelectDatabase database) conn_data (Some o)))
      as (o' & [= <-] & Hstrip); [|done|].
    - rewrite Hsplit. apply elem_of_app. by right.
    - unfold PyStr.eqb. by apply bool_decide_eq_true. }
  rewrite Hyes in Hpath. destruct Hpath as (extra & Hextra & ->).
  exists before, (issued st2 st'), extra, secret.
  repeat split; try done.
  rewrite Hcmds. simpl. by rewrite <- !app_assoc.
Qed.

End Database.

Section Credentials.

Context {W : Type}.
Variable psql : W → string → kwargs → W * option string.
Variable darwin : bool.
Variable getuser : string.

Lemma input_ok (st : state W) line st1 :
  input st = (Ok line, st1) →
  stdin st = line :: stdin st1 ∧ emits [] st st1.
Proof.
  unfold input, emits. destruct (stdin st) eqn:E; [discriminate|].
  intros [= <- <-]. simpl. by rewrite app_nil_r.
Qed.

Lemma test_db_stdin t kw (st : state W) r st1 :
  test_db_exists psql t kw st = (r, st1) → stdin st1 = stdin st.
Proof.
  unfold test_db_exists, psql_command.
  unfold mbind, M_bind, bind, mret, M_ret, ret.
  destruct (psql _ _ _) as [w' [o|]]; simpl; by intros [= <- <-].
Qed.

Lemma psql_raise c kw (st : state W) e st1 :
  psql_command psql c kw st = (Raise e, st1) →
  emits [Event c kw None] st st1 ∧ stdin st1 = stdin st.
Proof.
  unfold psql_command, emits.
  destruct (psql _ _ _) as [w' [o|]]; [discriminate|]. by intros [= <- <-].
Qed.

(** A probe inside [try ... except AssertionError]: one call, whose
    outcome decides the result; the operator's lines are left alone. *)
Lemma probe_caught kw (st : state W) r st1 :
  try_except (test_db_exists psql "postgres" kw;; mret true) (mret false) st
    = (r, st1) →
  ∃ out, emits [Event (SelectDatabase "postgres") kw out] st st1
         ∧ stdin st1 = stdin st
         ∧ r = Ok (bool_decide (is_Some out)).
Proof.
  unfold try_except, test_db_exists, psql_command, emits.
  unfold mbind, M_bind, bind, mret, M_ret, ret.
  destruct (psql _ _ _) as [w' [o|]]; simpl; intros [= <- <-]; simpl.
  - by exists (Some o).
  - by exists None.
Qed.

Lemma prompt_loop_returns lines user host rest st u p st' :
  prompt_loop psql lines user host rest st = (Ok (u, p), st') →
  stdin st = lines →
  ∃ failed o,
    emits (failed ++ [Event (SelectDatabase "postgres")
                        (login_args u host p rest) (Some o)]) st st'
    ∧ Forall (fun e => ev_out e = None
                       ∧ ev_cmd e = SelectDatabase "postgres") failed
    ∧ (length lines = length (stdin st') + 2 * S (length failed))%nat.
Proof.
  revert user st.
  induction lines as [lines IH] using (induction_ltof1 _ length).
  intros user st H Hin. destruct lines as [|l1 [|l2 lines']]; simpl in H.
  - apply bind_ok in H as (? & ? & H1 & _).
    apply input_ok in H1 as [H1 _]. congruence.
  - apply bind_ok in H as (? & s1 & H1 & H).
    apply input_ok in H1 as [H1 _].
    apply bind_ok in H as (? & s2 & H2 & _).
    apply input_ok in H2 as [H2 _]. congruence.
  - apply bind_ok in H as (a & s1 & H1 & H).
    apply input_ok in H1 as [H1 E1].
    apply bind_ok in H as (t & s2 & H2 & H).
    apply input_ok in H2 as [H2 E2].
    assert (a = l1 ∧ t = l2 ∧ stdin s2 = lines') as (-> & -> & Hrest)
      by (split_and!; congruence).
    apply bind_inv in H as [(ok & s3 & H3 & H)|(e & H3 & ?)]; [|done].
    apply probe_caught in H3 as (out & E3 & Hs3 & [= ->]).
    destruct out as [o|].
    + change (bool_decide (is_Some (Some o))) with true in H.
      apply mret_ok in H as [[= -> ->] ->]. exists [], o.
      split; [|split; [constructor|]].
      * simpl. exact (emits_app _ _ _ _ _ E1 (emits_app _ _ _ _ _ E2 E3)).
      * simpl. rewrite Hs3, Hrest. lia.
    + change (bool_decide (is_Some (@None string))) with false in H.
      apply IH in H as (failed & o & E & Hf & Hlen);
        [|unfold ltof; simpl; lia|congruence].
      eexists (_ :: failed), o. split; [|split].
      * exact (emits_app _ _ _ _ _ E1 (emits_app _ _ _ _ _ E2
                 (emits_app _ _ _ _ _ E3 E))).
      * by constructor.
      * simpl. lia.
Qed.

(** [get_conn_params] returns only after a probe that succeeded, the last
    call it made; every probe before it failed and was followed by one
    round of prompts. The parameters returned are those of that probe,
    but for [sudo]: the retried probes are sent without it. *)
Lemma get_conn_params_returns conn_data st c st' :
  get_conn_params psql darwin getuser conn_data st = (Ok c, st') →
  ∃ failed e,
    issued st st' = failed ++ [e]
    ∧ Forall (fun e => ev_out e = None
                       ∧ ev_cmd e = SelectDatabase "postgres") failed
    ∧ is_Some (ev_out e) ∧ ev_cmd e = SelectDatabase "postgres"
    ∧ (∀ key, key ≠ "sudo" → c !! key = ev_conn e !! key)
    ∧ (failed = [] → c = ev_conn e)
    ∧ (length (stdin st) = length (stdin st') + 2 * length failed)%nat.
Proof.
  unfold get_conn_params. intros H.
  apply bind_ok in H as ([u p] & s1 & H1 & H).
  apply mret_ok in H as [-> ->].
  apply try_ok in H1 as [H1|(s0 & H0 & H1)].
  - apply bind_ok in H1 as (b & s2 & H1 & H2).
    apply mret_ok in H2 as [[= -> ->] ->].
    pose proof (test_db_stdin _ _ _ _ _ H1) as Hs.
    apply test_db_ok in H1 as (o & _ & E). eexists [], _.
    rewrite (emits_issued _ _ _ E). simpl.
    split_and!; eauto. rewrite Hs. lia.
  - apply bind_inv in H0 as [(b & s2 & _ & H2)|(e & H0 & _)]; [done|].
    unfold test_db_exists in H0.
    apply bind_inv in H0 as [(b & s2 & _ & H2)|(e' & H0 & _)]; [done|].
    apply psql_raise in H0 as [E0 Hs0].
    apply prompt_loop_returns in H1 as (failed & o & E & Hf & Hlen); [|done].
    eexists (_ :: failed), _.
    rewrite (emits_issued _ _ _ (emits_app _ _ _ _ _ E0 E)).
    split; [done|]. split; [by constructor|]. split; [by eexists|].
    split; [done|]. split; [|split; [done|]].
    + intros key Hkey. simpl. by rewrite lookup_insert_ne.
    + rewrite <- Hs0. simpl. lia.
Qed.

End Credentials.

Section Startup.

Context {W : Type}.

Lemma getboolean_readable config (options : dict) (st : state W) :
  default ∅ config !! "postgres" = Some options →
  sudo_readable config = true →
  ∃ v, getboolean options "sudo" st = (Ok v, st).
Proof.
  intros Hopt. unfold sudo_readable, stored, ini_get, getboolean.
  destruct config as [ini_file|]; simpl in *; [|by rewrite lookup_empty in Hopt].
  rewrite Hopt. simpl.
  destruct (options !! "sudo") as [v|]; [|by eexists].
  intros Hin%bool_decide_eq_true.
  change ["1"; "yes"; "true"; "on"; "0"; "no"; "false"; "off"]
    with (["1"; "yes"; "true"; "on"] ++ ["0"; "no"; "false"; "off"]) in Hin.
  destruct (bool_decide (PyStr.lower v ∈ ["1"; "yes"; "true"; "on"])) eqn:E1;
    [by eexists|].
  destruct (bool_decide (PyStr.lower v ∈ ["0"; "no"; "false"; "off"])) eqn:E2;
    [by eexists|].
  apply bool_decide_eq_false in E1, E2. exfalso.
  rewrite elem_of_app in Hin. tauto.
Qed.

(** The script's start has no effect but its result. *)
Lemma startup_pure argv (st : state W) r st' :
  startup argv st = (r, st') → st' = st.
Proof.
  unfold startup, read_config, connection_defaults, getboolean.
  unfold mbind, M_bind, bind, mret, M_ret, ret, raise.
  repeat case_match; simplify_eq; congruence.
Qed.

Lemma parse_args_parsed argv config (ini_file : ini) conn_data name :
  (∀ s k, ini_get ini_file s k = stored config s k) →
  default name (cli_app_name argv) = resolved_app_name argv config →
  parsed argv config (parse_args argv ini_file conn_data name).
Proof.
  intros Hget Hname. unfold parsed. split_and!; try done.
  intros db Hdb. unfold database_arg, cli_database. simpl. rewrite !Hget.
  unfold PyStr.eqb. repeat case_bool_decide; subst; try done.
  unfold DATABASES in Hdb. rewrite !elem_of_cons in Hdb.
  destruct Hdb as [|[|[|Hnil]]]; try done. by subst. by inversion Hnil.
Qed.

(** What the start of the script returns when it returns: the namespace
    parsed against an [ini_file] that reads as the state file does. *)
Lemma startup_cases argv (st : state W) :
  sudo_readable (config_ini st) = true →
  ∃ conn_data ini_file name,
    default name (cli_app_name argv)
      = resolved_app_name argv (config_ini st)
    ∧ (∀ s k, ini_get ini_file s k = stored (config_ini st) s k)
    ∧ (∀ s, s ≠ "postgres" → s ≠ "base" →
            ini_file !! s = default ∅ (config_ini st) !! s)
    ∧ startup argv st
      = if PyStr.eqb (resolved_app_name argv (config_ini st)) "MISSING"
        then (Raise (RuntimeError "You must specify an app_name"), st)
        else (Ok (parse_args argv ini_file conn_data name, conn_data,
                  ini_file), st).
Proof.
  intros Hsudo. unfold startup, read_config.
  unfold mbind, M_bind, bind. simpl.
  set (ini0 := default ∅ (config_ini st)).
  assert (∀ s k, ini_get ini0 s k = stored (config_ini st) s k) as Hget.
  { intros s k. unfold stored, ini0. destruct (config_ini st); [done|].
    simpl. unfold ini_get. by rewrite lookup_empty. }
  assert (∃ conn_data ini1,
            (∀ s k, ini_get ini1 s k = ini_get ini0 s k)
            ∧ (∀ s, s ≠ "postgres" → ini1 !! s = ini0 !! s)
            ∧ connection_defaults ini0 st = (Ok (conn_data, ini1), st))
    as (conn_data & ini1 & Hsame & Hframe & ->).
  { unfold connection_defaults.
    destruct (ini0 !! "postgres") as [options|] eqn:Hopt.
    - destruct (getboolean_readable _ _ st Hopt Hsudo) as [v Hv].
      eexists _, ini0. split; [done|]. split; [done|].
      simpl. unfold mbind, M_bind, bind. by rewrite Hv.
    - eexists _, _. split; [|split; [|done]].
      + intros s k. unfold ini_get.
        destruct (decide (s = "postgres")) as [->|].
        * by rewrite lookup_insert_eq, Hopt.
        * by rewrite lookup_insert_ne.
      + intros s Hs. by rewrite lookup_insert_ne. }
  assert (default "MISSING" (ini_get ini1 "base" "app_name")
          = default "MISSING" (stored (config_ini st) "base" "app_name"))
    as Hname by (by rewrite Hsame, Hget).
  destruct (ini1 !! "base") as [options|] eqn:Hbase.
  - exists conn_data, ini1, (default "MISSING" (options !! "app_name")).
    unfold ini_get in Hname. rewrite Hbase in Hname. simpl in Hname.
    assert (default (default "MISSING" (options !! "app_name"))
              (cli_app_name argv)
            = resolved_app_name argv (config_ini st)) as E
      by (unfold resolved_app_name; by rewrite <- Hname).
    split; [done|]. split; [by intros; rewrite Hsame, Hget|].
    split; [by intros; rewrite Hframe|].
    simpl. rewrite E. by destruct (PyStr.eqb _ _).
  - exists conn_data, (<["base" := ∅]> ini1), "MISSING".
    unfold ini_get in Hname. rewrite Hbase in Hname. simpl in Hname.
    assert (default "MISSING" (cli_app_name argv)
            = resolved_app_name argv (config_ini st)) as E
      by (unfold resolved_app_name; by rewrite <- Hname).
    split; [done|]. split; [|split].
    + intros s k. rewrite <- Hget, <- Hsame. unfold ini_get.
      destruct (decide (s = "base")) as [->|].
      * by rewrite lookup_insert_eq, Hbase.
      * by rewrite lookup_insert_ne.
    + intros s Hp Hb. by rewrite lookup_insert_ne, Hframe.
    + simpl. rewrite E. by destruct (PyStr.eqb _ _).
Qed.

End Startup.

Ltac keeps_walk :=
  lazymatch goal with
  | |- keeps _ (mret _) => apply keeps_ret, _
  | |- keeps _ (raise _) => apply keeps_raise, _
  | |- keeps _ (_ ≫= _) => apply keeps_bind; [apply _| |intros ?]
  | |- keeps _ (getitem _ _) => apply keeps_getitem, _
  | |- keeps _ (let '(_, _) := ?x in _) => destruct x
  | |- keeps _ (if ?b then _ else _) => destruct b
  | |- keeps _ (match ?x with _ => _ end) => destruct x
  end.

Section Main.

Context {W : Type}.
Variable psql : W → string → kwargs → W * option string.
Variable token : nat → nat → string.
Variable darwin : bool.
Variable getuser : string.

#[global] Instance grows_preorder : PreOrder (grows (W:=W)).
Proof.
  split.
  - intros st. exists []. by rewrite app_nil_r.
  - intros a b c [d1 E1] [d2 E2]. exists (d1 ++ d2).
    by rewrite E2, E1, app_assoc.
Qed.

Lemma advances_grows P (st st' : state W) : advances P st st' → grows st st'.
Proof. intros ((d & E & _) & _). by exists d. Qed.

Lemma grows_write_conf name content : keeps grows (write_conf (W:=W) name content).
Proof. intros st r st' [= <- <-]. exists []. simpl. by rewrite app_nil_r. Qed.


Lemma grows_provision_env args conn_data index db ini_file :
  keeps grows (provision_env psql token args conn_data index db ini_file).
Proof.
  unfold provision_env. repeat keeps_walk.
  - eapply keeps_weaken; [apply advances_grows|].
    apply create_database_advances.
  - apply grows_write_conf.
Qed.






Lemma main_refuses argv (st : state W) :
  sudo_readable (config_ini st) = true →
  resolved_app_name argv (config_ini st) = "MISSING" →
  main psql token darwin getuser argv st
  = (Raise (RuntimeError "You must specify an app_name"), st).
Proof.
  intros Hsudo Hname.
  destruct (startup_cases argv st Hsudo)
    as (conn_data & ini_file & name & _ & _ & _ & Hstart).
  rewrite Hname in Hstart. unfold main. by rewrite (bind_raise _ _ _ _ _ Hstart).
Qed.

(** A round of the loop on the environments that returns, for an
    environment to provision: [create_database] returned a record, the
    record went to the section of the environment, the configuration of
    the REST proxy was written from it. *)
Lemma provision_env_ok args conn_data index db ini_file (st : state W)
    ini_file' st' :
  provision_env psql token args conn_data index db ini_file st
    = (Ok ini_file', st') →
  create_arg args db = true →
  ∃ data' sc client pw jwt,
    create_database psql token
      (env_data (db_name args index db) (ini_file !! db)) conn_data
      (dropdb args) st = (Ok data', sc)
    ∧ data' !! "client" = Some client
    ∧ data' !! "client_password" = Some pw
    ∧ data' !! "auth_secret" = Some jwt
    ∧ ini_file' = <[db := data' ∪ default ∅ (ini_file !! db)]> ini_file
    ∧ conf_files st'
      = <[conf_name db :=
            postgrest_config
              (db_url client pw (default VNone (conn_data !! "host"))
                 (default VNone (conn_data !! "port"))
                 (db_name args index db))
              client jwt (POSTGREST_PORT + Z.of_nat index)]> (conf_files st)
    ∧ config_ini st' = config_ini st
    ∧ (drawn st ≤ drawn sc)%nat ∧ drawn st' = drawn sc
    ∧ log st' = log sc.
Proof.
  unfold provision_env. intros H Hcreate. rewrite Hcreate in H.
  apply bind_ok in H as (data' & sc & Hc & H).
  apply bind_ok in H as (client & s1 & E1 & H).
  apply getitem_ok in E1 as [Hclient ->].
  apply bind_ok in H as (pw & s2 & E2 & H).
  apply getitem_ok in E2 as [Hpw ->].
  apply bind_ok in H as (client' & s3 & E3 & H).
  apply getitem_ok in E3 as [Hclient' ->].
  assert (client' = client) as -> by congruence.
  apply bind_ok in H as (jwt & s4 & E4 & H).
  apply getitem_ok in E4 as [Hjwt ->].
  apply bind_ok in H as ([] & s5 & E5 & H).
  apply mret_ok in H as [-> ->]. injection E5 as <-.
  destruct (create_database_advances _ _ _ _ _ _ _ _ Hc)
    as (_ & Hdrawn & Hfiles & Hconfig).
  exists data', sc, client, pw, jwt. simpl.
  split_and!; try done; try congruence.
  destruct (ini_file !! db) eqn:Hsec; simpl.
  - by rewrite Hsec.
  - by rewrite lookup_insert_eq, insert_insert_eq.
Qed.

Lemma provision_env_skip args conn_data index db ini_file (st : state W)
    r st' :
  provision_env psql token args conn_data index db ini_file st = (r, st') →
  create_arg args db = false →
  r = Ok ini_file ∧ st' = st.
Proof.
  unfold provision_env. intros H Hcreate. rewrite Hcreate in H.
  by injection H as <- <-.
Qed.

(** A round leaves alone the sections and the files of the other
    environments. *)
Lemma provision_env_frame args conn_data index db ini_file (st : state W)
    ini_file' st' :
  provision_env psql token args conn_data index db ini_file st
    = (Ok ini_file', st') →
  (∀ s, s ≠ db → ini_file' !! s = ini_file !! s)
  ∧ (∀ f, f ≠ conf_name db → conf_files st' !! f = conf_files st !! f)
  ∧ config_ini st' = config_ini st
  ∧ (drawn st ≤ drawn st')%nat.
Proof.
  intros H. destruct (create_arg args db) eqn:Hcreate.
  - destruct (provision_env_ok _ _ _ _ _ _ _ _ H Hcreate)
      as (data' & sc & client & pw & jwt & _ & _ & _ & _ & -> & -> & ? & ? & ? & _).
    split_and!; try done; try lia.
    + intros s Hs. by rewrite lookup_insert_ne.
    + intros f Hf. by rewrite lookup_insert_ne.
  - apply provision_env_skip in H as [[= ->] ->]; done.
Qed.

Lemma startup_ok_readable argv (st : state W) x st' :
  startup argv st = (Ok x, st') → sudo_readable (config_ini st) = true.
Proof.
  unfold startup, read_config, connection_defaults, sudo_readable, stored.
  intros H. apply bind_ok in H as (ini0 & s0 & [= <- <-] & H).
  apply bind_ok in H as ([c i] & s1 & H1 & _).
  unfold ini_get. destruct (config_ini st) as [ini_file|]; simpl in *; [|done].
  destruct (ini_file !! "postgres") as [options|]; simpl; [|done].
  apply bind_ok in H1 as (v & s2 & H1 & _). unfold getboolean in H1.
  destruct (options !! "sudo") as [v'|]; [|done].
  apply bool_decide_eq_true.
  change ["1"; "yes"; "true"; "on"; "0"; "no"; "false"; "off"]
    with (["1"; "yes"; "true"; "on"] ++ ["0"; "no"; "false"; "off"]).
  apply elem_of_app.
  destruct (bool_decide (_ ∈ ["1"; "yes"; "true"; "on"])) eqn:E1;
    [left; by apply bool_decide_eq_true in E1|].
  destruct (bool_decide (_ ∈ ["0"; "no"; "false"; "off"])) eqn:E2;
    [right; by apply bool_decide_eq_true in E2|].
  discriminate.
Qed.

(** A run of the script that ends well, cut at the three environments. *)
Lemma main_ok argv (st st' : state W) :
  main psql token darwin getuser argv st = (Ok (), st') →
  ∃ conn_data ini_file name c s1 i1 s2 i2 s3 i3 s4,
    let args := parse_args argv ini_file conn_data name in
    parsed argv (config_ini st) args
    ∧ (∀ s k, ini_get ini_file s k = stored (config_ini st) s k)
    ∧ (∀ s, s ≠ "postgres" → s ≠ "base" →
            ini_file !! s = default ∅ (config_ini st) !! s)
    ∧ connect psql darwin getuser args conn_data st = (Ok c, s1)
    ∧ provision_env psql token args c 0 "development"
        (record_connection args c ini_file) s1 = (Ok i1, s2)
    ∧ provision_env psql token args c 1 "test" i1 s2 = (Ok i2, s3)
    ∧ provision_env psql token args c 2 "production" i2 s3 = (Ok i3, s4)
    ∧ config_ini st' = Some i3
    ∧ conf_files st' = conf_files s4
    ∧ drawn st' = drawn s4
    ∧ log st' = log s4.
Proof.
  unfold main. intros H.
  apply bind_ok in H as ([[args c0] ini_file] & s0 & H0 & H).
  pose proof (startup_ok_readable _ _ _ _ H0) as Hsudo.
  destruct (startup_cases argv st Hsudo)
    as (conn_data & ini0 & name & Hname & Hget & Hframe & Hstart).
  pose proof (parse_args_parsed _ _ _ conn_data _ Hget Hname) as Hparsed.
  rewrite Hstart in H0. destruct (PyStr.eqb _ _); [discriminate|].
  injection H0 as <- <- <- <-.
  apply bind_ok in H as (c & s1 & Hc & H).
  apply bind_ok in H as (i3 & s4 & Hall & H).
  injection H as <-. simpl in Hall.
  apply bind_ok in Hall as (i1 & s2 & H1 & Hall).
  apply bind_ok in Hall as (i2 & s3 & H2 & Hall).
  apply bind_ok in Hall as (i3' & s4' & H3 & Hall).
  apply mret_ok in Hall as [-> ->].
  exists conn_data, ini0, name, c, s1, i1, s2, i2, s3, i3', s4'.
  simpl. split_and!; done.
Qed.

Lemma connect_quiet args conn_data :
  keeps (advances quiet) (connect psql darwin getuser args conn_data).
Proof.
  unfold connect. apply advances_bind; [apply get_conn_params_quiet|].
  intros ?. apply advances_ret.
Qed.

Lemma record_connection_frame args c (ini_file : ini) s :
  s ≠ "postgres" → s ≠ "base" →
  record_connection args c ini_file !! s = ini_file !! s.
Proof.
  intros Hp Hb. unfold record_connection, ini_set.
  destruct (store_password args); by rewrite !lookup_insert_ne.
Qed.

(** In a run of the script that ends well, what became of an
    environment that was to be provisioned. *)
Lemma main_environment argv (st st' : state W) index db :
  main psql token darwin getuser argv st = (Ok (), st') →
  DATABASES !! index = Some db →
  cli_create argv db = true →
  ∃ written args c s sc data' client pw jwt,
    config_ini st' = Some written
    ∧ parsed argv (config_ini st) args
    ∧ grows st s ∧ grows sc st'
    ∧ (drawn st ≤ drawn s)%nat ∧ (drawn sc ≤ drawn st')%nat
    ∧ create_database psql token
        (env_data (db_name args index db)
           (default ∅ (config_ini st) !! db))
        c (dropdb args) s = (Ok data', sc)
    ∧ written !! db
      = Some (data' ∪ default ∅ (default ∅ (config_ini st) !! db))
    ∧ data' !! "client" = Some client
    ∧ data' !! "client_password" = Some pw
    ∧ data' !! "auth_secret" = Some jwt
    ∧ conf_files st' !! conf_name db
      = Some (postgrest_config
                (db_url client pw (default VNone (c !! "host"))
                   (default VNone (c !! "port")) (db_name args index db))
                client jwt (POSTGREST_PORT + Z.of_nat index)).
Proof.
  intros H Hdb Hcreate.
  destruct (main_ok _ _ _ H)
    as (conn_data & ini_file & name & c & s1 & i1 & s2 & i2 & s3 & i3 & s4
        & Hparsed & _ & Hframe & Hc & H1 & H2 & H3 & Hw & Hf & Hd & Hl).
  simpl in *. set (args := parse_args argv ini_file conn_data name) in *.
  assert (create_arg args db = true) as Hcreate' by done.
  pose proof (advances_grows _ _ _ (connect_quiet _ _ _ _ _ Hc)) as G0.
  pose proof (grows_provision_env _ _ _ _ _ _ _ _ H1) as G1.
  pose proof (grows_provision_env _ _ _ _ _ _ _ _ H2) as G2.
  pose proof (grows_provision_env _ _ _ _ _ _ _ _ H3) as G3.
  assert (grows s4 st') as G4
    by (exists []; by rewrite Hl, app_nil_r).
  destruct (connect_quiet _ _ _ _ _ Hc) as (_ & D0 & _).
  destruct (provision_env_frame _ _ _ _ _ _ _ _ H1) as (I1 & F1 & _ & D1).
  destruct (provision_env_frame _ _ _ _ _ _ _ _ H2) as (I2 & F2 & _ & D2).
  destruct (provision_env_frame _ _ _ _ _ _ _ _ H3) as (I3 & F3 & _ & D3).
  exists i3, args, c.
  destruct index as [|[|[|?]]]; simplify_eq/=.
  - destruct (provision_env_ok _ _ _ _ _ _ _ _ H1 Hcreate')
      as (data' & sc & client & pw & jwt & Hrun & Hcl & Hpw & Hjwt
          & -> & Hconf & _ & Dc & Dc' & Lc).
    rewrite record_connection_frame, Hframe in Hrun by done.
    rewrite record_connection_frame, Hframe in I2 by done.
    assert (grows sc s2) as Gc by (exists []; by rewrite Lc, app_nil_r).
    exists s1, sc, data', client, pw, jwt.
    split_and!; try done; try lia.
    + exact (transitivity Gc (transitivity G2 (transitivity G3 G4))).
    + rewrite I3, I2 by done. by rewrite lookup_insert_eq.
    + rewrite Hf, F3, F2 by done. rewrite Hconf. apply lookup_insert_eq.
  - destruct (provision_env_ok _ _ _ _ _ _ _ _ H2 Hcreate')
      as (data' & sc & client & pw & jwt & Hrun & Hcl & Hpw & Hjwt
          & -> & Hconf & _ & Dc & Dc' & Lc).
    rewrite I1, record_connection_frame, Hframe in Hrun by done.
    assert (grows sc s3) as Gc by (exists []; by rewrite Lc, app_nil_r).
    exists s2, sc, data', client, pw, jwt.
    split_and!; try done; try lia.
    + exact (transitivity G0 G1).
    + exact (transitivity Gc (transitivity G3 G4)).
    + rewrite I3 by done. rewrite lookup_insert_eq.
      by rewrite I1, record_connection_frame, Hframe.
    + rewrite Hf, F3 by done. rewrite Hconf. apply lookup_insert_eq.
  - destruct (provision_env_ok _ _ _ _ _ _ _ _ H3 Hcreate')
      as (data' & sc & client & pw & jwt & Hrun & Hcl & Hpw & Hjwt
          & -> & Hconf & _ & Dc & Dc' & Lc).
    rewrite I2, I1, record_connection_frame, Hframe in Hrun by done.
    assert (grows sc s4) as Gc by (exists []; by rewrite Lc, app_nil_r).
    exists s3, sc, data', client, pw, jwt.
    split_and!; try done; try lia.
    + exact (transitivity G0 (transitivity G1 G2)).
    + exact (transitivity Gc G4).
    + rewrite lookup_insert_eq.
      by rewrite I2, I1, record_connection_frame, Hframe.
    + rewrite Hf, Hconf. apply lookup_insert_eq.
Qed.

(** C10. The check of the application name compares it with the
    placeholder [MISSING]: whenever the name the script resolves, from
    the command line or else from the state file, is that very string,
    the script raises the error of the missing name, having sent nothing
    and written nothing. An application named [MISSING] cannot be
    provisioned. *)
Theorem placeholder_name_is_refused argv (st : state W) :
  sudo_readable (config_ini st) = true →
  resolved_app_name argv (config_ini st) = "MISSING" →
  main psql token darwin getuser argv st
  = (Raise (RuntimeError "You must specify an app_name"), st)
  ∧ issued st (main psql token darwin getuser argv st).2 = [].
Proof.
  intros Hsudo Hname. rewrite main_refuses by done. split; [done|].
  apply issued_app. by rewrite app_nil_r.
Qed.


End Main.

Section Strings.

Lemma append_assoc (a b c : string) : (a +:+ b) +:+ c = a +:+ (b +:+ c).
Proof.
  induction a as [|x a IH]; [done|].
  change (String x ((a +:+ b) +:+ c) = String x (a +:+ (b +:+ c))).
  by rewrite IH.
Qed.

Lemma contains_here (pre sub post : string) :
  contains sub (pre +:+ sub +:+ post).
Proof. by exists pre, post. Qed.

Lemma contains_after (pre sub s : string) :
  contains sub s → contains sub (pre +:+ s).
Proof.
  intros (p & q & ->). exists (pre +:+ p), q. by rewrite append_assoc.
Qed.

(** The configuration of the REST proxy has a line for the port and one
    for the connection URL, which has the client's password in it. *)
Lemma postgrest_config_port url client jwt port :
  contains ("server-port = " +:+ PyStr.of_Z port +:+ PyStr.nl)
           (postgrest_config url client jwt port).
Proof.
  unfold postgrest_config. do 20 apply contains_after.
  exists EmptyString. eexists. by rewrite !append_assoc.
Qed.

Lemma postgrest_config_uri url client jwt port :
  contains ("db-uri = " +:+ PyStr.dquote +:+ url +:+ PyStr.dquote +:+ PyStr.nl)
           (postgrest_config url client jwt port).
Proof.
  unfold postgrest_config. exists EmptyString. eexists.
  by rewrite !append_assoc.
Qed.

Lemma db_url_password client pw host port dbname :
  contains (":" +:+ pw +:+ "@") (db_url client pw host port dbname).
Proof.
  unfold db_url. do 2 apply contains_after.
  exists EmptyString. eexists. by rewrite !append_assoc.
Qed.

End Strings.

Section Environments.

Context {W : Type}.
Variable psql : W → string → kwargs → W * option string.
Variable token : nat → nat → string.
Variable darwin : bool.
Variable getuser : string.

Lemma provision_role_generated conn_data usert data (st : state W) d1 s1 :
  PyStr.nonempty (default EmptyString (data !! (usert +:+ "_password")))
    = false →
  provision_role psql token conn_data usert data st = (Ok d1, s1) →
  d1 = <[usert +:+ "_password" := token (drawn st) 16]> data
  ∧ drawn s1 = S (drawn st).
Proof.
  intros Hnone. unfold provision_role. munfold.
  destruct (data !! usert) as [user|]; [|discriminate].
  simpl. rewrite Hnone. simpl. intros H.
  run_psql H; try discriminate.
  all: by injection H as <- <-.
Qed.

(** The passwords in the record [create_database] returns: the one it was
    given for the role when there is one, else a token drawn meanwhile. *)
Lemma create_database_passwords data conn_data dropdb (st : state W)
    data' st' usert :
  create_database psql token data conn_data dropdb st = (Ok data', st') →
  usert ∈ ["owner"; "client"] →
  ∃ pw,
    data' !! (usert +:+ "_password") = Some pw
    ∧ let given := default EmptyString (data !! (usert +:+ "_password")) in
      if PyStr.nonempty given then pw = given
      else ∃ k, (drawn st ≤ k < drawn st')%nat ∧ pw = token k 16.
Proof.
  intros H Husert. unfold create_database in H.
  apply bind_ok in H as (database & s0 & E0 & H).
  apply getitem_ok in E0 as [_ ->].
  apply bind_ok in H as (present & sa & Ea & H).
  apply bind_ok in H as ([] & sb & Eb & H).
  apply bind_ok in H as (d1 & sc & Ec & H).
  apply bind_ok in H as (d2 & sd & Ed & H).
  destruct (test_user_stage _ _ _ _ _ _ Ea) as (_ & Da & _).
  destruct (create_member_stage _ _ _ _ _ _ _ Eb) as (_ & Db & _).
  destruct (provision_role_stage _ _ _ _ _ _ _ _ Ec) as (_ & Dc & _).
  destruct (provision_role_stage _ _ _ _ _ _ _ _ Ed) as (_ & Dd & _).
  destruct (provision_database_quiet _ _ _ _ _ _ _ _ _ _ H) as (_ & De & _).
  pose proof (provision_database_returns _ _ _ _ _ _ _ _ _ _ H) as Hret.
  assert (∀ key, key ≠ "auth_secret" → data' !! key = d2 !! key) as Hkeep.
  { intros key Hkey. simpl in Hret.
    destruct (PyStr.nonempty _); destruct Hret as [-> _];
      by rewrite lookup_insert_ne. }
  assert (d1 !! "client_password" = data !! "client_password") as Hc1
    by (by eapply provision_role_names).
  assert (d2 !! "owner_password" = d1 !! "owner_password") as Ho2
    by (by eapply provision_role_names).
  rewrite !elem_of_cons in Husert.
  destruct Husert as [->|[->|Hnil]]; [| |by inversion Hnil].
  - change ("owner" +:+ "_password") with "owner_password".
    rewrite Hkeep, Ho2 by done.
    destruct (PyStr.nonempty (default EmptyString (data !! "owner_password")))
      eqn:Hgiven.
    + destruct (data !! "owner_password") as [p|] eqn:Hp; [|done].
      eapply provision_role_supplied in Ec as [-> _]; [|done..].
      exists p. split; [done|]. simpl in *. by rewrite Hgiven.
    + eapply provision_role_generated in Ec as [-> Dc']; [|done].
      eexists. split; [apply lookup_insert_eq|].
      simpl. rewrite Hgiven. exists (drawn sb). split; [lia|done].
  - change ("client" +:+ "_password") with "client_password".
    rewrite Hkeep by done. rewrite <- Hc1.
    destruct (PyStr.nonempty (default EmptyString (d1 !! "client_password")))
      eqn:Hgiven.
    + destruct (d1 !! "client_password") as [p|] eqn:Hp; [|done].
      eapply provision_role_supplied in Ed as [-> _]; [|done..].
      exists p. split; [done|]. simpl in *. by rewrite Hgiven.
    + eapply provision_role_generated in Ed as [-> Dd']; [|done].
      eexists. split; [apply lookup_insert_eq|].
      simpl. rewrite Hgiven. exists (drawn sc). split; [lia|done].
Qed.

Lemma stored_written (written : ini) db (section : dict) key v :
  written !! db = Some section → section !! key = Some v →
  ini_get written db key = Some v.
Proof. intros Hs Hk. unfold ini_get. by rewrite Hs. Qed.

(** C5. In a run of the script that ends well, every environment that was
    to be provisioned has its REST-proxy configuration file; for the
    environment of index [index] (development 0, test 1, production 2)
    it holds the line [server-port] with 3000 plus the index, and a
    [db-uri] line whose URL has, between the colon and the at sign, the
    client password stored for the environment in the state file. *)
Theorem rest_proxy_configuration argv (st st' : state W) index db :
  main psql token darwin getuser argv st = (Ok (), st') →
  DATABASES !! index = Some db →
  cli_create argv db = true →
  ∃ content url pw,
    conf_files st' !! conf_name db = Some content
    ∧ stored (config_ini st') db "client_password" = Some pw
    ∧ contains ("server-port = " +:+ PyStr.of_Z (3000 + Z.of_nat index)
                  +:+ PyStr.nl) content
    ∧ contains ("db-uri = " +:+ PyStr.dquote +:+ url +:+ PyStr.dquote
                  +:+ PyStr.nl) content
    ∧ contains (":" +:+ pw +:+ "@") url.
Proof.
  intros H Hdb Hcreate.
  destruct (main_environment _ _ _ _ _ _ _ _ _ H Hdb Hcreate)
    as (written & args & c & s & sc & data' & client & pw & jwt
        & Hw & _ & _ & _ & _ & _ & _ & Hsec & _ & Hpw & _ & Hconf).
  eexists _, _, pw. split; [exact Hconf|]. split_and!.
  - rewrite Hw. simpl. eapply stored_written; [done|].
    by apply lookup_union_Some_l.
  - apply postgrest_config_port.
  - apply postgrest_config_uri.
  - apply db_url_password.
Qed.

(** Without [--store-password] the options set in the [postgres] section
    leave its [password] as it was, and say whether one was given. *)
Lemma record_connection_password args c (ini_file : ini) :
  store_password args = false →
  ini_get (record_connection args c ini_file) "postgres" "password"
  = ini_get ini_file "postgres" "password"
  ∧ ini_get (record_connection args c ini_file) "postgres" "needs_password"
    = Some (PyStr.lower (py_str (VBool (truthy (password args))))).
Proof.
  intros Hstore. unfold record_connection, ini_set, ini_get.
  rewrite Hstore. split.
  - rewrite lookup_insert_ne by done. rewrite !lookup_insert_eq. simpl.
    rewrite !lookup_insert_ne by done. by destruct (ini_file !! "postgres").
  - rewrite lookup_insert_ne by done. rewrite !lookup_insert_eq. simpl.
    by rewrite lookup_insert_eq.
Qed.

(** C2, amended. [--store-password] decides on the administrator's
    password only. In a run that ends well without it, the state file
    written has, in its [postgres] section, the [password] option as the
    state file read had it, and [needs_password] telling whether a
    password came with the command line. Whether the option is given or
    not, the owner and client passwords of every environment provisioned
    are written to its section: the password the state file had for the
    role when it had one, else a token generated during the run. *)
Theorem store_password_is_for_the_administrator argv (st st' : state W) :
  main psql token darwin getuser argv st = (Ok (), st') →
  ∃ written,
    config_ini st' = Some written
    ∧ (cli_store_password argv = false →
       ini_get written "postgres" "password"
       = stored (config_ini st) "postgres" "password"
       ∧ ini_get written "postgres" "needs_password"
         = Some (PyStr.lower
                   (py_str (VBool (truthy (opt_str (cli_password argv)))))))
    ∧ ∀ index db usert,
        DATABASES !! index = Some db →
        cli_create argv db = true →
        usert ∈ ["owner"; "client"] →
        ∃ pw,
          ini_get written db (usert +:+ "_password") = Some pw
          ∧ let given :=
              default EmptyString
                (stored (config_ini st) db (usert +:+ "_password")) in
            if PyStr.nonempty given then pw = given
            else ∃ k, (drawn st ≤ k < drawn st')%nat ∧ pw = token k 16.
Proof.
  intros H.
  destruct (main_ok _ _ _ _ _ _ _ H)
    as (conn_data & ini_file & name & c & s1 & i1 & s2 & i2 & s3 & i3 & s4
        & Hparsed & Hget & _ & _ & H1 & H2 & H3 & Hw & _).
  exists i3. split; [done|]. split.
  - intros Hstore.
    destruct (provision_env_frame _ _ _ _ _ _ _ _ _ _ H1) as (I1 & _).
    destruct (provision_env_frame _ _ _ _ _ _ _ _ _ _ H2) as (I2 & _).
    destruct (provision_env_frame _ _ _ _ _ _ _ _ _ _ H3) as (I3 & _).
    destruct Hparsed as (_ & _ & _ & _ & Hsp & Hpw).
    rewrite Hstore in Hsp.
    destruct (record_connection_password _ c ini_file Hsp) as [Ep En].
    rewrite Hpw in En.
    rewrite <- (Hget "postgres" "password"), <- Ep, <- En.
    unfold ini_get. by rewrite I3, I2, I1.
  - intros index db usert Hdb Hcreate Husert.
    destruct (main_environment _ _ _ _ _ _ _ _ _ H Hdb Hcreate)
      as (written & args & c' & s & sc & data' & client & pw & jwt
          & Hw' & _ & _ & _ & Ds & Dsc & Hrun & Hsec & _).
    assert (written = i3) as -> by congruence.
    destruct (create_database_passwords _ _ _ _ _ _ usert Hrun Husert)
      as (p & Hp & Hgiven).
    exists p. split.
    + eapply stored_written; [done|]. by apply lookup_union_Some_l.
    + assert (env_data (db_name args index db)
                (default ∅ (config_ini st) !! db) !! (usert +:+ "_password")
              = stored (config_ini st) db (usert +:+ "_password")) as Elook.
      { unfold env_data, stored, ini_get.
        assert (∀ (m : dict),
                  (<["database" := db_name args index db]>
                     (<["owner" := db_name args index db +:+ "__owner"]>
                        (<["client" := db_name args index db +:+ "__client"]>
                           m))) !! (usert +:+ "_password")
                  = m !! (usert +:+ "_password")) as Hbase.
        { intros m. rewrite !elem_of_cons in Husert.
          destruct Husert as [->|[->|Hnil]]; [| |by inversion Hnil];
            by rewrite !lookup_insert_ne. }
        destruct (config_ini st) as [cfg|]; simpl.
        - destruct (cfg !! db) as [options|]; simpl.
          + rewrite lookup_union, Hbase, lookup_empty.
            by destruct (options !! _).
          + by rewrite Hbase, lookup_empty.
        - by rewrite lookup_empty, Hbase, lookup_empty. }
      rewrite Elook in Hgiven. simpl in *.
      destruct (PyStr.nonempty _); [done|].
      destruct Hgiven as (k & Hk & ->). exists k. split; [lia|done].
Qed.

(** [create_database] leaves the names in its record as they were. *)
Lemma create_database_names data conn_data dropdb (st : state W) data' st'
    key :
  create_database psql token data conn_data dropdb st = (Ok data', st') →
  key ≠ "owner_password" → key ≠ "client_password" →
  key ≠ "auth_secret" →
  data' !! key = data !! key.
Proof.
  intros H Ho Hc Hs.
  assert (is_Some (data !! "database")) as [database Hdb].
  { unfold create_database in H.
    apply bind_ok in H as (d & s0 & E0 & _).
    apply getitem_ok in E0 as [-> _]. by eexists. }
  destruct (create_database_stages _ _ _ _ _ _ _ _ _ Hdb H)
    as (data2 & st2 & before & _ & _ & Hkeys & H2 & _).
  apply provision_database_returns in H2. simpl in H2.
  rewrite <- Hkeys by done.
  destruct (PyStr.nonempty _); destruct H2 as [-> _];
    by rewrite lookup_insert_ne.
Qed.


Lemma issued_within (st s sc st' : state W) e :
  grows st s → grows s sc → grows sc st' →
  e ∈ issued s sc → e ∈ issued st st'.
Proof.
  intros [a Ea] [d Ed] [b Eb]. rewrite (issued_app _ _ _ Ed).
  rewrite (issued_app st st' (a ++ d ++ b))
    by (by rewrite Eb, Ed, Ea, <- !app_assoc).
  intros Hin. apply elem_of_app. right. apply elem_of_app. by left.
Qed.





End Environments.

(** ** Provisioning again *)

Section Rerun.

Context {W : Type}.
Variable psql : W → string → kwargs → W * option string.
Variable token : nat → nat → string.

(** A round for a role with a stored password, in a run where no check is
    refused: the check, and nothing else. *)
Lemma provision_role_checked V conn_data usert data (st : state W) user pw
    d1 s1 :
  data !! usert = Some user →
  data !! (usert +:+ "_password") = Some pw →
  PyStr.nonempty pw = true →
  provision_role psql token conn_data usert data st = (Ok d1, s1) →
  (∀ e, e ∈ issued st s1 → rejected conn_data user pw e → V) →
  V ∨ ∃ o, emits [Event (SelectRole user) (role_conn conn_data user pw)
                    (Some o)] st s1.
Proof.
  intros Hu Hp Hne H HV.
  destruct (psql (world st) (render (SelectRole user))
              (role_conn conn_data user pw)) as [w' [o|]] eqn:E.
  - right. exists o.
    erewrite provision_role_verified in H by eassumption.
    by injection H as _ <-.
  - left. unfold provision_role in H. munfold.
    rewrite Hu, Hp in H. simpl in H. rewrite Hne in H. simpl in H.
    rewrite E in H. simpl in H.
    run_psql H; try discriminate; injection H as _ <-.
    all: eapply HV; [|reflexivity].
    all: erewrite issued_app; [|simpl; rewrite <- !app_assoc; reflexivity].
    all: apply list_elem_of_here.
Qed.

Lemma test_user_ok role kw (st : state W) b st1 :
  test_user_exists psql role kw st = (Ok b, st1) →
  ∃ o, b = PyStr.eqb (PyStr.strip o) role
       ∧ emits [Event (SelectRole role) kw (Some o)] st st1.
Proof.
  unfold test_user_exists. intros H.
  apply bind_ok in H as (o & st2 & H1 & H). apply psql_ok in H1.
  apply mret_ok in H as [-> ->]. eauto.
Qed.

Lemma emits_grows d (st st' : state W) : emits d st st' → grows st st'.
Proof. intros E. by exists d. Qed.

(** The statements of a run of [create_database] that returns, for an
    environment whose two roles have a stored password that the server
    accepts: the member group is created only when the probe did not find
    it, the roles are checked and left alone, and the database is created
    only when the probe did not find it or it was dropped. *)
Lemma rerun_statements data conn_data dropdb (st : state W) data' st'
    database owner client po pc :
  data !! "database" = Some database →
  data !! "owner" = Some owner →
  data !! "client" = Some client →
  data !! "owner_password" = Some po → PyStr.nonempty po = true →
  data !! "client_password" = Some pc → PyStr.nonempty pc = true →
  create_database psql token data conn_data dropdb st = (Ok data', st') →
  Forall (fun e => ¬ rejected conn_data owner po e
                   ∧ ¬ rejected conn_data client pc e) (issued st st') →
  let member := database +:+ "__member" in
  ∃ found o middle secret,
    ev_cmd <$> issued st st'
    = SelectRole member
        :: (if PyStr.eqb (PyStr.strip found) member then []
            else [CreateRole member])
        ++ [SelectRole owner; SelectRole client; SelectDatabase database]
        ++ middle ++ closing database member owner client secret
    ∧ Event (SelectRole member) conn_data (Some found) ∈ issued st st'
    ∧ Event (SelectDatabase database) conn_data (Some o) ∈ issued st st'
    ∧ if PyStr.eqb (PyStr.strip o) database then
        if dropdb then
          ∃ extra,
            middle
            = [SelectExtraRoles database; DropDatabase database]
                ++ (if PyStr.nonempty (PyStr.strip extra)
                    then [DropRole (PyStr.strip extra)] else [])
                ++ [CreateDatabase database owner]
        else
          ∃ out,
            middle
            = SelectOwner database
                :: (if PyStr.eqb (PyStr.strip out) owner then []
                    else [AlterSetOwner database owner])
      else middle = [CreateDatabase database owner].
Proof.
  intros Hdb Ho Hc Hpo Hneo Hpc Hnec H Hver member.
  pose proof H as Hrun. unfold create_database in H.
  apply bind_ok in H as (database' & s0 & E0 & H).
  apply getitem_ok in E0 as [E0 ->].
  assert (database' = database) as -> by congruence.
  apply bind_ok in H as (present & sa & Ea & H).
  apply test_user_ok in Ea as (found & -> & Ea).
  apply bind_ok in H as ([] & sb & Eb & H).
  apply bind_ok in H as (d1 & sc & Ec & H).
  apply bind_ok in H as (d2 & sd & Ed & H).
  assert (emits (if PyStr.eqb (PyStr.strip found) member then []
                 else [Event (CreateRole member) conn_data
                         (default None (ev_out <$> last (log sb)))])
                sa sb) as Eb'.
  { fold member in Eb. destruct (PyStr.eqb _ member); simpl in Eb.
    - apply mret_ok in Eb as [_ ->]. apply emits_nil.
    - apply bind_ok in Eb as (x & sx & Ex & Eb). apply psql_ok in Ex.
      apply mret_ok in Eb as [_ ->]. unfold emits in *.
      by rewrite Ex, last_snoc. }
  pose proof (provision_role_supplied _ _ _ "owner" _ _ _ _ _ Hpo Hneo Ec)
    as [-> _].
  pose proof (provision_role_supplied _ _ _ "client" _ _ _ _ _ Hpc Hnec Ed)
    as [-> _].
  pose proof (emits_grows _ _ _ Ea) as Ga.
  pose proof (emits_grows _ _ _ Eb') as Gb.
  pose proof (advances_grows _ _ _ (provision_role_stage _ _ _ _ _ _ _ _ Ec))
    as Gc.
  pose proof (advances_grows _ _ _ (provision_role_stage _ _ _ _ _ _ _ _ Ed))
    as Gd.
  pose proof (advances_grows _ _ _
                (provision_database_quiet _ _ _ _ _ _ _ _ _ _ H)) as Ge.
  rewrite Forall_forall in Hver.
  destruct (provision_role_checked False _ "owner" _ _ _ _ _ _ Ho Hpo Hneo Ec)
    as [[]|[oo Eo]].
  { intros e He Hrej. destruct (Hver e) as [N _]; [|by apply N].
    apply (issued_within st sb sc st'); try done.
    - by etransitivity.
    - by etransitivity. }
  destruct (provision_role_checked False _ "client" _ _ _ _ _ _ Hc Hpc Hnec Ed)
    as [[]|[oc Eoc]].
  { intros e He Hrej. destruct (Hver e) as [_ N]; [|by apply N].
    apply (issued_within st sc sd st'); try done.
    by etransitivity; [|etransitivity]. }
  destruct (provision_database_trace _ _ _ _ _ _ _ _ _ _ H)
    as (owner' & client' & secret & o & middle
        & Eow & Ecl & _ & Hprobe & Hcmds & _ & Hpath).
  pose proof (create_database_names _ _ _ _ _ _ _ _ "owner" Hrun) as Ho'.
  pose proof (create_database_names _ _ _ _ _ _ _ _ "client" Hrun) as Hc'.
  rewrite Ho', Ho in Eow by done. rewrite Hc', Hc in Ecl by done.
  injection Eow as <-. injection Ecl as <-.
  pose proof (emits_app _ _ _ _ _ Ea (emits_app _ _ _ _ _ Eb'
                (emits_app _ _ _ _ _ Eo Eoc))) as Ehead.
  pose proof (issued_split _ _ _ _ Ehead Ge) as Hall.
  exists found, o, middle, secret. split_and!.
  - rewrite Hall, fmap_app, Hcmds. simpl.
    rewrite !fmap_app. fold member.
    destruct (PyStr.eqb (PyStr.strip found) member); simpl;
      by rewrite <- ?app_assoc.
  - rewrite Hall. apply list_elem_of_here.
  - rewrite Hall. apply elem_of_app. by right.
  - destruct (PyStr.eqb (PyStr.strip o) database); [|done].
    destruct dropdb.
    + destruct Hpath as (extra & _ & ->). by exists extra.
    + destruct Hpath as (out & _ & ->). by exists out.
Qed.

(** C1. Provisioning again an environment whose state file holds the
    passwords generated before changes no role password and creates nothing
    that the server reports as existing. Whenever the owner and the client
    role both have a stored password and neither check of these passwords
    fails during the run, [create_database] sends no CREATE USER and no
    ALTER ROLE ... PASSWORD statement; when it returns, the record it
    returns has the passwords it was given and differs from it at most by
    the signing secret, the only token it may draw; and the statements it
    sent are the probe of the member group, its creation only if the probe
    did not find it, the two checks, the probe of the database, and then
    the creation of the database only if the probe did not find it or
    [dropdb] had it dropped. *)
Theorem rerun_keeps_passwords data conn_data dropdb (st : state W) r st'
    database owner client po pc :
  data !! "database" = Some database →
  data !! "owner" = Some owner →
  data !! "client" = Some client →
  data !! "owner_password" = Some po → PyStr.nonempty po = true →
  data !! "client_password" = Some pc → PyStr.nonempty pc = true →
  create_database psql token data conn_data dropdb st = (r, st') →
  Forall (fun e => ¬ rejected conn_data owner po e
                   ∧ ¬ rejected conn_data client pc e) (issued st st') →
  Forall quiet (issued st st')
  ∧ ∀ data', r = Ok data' →
      (data' !! "owner_password" = Some po
       ∧ data' !! "client_password" = Some pc
       ∧ let stored := default EmptyString (data !! "auth_secret") in
         if PyStr.nonempty stored
         then data' = data ∧ drawn st' = drawn st
         else data' = <["auth_secret" := token (drawn st) 32]> data
              ∧ drawn st' = S (drawn st))
      ∧ let member := database +:+ "__member" in
        ∃ found o middle secret,
          ev_cmd <$> issued st st'
          = SelectRole member
              :: (if PyStr.eqb (PyStr.strip found) member then []
                  else [CreateRole member])
              ++ [SelectRole owner; SelectRole client;
                  SelectDatabase database]
              ++ middle ++ closing database member owner client secret
          ∧ Event (SelectRole member) conn_data (Some found)
              ∈ issued st st'
          ∧ Event (SelectDatabase database) conn_data (Some o)
              ∈ issued st st'
          ∧ if PyStr.eqb (PyStr.strip o) database then
              if dropdb then
                ∃ extra,
                  middle
                  = [SelectExtraRoles database; DropDatabase database]
                      ++ (if PyStr.nonempty (PyStr.strip extra)
                          then [DropRole (PyStr.strip extra)] else [])
                      ++ [CreateDatabase database owner]
              else
                ∃ out,
                  middle
                  = SelectOwner database
                      :: (if PyStr.eqb (PyStr.strip out) owner then []
                          else [AlterSetOwner database owner])
            else middle = [CreateDatabase database owner].
Proof.
  intros Hdb Ho Hc Hpo Hneo Hpc Hnec H Hver.
  destruct (rerun_secrets psql token _ _ _ _ _ _ _ _ _ _
              Ho Hc Hpo Hneo Hpc Hnec H Hver) as [Hquiet Hsecrets].
  split; [done|]. intros data' ->. split; [by apply Hsecrets|].
  by eapply rerun_statements.
Qed.

End Rerun.

(** ** The retry of [get_conn_params] and the [sudo] parameter *)

(** The loop of prompts goes on as long as the probes fail: against a
    server that refuses [n] probes in a row, and with an operator who
    answers the two prompts each time, it returns after [n] rounds more. *)
Lemma prompt_loop_unbounded (n : nat) :
  ∀ user host rest lg dr files cfg,
    ∃ u p lg',
      prompt_loop scripted (concat (replicate (S n) ["role"; "word"]))
        user host rest
        (State (replicate n None) lg dr
           (concat (replicate (S n) ["role"; "word"])) files cfg)
      = (Ok (u, p), State [] (lg ++ lg') dr [] files cfg)
      ∧ length lg' = S n.
Proof.
  induction n as [|n IH]; intros user host rest lg dr files cfg.
  - eexists _, _, [_]. split; [|done]. simpl.
    unfold mbind, M_bind, bind, input, try_except, test_db_exists,
      psql_command, mret, M_ret, ret. simpl. reflexivity.
  - destruct (IH (py_or (VStr "role") user) host rest
                (lg ++ [Event (SelectDatabase "postgres")
                          (login_args (py_or (VStr "role") user) host
                             (VStr "word") rest) None]) dr files cfg)
      as (u & p & lg' & E & Hlen).
    exists u, p, (Event (SelectDatabase "postgres")
                    (login_args (py_or (VStr "role") user) host
                       (VStr "word") rest) None :: lg').
    split; [|simpl; by rewrite Hlen].
    rewrite <- app_assoc in E. simpl in E. simpl.
    unfold mbind, M_bind, bind, input, try_except, test_db_exists,
      psql_command, mret, M_ret, ret. simpl. exact E.
Qed.

Lemma try_caught {W A} (m h : M W A) (st s1 : state W) :
  m st = (Raise AssertionError, s1) → try_except m h st = h s1.
Proof. unfold try_except. by intros ->. Qed.

(** X9. The retries of [get_conn_params] have no bound: for every
    [n], against a server that refuses [n + 1] probes in a row, with an
    operator who answers every round of prompts, it returns after
    [n + 2] probes, all the lines read. *)
Lemma retries_have_no_bound (n : nat) :
  let st := boot (replicate (S n) None)
              (concat (replicate (S n) ["role"; "word"])) None in
  let run := get_conn_params scripted false "me" Sample.conn_fresh st in
  is_Some (returned run.1)
  ∧ length (log run.2) = S (S n)
  ∧ stdin run.2 = [].
Proof.
  intros st run. unfold run, get_conn_params.
  match goal with
  | |- context [try_except ?m (fun st => prompt_loop scripted _ ?u ?h ?r st)] =>
      destruct (prompt_loop_unbounded n u h r
                  [Event (SelectDatabase "postgres")
                     (<["sudo" := VBool true]>
                        (login_args u h VNone r)) None] 0%nat ∅ None)
        as (u' & p' & lg' & E & Hlen);
      erewrite (bind_eq (try_except m _))
  end.
  2: { erewrite try_caught; [|reflexivity]. exact E. }
  simpl. split; [by eexists|]. split; [|done]. by rewrite Hlen.
Qed.

(** C6. On a machine that is not a Mac, with no password and no [sudo]
    choice given, [get_conn_params] resolves [sudo] to true and probes with
    it; when that probe fails it prompts, and probes again with what was
    typed, this time without [sudo]. The parameters it returns once that
    probe succeeds have the password typed together with [sudo] set: a
    combination no probe was sent with. The two calls are listed with
    their outcome and the user, password and [sudo] they were sent with. *)
Theorem retry_returns_parameters_never_probed :
  let st := boot Sample.probe_refused_once Sample.keyboard None in
  let run := get_conn_params scripted false "me" Sample.conn_fresh st in
  match run.1 with
  | Ok c => Some (c !! "user", c !! "password", c !! "sudo")
  | Raise _ => None
  end
  = Some (Some (VStr "postgres"), Some (VStr "secret"), Some (VBool true))
  ∧ (fun e => (ev_out e, ev_conn e !! "user", ev_conn e !! "password",
               ev_conn e !! "sudo")) <$> log run.2
    = [(None, Some (VStr "postgres"), Some VNone, Some (VBool true));
       (Some EmptyString, Some (VStr "postgres"), Some (VStr "secret"), None)]
  ∧ stdin run.2 = [].
Proof. split_and!; vm_compute; reflexivity. Qed.

(** ** The properties on the sample runs *)

Section Runs.

(** A run gave this result. *)
Lemma run_result {A B} (p : A * B) (a : A) : p.1 = a → p = (a, p.2).
Proof. destruct p. simpl. by intros ->. Qed.

Lemma run_returned {A B} (p : result A * B) (d : A) :
  bool_decide (is_Some (returned p.1)) = true →
  p = (Ok (default d (returned p.1)), p.2).
Proof.
  destruct p as [[a|e] b]; simpl; [done|discriminate].
Qed.

Lemma some_default {A} (o : option A) (d : A) :
  bool_decide (is_Some o) = true → o = Some (default d o).
Proof. by intros [a ->]%bool_decide_eq_true. Qed.

(** Calls that all had an answer hold no refused check. *)
Lemma answered_not_rejected (l : list event) c u p c' u' p' :
  forallb (fun e => bool_decide (is_Some (ev_out e))) l = true →
  Forall (fun e => ¬ rejected c u p e ∧ ¬ rejected c' u' p' e) l.
Proof.
  intros H. apply Forall_forall. intros e He.
  rewrite forallb_forall in H. apply list_elem_of_In in He.
  specialize (H e He). apply bool_decide_eq_true in H as [o Ho].
  split; intros ->; discriminate.
Qed.

(** The probes of a database that all answered its name. *)
Lemma probes_found (l : list event) database :
  forallb (fun e => match ev_cmd e with
                    | SelectDatabase _ =>
                        bool_decide (PyStr.strip <$> ev_out e = Some database)
                    | _ => true
                    end) l = true →
  Forall (fun e => ev_cmd e = SelectDatabase database →
                   ∃ o, ev_out e = Some o ∧ PyStr.strip o = database) l.
Proof.
  intros H. apply Forall_forall. intros e He Hcmd.
  rewrite forallb_forall in H. apply list_elem_of_In in He.
  specialize (H e He). rewrite Hcmd in H.
  apply bool_decide_eq_true in H.
  destruct (ev_out e) as [o|]; [|done]. exists o. by injection H.
Qed.


End Runs.

Lemma rerun_keeps_passwords_witness :
  let st := boot Sample.provisioned [] None in
  let run := create_database scripted numbered Sample.data Sample.conn_data
               false st in
  transcript run.2
  = [(render (SelectRole "app__member"), Some "app__member");
     (render (SelectRole "app__owner"), Some "app__owner");
     (render (SelectRole "app__client"), Some "app__client");
     (render (SelectDatabase "app"), Some "app");
     (render (SelectOwner "app"), Some "app__owner");
     ("ALTER GROUP app__owner ADD USER app__client", Some EmptyString);
     ("ALTER GROUP app__member ADD USER app__client", Some EmptyString);
     (render (SetJwtSecret "app" "jwt"), Some EmptyString);
     ("ALTER SCHEMA public OWNER TO app__owner", Some EmptyString)]
  ∧ Forall quiet (issued st run.2)
  ∧ ∀ data', run.1 = Ok data' →
      (data' !! "owner_password" = Some "s3cret"
       ∧ data' !! "client_password" = Some "pa55"
       ∧ let stored := default EmptyString (Sample.data !! "auth_secret") in
         if PyStr.nonempty stored
         then data' = Sample.data ∧ drawn run.2 = drawn st
         else data' = <["auth_secret" := numbered (drawn st) 32]> Sample.data
              ∧ drawn run.2 = S (drawn st))
      ∧ let member := "app" +:+ "__member" in
        ∃ found o middle secret,
          ev_cmd <$> issued st run.2
          = SelectRole member
              :: (if PyStr.eqb (PyStr.strip found) member then []
                  else [CreateRole member])
              ++ [SelectRole "app__owner"; SelectRole "app__client";
                  SelectDatabase "app"]
              ++ middle
              ++ closing "app" member "app__owner" "app__client" secret
          ∧ Event (SelectRole member) Sample.conn_data (Some found)
              ∈ issued st run.2
          ∧ Event (SelectDatabase "app") Sample.conn_data (Some o)
              ∈ issued st run.2
          ∧ if PyStr.eqb (PyStr.strip o) "app" then
              if false then
                ∃ extra,
                  middle
                  = [SelectExtraRoles "app"; DropDatabase "app"]
                      ++ (if PyStr.nonempty (PyStr.strip extra)
                          then [DropRole (PyStr.strip extra)] else [])
                      ++ [CreateDatabase "app" "app__owner"]
              else
                ∃ out,
                  middle
                  = SelectOwner "app"
                      :: (if PyStr.eqb (PyStr.strip out) "app__owner" then []
                          else [AlterSetOwner "app" "app__owner"])
            else middle = [CreateDatabase "app" "app__owner"].
Proof.
  intros st run. split; [vm_compute; reflexivity|].
  refine (rerun_keeps_passwords scripted numbered Sample.data
            Sample.conn_data false st run.1 run.2
            "app" "app__owner" "app__client" "s3cret" "pa55"
            _ _ _ _ _ _ _ _ _).
  1-7: vm_compute; reflexivity.
  - apply surjective_pairing.
  - apply answered_not_rejected; vm_compute; reflexivity.
Defined.

Lemma dropdb_recreates_witness :
  let st := boot Sample.to_drop [] None in
  let run := create_database scripted numbered Sample.data Sample.conn_data
               true st in
  (render <$> (ev_cmd <$> drop 3 (issued st run.2)))
  = ["select datname from pg_catalog.pg_database where datname='app'";
     "select string_agg(rolname, ', ') from pg_catalog.pg_roles where rolname like 'app\_\__\_%'";
     "DROP DATABASE app";
     "DROP ROLE app__r_1, app__r_2";
     "CREATE DATABASE app WITH OWNER app__owner ENCODING UTF8";
     "ALTER GROUP app__owner ADD USER app__client";
     "ALTER GROUP app__member ADD USER app__client";
     render (SetJwtSecret "app" "jwt");
     "ALTER SCHEMA public OWNER TO app__owner"]
  ∧ ∃ before after extra secret,
      issued st run.2 = before ++ after
      ∧ Forall role_stage before
      ∧ Forall (fun e => is_Some (ev_out e)) after
      ∧ Event (SelectExtraRoles "app") Sample.conn_data (Some extra) ∈ after
      ∧ ev_cmd <$> after
        = [SelectDatabase "app"; SelectExtraRoles "app"; DropDatabase "app"]
            ++ (if PyStr.nonempty (PyStr.strip extra)
                then [DropRole (PyStr.strip extra)] else [])
            ++ [CreateDatabase "app" "app__owner"]
            ++ closing "app" ("app" +:+ "__member") "app__owner" "app__client"
                 secret
      ∧ default ∅ (returned run.1) !! "owner" = Some "app__owner".
Proof.
  intros st run. split; [vm_compute; reflexivity|].
  refine (dropdb_recreates scripted numbered Sample.data Sample.conn_data
            st (default ∅ (returned run.1)) run.2
            "app" "app__owner" "app__client" _ _ _ _ _).
  1-3: vm_compute; reflexivity.
  - apply run_returned. vm_compute. reflexivity.
  - apply probes_found. vm_compute. reflexivity.
Defined.


Lemma placeholder_name_is_refused_witness :
  let st := boot [] [] None in
  resolved_app_name Sample.argv_placeholder (config_ini st) = "MISSING"
  ∧ main scripted numbered false "me" Sample.argv_placeholder st
    = (Raise (RuntimeError "You must specify an app_name"), st)
  ∧ issued st (main scripted numbered false "me" Sample.argv_placeholder st).2
    = [].
Proof.
  intros st. split; [reflexivity|].
  refine (placeholder_name_is_refused scripted numbered false "me"
            Sample.argv_placeholder st _ _); reflexivity.
Defined.


Lemma rest_proxy_configuration_witness :
  let st := boot [] [] None in
  let run := main scripted numbered false "me" Sample.argv st in
  run.1 = Ok ()
  ∧ ∃ content url pw,
      conf_files run.2 !! conf_name "development" = Some content
      ∧ stored (config_ini run.2) "development" "client_password" = Some pw
      ∧ contains ("server-port = " +:+ PyStr.of_Z (3000 + Z.of_nat 0)
                    +:+ PyStr.nl) content
      ∧ contains ("db-uri = " +:+ PyStr.dquote +:+ url +:+ PyStr.dquote
                    +:+ PyStr.nl) content
      ∧ contains (":" +:+ pw +:+ "@") url.
Proof.
  intros st run. split; [vm_compute; reflexivity|].
  refine (rest_proxy_configuration scripted numbered false "me" Sample.argv
            st run.2 0 "development" _ _ _).
  - apply run_result. vm_compute. reflexivity.
  - reflexivity.
  - reflexivity.
Defined.

Lemma store_password_is_for_the_administrator_witness :
  let st := boot [] [] None in
  let run := main scripted numbered false "me" Sample.argv st in
  stored (config_ini run.2) "development" "owner_password" = Some "tok0"
  ∧ ∃ written,
      config_ini run.2 = Some written
      ∧ (cli_store_password Sample.argv = false →
         ini_get written "postgres" "password"
         = stored (config_ini st) "postgres" "password"
         ∧ ini_get written "postgres" "needs_password"
           = Some (PyStr.lower
                     (py_str (VBool (truthy (opt_str
                                               (cli_password Sample.argv)))))))
      ∧ ∀ index db usert,
          DATABASES !! index = Some db →
          cli_create Sample.argv db = true →
          usert ∈ ["owner"; "client"] →
          ∃ pw,
            ini_get written db (usert +:+ "_password") = Some pw
            ∧ let given :=
                default EmptyString
                  (stored (config_ini st) db (usert +:+ "_password")) in
              if PyStr.nonempty given then pw = given
              else ∃ k, (drawn st ≤ k < drawn run.2)%nat
                        ∧ pw = numbered k 16.
Proof.
  intros st run. split; [vm_compute; reflexivity|].
  refine (store_password_is_for_the_administrator scripted numbered false
            "me" Sample.argv st run.2 _).
  apply run_result. vm_compute. reflexivity.
Defined.


(** ** The statements the script does not meet, refuted *)

(** A first run without [--store-password]: the owner's password is the
    first token drawn, and it is in the state file written. *)
Lemma generated_passwords_need_store_password_fails :
  ¬ generated_passwords_need_store_password.
Proof.
  intros H.
  pose (st := boot [] [] None).
  pose (run := main scripted numbered false "me" Sample.argv st).
  refine (H _ scripted numbered false "me" Sample.argv st run.2
            (default ∅ (config_ini run.2)) _ _ _
            0%nat 16%nat "development" "owner_password" _ _).
  - reflexivity.
  - apply run_result. vm_compute. reflexivity.
  - apply some_default. vm_compute. reflexivity.
  - vm_compute. lia.
  - vm_compute. reflexivity.
Qed.




(** * Further properties of the code *)

(** ** The tuple helpers, together *)

(** X1. The two tuple helpers compose: [as_tuple] after
    [as_tuple_or_scalar] is [as_tuple], [as_tuple_or_scalar] leaves a result
    of [as_tuple] as it is, and the two give the same result for a value
    exactly when it is a list or a tuple. *)
Theorem tuple_helpers_compose (v : value) :
  EventDb.as_tuple (EventDb.as_tuple_or_scalar v) = EventDb.as_tuple v
  ∧ EventDb.as_tuple_or_scalar (EventDb.as_tuple v) = EventDb.as_tuple v
  ∧ (EventDb.as_tuple v = EventDb.as_tuple_or_scalar v
     ↔ EventDb.is_sequence v = true).
Proof.
  unfold EventDb.as_tuple, EventDb.as_tuple_or_scalar.
  destruct v; simpl; split_and!; try done; split; done.
Qed.

(** X2. [as_tuple_or_scalar] gives two values the same result only
    when they are the same value, or are lists or tuples with the same
    elements. [as_tuple] moreover cannot tell a scalar from a one-element
    list or tuple that holds it: it gives the same result exactly when
    the elements are the same, a scalar counting as its own single
    element. *)
Theorem tuple_helpers_tell_apart (v w : value) :
  (EventDb.as_tuple_or_scalar v = EventDb.as_tuple_or_scalar w
   ↔ v = w ∨ (is_Some (items_of v) ∧ items_of v = items_of w))
  ∧ (EventDb.as_tuple v = EventDb.as_tuple w
     ↔ default [v] (items_of v) = default [w] (items_of w)).
Proof.
  unfold EventDb.as_tuple, EventDb.as_tuple_or_scalar.
  split; split.
  - destruct v, w; simpl; intros H; simplify_eq; eauto.
  - intros [->|[[l Hl] H]]; [done|].
    destruct v, w; simplify_eq/=; done.
  - destruct v, w; simpl; intros H; by simplify_eq.
  - destruct v, w; simpl; intros H; by simplify_eq.
Qed.

(** ** Python strings: reversal, stripping, splitting *)

Section PyStrings.

Lemma string_app_nil_r (s : string) : s +:+ EmptyString = s.
Proof. induction s as [|c s IH]; [done|]. by rewrite <- IH at 2. Qed.

Lemma string_rev_app_spec (s acc : string) :
  String.rev_app s acc = String.rev s +:+ acc.
Proof.
  unfold String.rev. revert acc.
  induction s as [|c s IH]; intros acc; [done|]. simpl.
  rewrite (IH (String c EmptyString)), IH. by rewrite append_assoc.
Qed.

Lemma string_rev_cons (c : ascii) (s : string) :
  String.rev (String c s) = String.rev s +:+ String c EmptyString.
Proof. unfold String.rev at 1. simpl. apply string_rev_app_spec. Qed.

Lemma string_rev_append (a b : string) :
  String.rev (a +:+ b) = String.rev b +:+ String.rev a.
Proof.
  induction a as [|c a IH].
  - change (EmptyString +:+ b) with b. by rewrite string_app_nil_r.
  - change (String c a +:+ b) with (String c (a +:+ b)).
    by rewrite !string_rev_cons, IH, append_assoc.
Qed.

Lemma string_rev_involutive (s : string) : String.rev (String.rev s) = s.
Proof.
  induction s as [|c s IH]; [done|].
  by rewrite string_rev_cons, string_rev_append, IH.
Qed.



End PyStrings.

Section Names.


Lemma string_rev_empty (s : string) : String.rev s = EmptyString → s = EmptyString.
Proof. intros H. by rewrite <- (string_rev_involutive s), H. Qed.



















End Names.

Section Strip.

Lemma lstrip_clean (s : string) : starts_clean (PyStr.lstrip s) = true.
Proof.
  induction s as [|c s IH]; [done|]. simpl.
  destruct (PyStr.isspace c) eqn:E; [done|]. simpl. by rewrite E.
Qed.

Lemma lstrip_id (s : string) : starts_clean s = true → PyStr.lstrip s = s.
Proof. destruct s as [|c s]; [done|]. simpl. by intros ->%negb_true_iff. Qed.

Lemma lstrip_suffix (s : string) : ∃ pre, s = pre +:+ PyStr.lstrip s.
Proof.
  induction s as [|c s [pre IH]]; [by exists EmptyString|]. simpl.
  destruct (PyStr.isspace c); [|by exists EmptyString].
  exists (String c pre). by rewrite IH at 1.
Qed.

Lemma starts_clean_append (a b : string) :
  a ≠ EmptyString → starts_clean (a +:+ b) = starts_clean a.
Proof. by destruct a. Qed.

Lemma strip_trimmed (s : string) : trimmed (PyStr.strip s) = true.
Proof.
  unfold trimmed, PyStr.strip.
  set (a := PyStr.lstrip s). set (b := PyStr.lstrip (String.rev a)).
  rewrite string_rev_involutive.
  assert (starts_clean b = true) as -> by apply lstrip_clean.
  rewrite andb_true_r.
  destruct (decide (b = EmptyString)) as [Hb|Hb]; [by rewrite Hb|].
  destruct (lstrip_suffix (String.rev a)) as [pre Hpre]. fold b in Hpre.
  assert (a = String.rev b +:+ String.rev pre) as Ha
    by (by rewrite <- string_rev_append, <- Hpre, string_rev_involutive).
  pose proof (lstrip_clean s) as Hclean. fold a in Hclean.
  rewrite Ha, starts_clean_append in Hclean; [done|].
  by intros ?%string_rev_empty.
Qed.

Lemma strip_fixed (s : string) : trimmed s = true → PyStr.strip s = s.
Proof.
  unfold trimmed, PyStr.strip. intros [H1 H2]%andb_true_iff.
  by rewrite (lstrip_id _ H1), (lstrip_id _ H2), string_rev_involutive.
Qed.

Lemma strip_idempotent (s : string) :
  PyStr.strip (PyStr.strip s) = PyStr.strip s.
Proof. apply strip_fixed, strip_trimmed. Qed.

End Strip.

(** ** The probes and the connection parameters *)

Section Probes.

Context {W : Type}.
Variable psql : W → string → kwargs → W * option string.
Variable darwin : bool.
Variable getuser : string.

Lemma existence_test_run (c : sql) (name : string) kw (st : state W) r st' :
  (o ← psql_command psql c kw; mret (PyStr.eqb (PyStr.strip o) name)) st
    = (r, st') →
  (∃ e, issued st st' = [e] ∧ ev_cmd e = c ∧ ev_conn e = kw
        ∧ (ev_out e = None ↔ r = Raise AssertionError))
  ∧ (r = Ok true → trimmed name = true)
  ∧ drawn st' = drawn st ∧ stdin st' = stdin st.
Proof.
  unfold psql_command. unfold mbind, M_bind, bind, mret, M_ret, ret.
  destruct (psql _ _ _) as [w' [o|]]; simpl; intros [= <- <-]; simpl.
  - split; [|split; [|done]].
    + eexists. split; [by apply issued_app|]. by repeat split.
    + intros [= Heq]. unfold PyStr.eqb in Heq.
      apply bool_decide_eq_true in Heq as <-. apply strip_trimmed.
  - split; [|done]. eexists. split; [by apply issued_app|]. by repeat split.
Qed.

(** X5. [test_db_exists] and [test_user_exists] make one call, with
    the keyword arguments they were given, draw no token and read no
    line; they raise exactly when that call is refused. As they compare
    the stripped output with the name, they can answer True only for a
    name with no blank at either end. *)
Theorem existence_tests_need_trimmed_names (name : string) kw (st : state W)
    r st' :
  test_db_exists psql name kw st = (r, st')
  ∨ test_user_exists psql name kw st = (r, st') →
  (∃ e, issued st st' = [e] ∧ ev_conn e = kw
        ∧ (ev_out e = None ↔ r = Raise AssertionError))
  ∧ (r = Ok true → trimmed name = true)
  ∧ drawn st' = drawn st ∧ stdin st' = stdin st.
Proof.
  intros [H|H]; apply existence_test_run in H as ((e & ? & ? & ? & ?) & ?);
    eauto 10.
Qed.


Lemma refused_probes_app (a b : list event) :
  Forall refused_probe a → Forall refused_probe b →
  Forall refused_probe (a ++ b).
Proof. intros. by apply Forall_app. Qed.



End Probes.

Section Prompts.

Context {W : Type}.
Variable psql : W → string → kwargs → W * option string.
Variable darwin : bool.
Variable getuser : string.

Lemma py_or_typed (answer : string) (user : value) :
  py_or (VStr answer) user
  = default user (VStr <$> last (filter (.≠ EmptyString) [answer])).
Proof. by destruct answer. Qed.

(** What the loop of prompts returns, in terms of the lines it read. *)
Lemma prompt_loop_typed lines user host rest (st : state W) u p st' :
  prompt_loop psql lines user host rest st = (Ok (u, p), st') →
  stdin st = lines →
  ∃ typed pw d,
    lines = typed ++ stdin st'
    ∧ emits d st st' ∧ length typed = (2 * length d)%nat
    ∧ last typed = Some pw ∧ p = VStr pw
    ∧ u = default user
            (VStr <$> last (filter (.≠ EmptyString) (role_answers typed))).
Proof.
  revert user st.
  induction lines as [lines IH] using (induction_ltof1 _ length).
  intros user st H Hin. destruct lines as [|l1 [|l2 lines']]; simpl in H.
  - apply bind_ok in H as (? & ? & H1 & _).
    apply input_ok in H1 as [H1 _]. congruence.
  - apply bind_ok in H as (? & s1 & H1 & H).
    apply input_ok in H1 as [H1 _].
    apply bind_ok in H as (? & s2 & H2 & _).
    apply input_ok in H2 as [H2 _]. congruence.
  - apply bind_ok in H as (a & s1 & H1 & H).
    apply input_ok in H1 as [H1 E1].
    apply bind_ok in H as (t & s2 & H2 & H).
    apply input_ok in H2 as [H2 E2].
    assert (a = l1 ∧ t = l2 ∧ stdin s2 = lines') as (-> & -> & Hrest)
      by (split_and!; congruence).
    apply bind_inv in H as [(ok & s3 & H3 & H)|(e & H3 & ?)]; [|done].
    apply probe_caught in H3 as (out & E3 & Hs3 & [= ->]).
    destruct out as [o|].
    + change (bool_decide (is_Some (Some o))) with true in H.
      apply mret_ok in H as [[= -> ->] ->].
      exists [l1; l2], l2. eexists. split_and!.
      * simpl. by rewrite Hs3, Hrest.
      * exact (emits_app _ _ _ _ _ E1 (emits_app _ _ _ _ _ E2 E3)).
      * done.
      * done.
      * done.
      * apply py_or_typed.
    + change (bool_decide (is_Some (@None string))) with false in H.
      apply IH in H as (typed & pw & d & Hlines & E & Hlen & Hlast & -> & ->);
        [|unfold ltof; simpl; lia|congruence].
      exists (l1 :: l2 :: typed), pw. eexists. split_and!.
      * simpl. by rewrite Hlines.
      * exact (emits_app _ _ _ _ _ E1 (emits_app _ _ _ _ _ E2
                 (emits_app _ _ _ _ _ E3 E))).
      * simpl. rewrite Hlen. lia.
      * destruct typed; [done|]. by rewrite <- Hlast.
      * done.
      * simpl role_answers.
        destruct l1 as [|x l1].
        { rewrite filter_cons_False by (by intros []). done. }
        rewrite filter_cons_True by done.
        destruct (filter _ (role_answers typed)) as [|y f]; [done|].
        rewrite last_cons_cons.
        destruct (last (y :: f)) eqn:Ey; [done|].
        by apply last_None in Ey.
Qed.

Lemma get_conn_params_typed conn_data (st : state W) c st' :
  get_conn_params psql darwin getuser conn_data st = (Ok c, st') →
  ∃ typed,
    stdin st = typed ++ stdin st'
    ∧ (2 * length (issued st st') = length typed + 2)%nat
    ∧ c !! "password"
      = Some (default (default VNone (conn_data !! "password"))
                (VStr <$> last typed))
    ∧ c !! "user"
      = Some (default
                (py_or (default VNone (conn_data !! "user"))
                   (VStr (if darwin then getuser else "postgres")))
                (VStr <$> last (filter (.≠ EmptyString) (role_answers typed)))).
Proof.
  unfold get_conn_params. intros H.
  apply bind_ok in H as ([u p] & s1 & H1 & H).
  apply mret_ok in H as [-> ->].
  assert ((if darwin
           then py_or (default VNone (conn_data !! "user")) (VStr getuser)
           else py_or (default VNone (conn_data !! "user")) (VStr "postgres"))
          = py_or (default VNone (conn_data !! "user"))
              (VStr (if darwin then getuser else "postgres"))) as Euser
    by (by destruct darwin).
  rewrite Euser in H1.
  assert (∀ (s : value) (k : kwargs),
            (<["sudo" := s]> (login_args u (default (VStr "localhost")
                                              (conn_data !! "host")) p k))
              !! "password" = Some p
            ∧ (<["sudo" := s]> (login_args u (default (VStr "localhost")
                                                (conn_data !! "host")) p k))
                !! "user" = Some u) as Hlook.
  { intros s k. unfold login_args. split.
    - rewrite !lookup_insert_ne by done. apply lookup_insert_eq.
    - rewrite lookup_insert_ne by done. apply lookup_insert_eq. }
  apply try_ok in H1 as [H1|(s0 & H0 & H1)].
  - apply bind_ok in H1 as (b & s2 & H1 & H2).
    apply mret_ok in H2 as [[= -> ->] ->].
    pose proof (test_db_stdin _ _ _ _ _ _ H1) as Hs.
    apply test_db_ok in H1 as (o & _ & E). exists [].
    rewrite (emits_issued _ _ _ E). simpl.
    split_and!; try done; apply Hlook.
  - apply bind_inv in H0 as [(b & s2 & _ & H2)|(e & H0 & _)]; [done|].
    unfold test_db_exists in H0.
    apply bind_inv in H0 as [(b & s2 & _ & H2)|(e' & H0 & _)]; [done|].
    apply psql_raise in H0 as [E0 Hs0].
    apply prompt_loop_typed in H1
      as (typed & pw & d & Hlines & E & Hlen & Hlast & -> & ->); [|done].
    exists typed. rewrite (emits_issued _ _ _ (emits_app _ _ _ _ _ E0 E)).
    rewrite Hlast. simpl. split_and!.
    + by rewrite <- Hs0.
    + lia.
    + apply Hlook.
    + apply Hlook.
Qed.

(** X8. The credentials [get_conn_params] returns, in terms of the
    lines it read. It reads two lines for each probe after the first. The
    password is the last line read, and the one it was given when it
    read none. The role is the last answer to the prompt for the role
    that is not empty; when there is none it is the role it was given, or
    else the current user on a Mac and [postgres] elsewhere. *)
Theorem prompted_credentials conn_data (st : state W) c st' :
  get_conn_params psql darwin getuser conn_data st = (Ok c, st') →
  ∃ typed,
    stdin st = typed ++ stdin st'
    ∧ (2 * length (issued st st') = length typed + 2)%nat
    ∧ c !! "password"
      = Some (default (default VNone (conn_data !! "password"))
                (VStr <$> last typed))
    ∧ c !! "user"
      = Some (default
                (py_or (default VNone (conn_data !! "user"))
                   (VStr (if darwin then getuser else "postgres")))
                (VStr <$> last (filter (.≠ EmptyString) (role_answers typed)))).
Proof. apply get_conn_params_typed. Qed.

(** X6. When [get_conn_params] returns, the parameters have every
    key of its input other than user, host, password and sudo unchanged,
    the host it was given (localhost when it was given none) and, when
    the caller chose for or against sudo, that choice. But for sudo, they
    are the keyword arguments of the last call, the probe that succeeded.
    No file is written meanwhile. *)
Theorem get_conn_params_keeps_the_rest conn_data (st : state W) c st' :
  get_conn_params psql darwin getuser conn_data st = (Ok c, st') →
  (∀ key, key ∉ ["user"; "host"; "password"; "sudo"] →
          c !! key = conn_data !! key)
  ∧ c !! "host" = Some (default (VStr "localhost") (conn_data !! "host"))
  ∧ (∀ b, conn_data !! "sudo" = Some (VBool b) → c !! "sudo" = Some (VBool b))
  ∧ (∃ e, last (issued st st') = Some e ∧ is_Some (ev_out e)
          ∧ ∀ key, key ≠ "sudo" → ev_conn e !! key = c !! key)
  ∧ conf_files st' = conf_files st ∧ config_ini st' = config_ini st.
Proof.
  intros H.
  destruct (get_conn_params_quiet _ _ _ _ _ _ _ H) as (_ & Hd & Hf & Hc).
  destruct (get_conn_params_returns _ _ _ _ _ _ _ H)
    as (failed & e & Hall & _ & He & _ & Hkeys & _).
  unfold get_conn_params in H.
  apply bind_ok in H as ([u p] & s1 & _ & H).
  apply mret_ok in H as [-> _].
  split_and!; try done.
  - intros key Hkey. unfold login_args.
    rewrite !lookup_insert_ne by (intros <-; apply Hkey; repeat constructor).
    rewrite !lookup_delete_ne by (intros <-; apply Hkey; repeat constructor).
    done.
  - unfold login_args. rewrite !lookup_insert_ne by done.
    apply lookup_insert_eq.
  - intros b Hb. rewrite lookup_insert_eq, Hb. simpl.
    destruct darwin; [done|]. simpl. by destruct b.
  - exists e. rewrite Hall, last_snoc. split_and!; try done.
    intros key Hkey. by rewrite Hkeys.
Qed.

End Prompts.

(** ** How [create_database] fails *)

Section Throws.

Context {W : Type}.









End Throws.

Section ThrowsScript.

Context {W : Type}.
Variable psql : W → string → kwargs → W * option string.
Variable token : nat → nat → string.



End ThrowsScript.


Section Failures.

Context {W : Type}.
Variable psql : W → string → kwargs → W * option string.
Variable token : nat → nat → string.





End Failures.

Section Abortive.

Context {W : Type}.
Variable psql : W → string → kwargs → W * option string.
Variable token : nat → nat → string.
Variable conn_data : kwargs.

Lemma abortive_ret {A} (a : A) : abortive (W:=W) conn_data (mret a).
Proof.
  intros st r st' [= <- <-]. exists []. rewrite app_nil_r.
  split; [done|constructor].
Qed.

Lemma abortive_raise {A} e :
  e ≠ AssertionError → abortive (W:=W) conn_data (raise (A:=A) e).
Proof.
  intros He st r st' [= <- <-]. exists []. rewrite app_nil_r.
  split; [done|]. destruct e; try done; constructor.
Qed.

Lemma stops_at_refusal_raise {A B} e (d : list event) :
  stops_at_refusal (A:=A) conn_data (Raise e) d →
  stops_at_refusal (A:=B) conn_data (Raise e) d.
Proof. done. Qed.

Lemma stops_at_refusal_app {A} (r : result A) (d1 d2 : list event) :
  Forall (settled conn_data) d1 → stops_at_refusal conn_data r d2 →
  stops_at_refusal conn_data r (d1 ++ d2).
Proof.
  intros H1 H2.
  assert (Forall (settled conn_data) d2 →
          Forall (settled conn_data) (d1 ++ d2)) as Happ
    by (intros; by apply Forall_app).
  destruct r as [a|e]; [by apply Happ|].
  destruct e; try (by apply Happ).
  destruct H2 as (before & e & -> & Hb & He).
  exists (d1 ++ before), e. rewrite app_assoc. split; [done|].
  split; [by apply Forall_app|done].
Qed.

Lemma abortive_bind {A B} (m : M W A) (f : A → M W B) :
  abortive conn_data m → (∀ a, abortive conn_data (f a)) →
  abortive conn_data (m ≫= f).
Proof.
  intros Hm Hf st r st' H.
  apply bind_inv in H as [(a & st1 & H1 & H2)|(e & H1 & ->)].
  - destruct (Hm _ _ _ H1) as (d1 & E1 & S1).
    destruct (Hf _ _ _ _ H2) as (d2 & E2 & S2).
    exists (d1 ++ d2). rewrite E2, E1, app_assoc. split; [done|].
    by apply stops_at_refusal_app.
  - destruct (Hm _ _ _ H1) as (d1 & E1 & S1). by exists d1.
Qed.

Lemma abortive_getitem (d : dict) key :
  abortive (W:=W) conn_data (getitem d key).
Proof.
  unfold getitem. destruct (d !! key); [apply abortive_ret|].
  by apply abortive_raise.
Qed.

Lemma abortive_token n : abortive conn_data (token_urlsafe (W:=W) token n).
Proof.
  intros st r st' [= <- <-]. exists []. simpl. rewrite app_nil_r.
  split; [done|constructor].
Qed.

Lemma abortive_psql c kw : abortive conn_data (psql_command psql c kw).
Proof.
  intros st r st'. unfold psql_command.
  destruct (psql _ _ _) as [w' [o|]]; intros [= <- <-]; simpl.
  - eexists. split; [done|]. constructor; [|constructor]. left. by eexists.
  - eexists. split; [done|]. by exists [], (Event c kw None).
Qed.

Lemma abortive_check {A} u p (x y : A) :
  abortive conn_data
    (try_except
       (test_user_exists psql u (role_conn conn_data u p);; mret x)
       (mret y)).
Proof.
  intros st r st'.
  unfold try_except, test_user_exists, psql_command.
  unfold mbind, M_bind, bind, mret, M_ret, ret.
  destruct (psql _ _ _) as [w' [o|]]; simpl; intros [= <- <-]; simpl.
  - eexists. split; [done|]. constructor; [|constructor]. left. by eexists.
  - eexists. split; [done|]. constructor; [|constructor]. right.
    by exists u, p.
Qed.

End Abortive.

Ltac abortive_step :=
  lazymatch goal with
  | |- abortive _ (mret _) => apply abortive_ret
  | |- abortive _ (_ ≫= _) => apply abortive_bind; [|intros ?]
  | |- abortive _ (try_except _ _) => apply abortive_check
  | |- abortive _ (getitem _ _) => apply abortive_getitem
  | |- abortive _ (token_urlsafe _ _) => apply abortive_token
  | |- abortive _ (psql_command _ _ _) => apply abortive_psql
  | |- abortive _ (test_user_exists _ _ _) => unfold test_user_exists
  | |- abortive _ (test_db_exists _ _ _) => unfold test_db_exists
  | |- abortive _ (let '(_, _) := ?x in _) => destruct x
  | |- abortive _ (if ?b then _ else _) => destruct b
  | |- abortive _ (match ?x with _ => _ end) => destruct x
  end.

Section Refusals.

Context {W : Type}.
Variable psql : W → string → kwargs → W * option string.
Variable token : nat → nat → string.

(** X12. [create_database] stops at the first statement the server
    refuses, unless it is the check of a role's password. When a run
    raises [AssertionError], its last call was refused and the calls
    before were answered or are password checks; in any other run all the
    calls were answered or are password checks. *)
Theorem create_database_stops_at_refusal data conn_data dropdb
    (st : state W) :
  let run := create_database psql token data conn_data dropdb st in
  match run.1 with
  | Raise AssertionError =>
      ∃ before e, issued st run.2 = before ++ [e]
                  ∧ Forall (settled conn_data) before ∧ ev_out e = None
  | _ => Forall (settled conn_data) (issued st run.2)
  end.
Proof.
  intros run. unfold run.
  destruct (create_database psql token data conn_data dropdb st)
    as [r st'] eqn:H. simpl.
  assert (abortive conn_data
            (create_database psql token data conn_data dropdb)) as Hab.
  { unfold create_database, provision_role, provision_database.
    repeat abortive_step. }
  destruct (Hab _ _ _ H) as (d & E & Hd).
  by rewrite (issued_app _ _ _ E).
Qed.

End Refusals.

(** ** What [create_database] sends, and to whom *)

Section Sent.

Context {W : Type}.
Variable psql : W → string → kwargs → W * option string.
Variable token : nat → nat → string.

(** The statements that create a login role or set its password, in a
    round of the loop on the roles that returned. *)
Lemma provision_role_sent conn_data usert data (st : state W) data1 st1 user :
  data !! usert = Some user →
  provision_role psql token conn_data usert data st = (Ok data1, st1) →
  Forall (fun e =>
            match ev_cmd e with
            | AlterRole u perms pw | CreateUser u perms pw =>
                ev_conn e = conn_data ∧ u = user
                ∧ perms = (if PyStr.eqb usert "owner"
                           then "CREATEROLE" else "NOINHERIT")
                ∧ data1 !! (usert +:+ "_password") = Some pw
            | _ => True
            end) (issued st st1)
  ∧ (lacks data (usert +:+ "_password") = true →
     Exists (fun e => changes_role (ev_cmd e) = true) (issued st st1)).
Proof.
  intros Hu. unfold lacks, provision_role. munfold. rewrite Hu. simpl.
  destruct (data !! (usert +:+ "_password")) as [pw|] eqn:Hp; simpl.
  - destruct (PyStr.nonempty pw) eqn:Hne; simpl; intros H.
    + run_psql H; try discriminate; injection H as <- <-; simpl.
      all: erewrite issued_app by (simpl; rewrite <- ?app_assoc; reflexivity).
      all: split; [|done].
      all: repeat constructor; done.
    + run_psql H; try discriminate; injection H as <- <-; simpl.
      all: erewrite issued_app by (simpl; rewrite <- ?app_assoc; reflexivity).
      all: split; [repeat constructor; by rewrite ?lookup_insert_eq|].
      all: intros _; apply Exists_cons_tl, Exists_cons_hd; done.
  - intros H.
    run_psql H; try discriminate; injection H as <- <-; simpl.
    all: erewrite issued_app by (simpl; rewrite <- ?app_assoc; reflexivity).
    all: split; [repeat constructor; by rewrite ?lookup_insert_eq|].
    all: intros _; apply Exists_cons_tl, Exists_cons_hd; done.
Qed.

Lemma issued_trans (a b c : state W) :
  grows a b → grows b c → issued a c = issued a b ++ issued b c.
Proof.
  intros [d1 E1] Hbc. rewrite (issued_app _ _ _ E1). by apply issued_split.
Qed.

(** A run of [create_database] that returns, cut at its stages: the
    member group, the owner, the client, the database. *)
Lemma create_database_rounds data conn_data dropdb (st : state W) data' st' :
  create_database psql token data conn_data dropdb st = (Ok data', st') →
  ∃ database sb d1 sc d2 sd,
    data !! "database" = Some database
    ∧ Forall (fun e => changes_role (ev_cmd e) = false
                       ∧ ev_conn e = conn_data) (issued st sb)
    ∧ drawn sb = drawn st
    ∧ provision_role psql token conn_data "owner" data sb = (Ok d1, sc)
    ∧ provision_role psql token conn_data "client" d1 sc = (Ok d2, sd)
    ∧ provision_database psql token database (database +:+ "__member")
        conn_data dropdb d2 sd = (Ok data', st')
    ∧ issued st st'
      = issued st sb ++ issued sb sc ++ issued sc sd ++ issued sd st'.
Proof.
  unfold create_database. intros H.
  apply bind_ok in H as (database & s0 & E0 & H).
  apply getitem_ok in E0 as [Hdb ->].
  apply bind_ok in H as (present & sa & Ea & H).
  apply bind_ok in H as ([] & sb & Eb & H).
  apply bind_ok in H as (d1 & sc & Ec & H).
  apply bind_ok in H as (d2 & sd & Ed & H).
  exists database, sb, d1, sc, d2, sd.
  pose proof (advances_grows _ _ _ (provision_role_advances _ _ _ _ _ _ _ _ Ec))
    as Gc.
  pose proof (advances_grows _ _ _ (provision_role_advances _ _ _ _ _ _ _ _ Ed))
    as Gd.
  pose proof (advances_grows _ _ _
                (provision_database_quiet _ _ _ _ _ _ _ _ _ _ H)) as Ge.
  assert (Forall (fun e => changes_role (ev_cmd e) = false
                           ∧ ev_conn e = conn_data) (issued st sb)
          ∧ drawn sb = drawn st ∧ grows st sb) as (Hq & Hd & Gb).
  { clear -Ea Eb. munfold. simpl in Ea.
    run_psql Ea; try discriminate; injection Ea as <- <-.
    all: simpl in Eb; run_psql Eb; try discriminate; injection Eb as <-.
    all: simpl.
    all: split; [|split; [done|]].
    all: try (erewrite issued_app
                by (simpl; rewrite <- ?app_assoc; reflexivity);
              by repeat constructor).
    all: eexists; simpl; rewrite <- ?app_assoc; reflexivity. }
  split_and!; try done.
  rewrite (issued_trans st sb st') by
    (done || exact (transitivity Gc (transitivity Gd Ge))).
  rewrite (issued_trans sb sc st') by
    (done || exact (transitivity Gd Ge)).
  by rewrite (issued_trans sc sd st').
Qed.

(** X13. In a run of [create_database] that returns, a statement
    that creates a login role or sets its password is sent on the
    administrator's connection, for the owner with CREATEROLE or for the
    client with NOINHERIT, and the password in it is the one the record
    returned has for that role. A role whose password had to be
    generated gets such a statement. *)
Theorem recorded_passwords_are_those_sent data conn_data dropdb
    (st : state W) data' st' owner client :
  create_database psql token data conn_data dropdb st = (Ok data', st') →
  data !! "owner" = Some owner →
  data !! "client" = Some client →
  Forall (fun e =>
            match ev_cmd e with
            | AlterRole u perms pw | CreateUser u perms pw =>
                ev_conn e = conn_data
                ∧ (u = owner ∧ perms = "CREATEROLE"
                   ∧ data' !! "owner_password" = Some pw
                   ∨ u = client ∧ perms = "NOINHERIT"
                     ∧ data' !! "client_password" = Some pw)
            | _ => True
            end) (issued st st')
  ∧ ∀ usert, usert ∈ ["owner"; "client"] →
      lacks data (usert +:+ "_password") = true →
      ∃ e perms,
        e ∈ issued st st'
        ∧ (ev_cmd e
           = AlterRole (default EmptyString (data !! usert)) perms
               (default EmptyString (data' !! (usert +:+ "_password")))
           ∨ ev_cmd e
             = CreateUser (default EmptyString (data !! usert)) perms
                 (default EmptyString (data' !! (usert +:+ "_password")))).
Proof.
  intros H Ho Hc.
  destruct (create_database_rounds _ _ _ _ _ _ H)
    as (database & sb & d1 & sc & d2 & sd & Hdb & Hq & Hd & Ec & Ed & He
        & Hall).
  assert (d1 !! "client" = Some client) as Hc1
    by (by rewrite (provision_role_names _ _ _ _ _ _ _ _ _ Ec)).
  destruct (provision_role_sent _ _ _ _ _ _ _ Ho Ec) as [So Xo].
  destruct (provision_role_sent _ _ _ _ _ _ _ Hc1 Ed) as [Sc Xc].
  pose proof (advances_issued _ _ _
                (provision_database_quiet _ _ _ _ _ _ _ _ _ _ He)) as Sq.
  assert (∀ key, key ≠ "auth_secret" → data' !! key = d2 !! key) as Hkeep.
  { intros key Hkey.
    pose proof (provision_database_returns _ _ _ _ _ _ _ _ _ _ He) as Hret.
    simpl in Hret.
    destruct (PyStr.nonempty _); destruct Hret as [-> _];
      by rewrite lookup_insert_ne. }
  assert (data' !! "owner_password" = d1 !! "owner_password") as Eo.
  { rewrite Hkeep by done.
    by rewrite (provision_role_names _ _ _ _ _ _ _ _ _ Ed). }
  assert (data' !! "client_password" = d2 !! "client_password") as Ecl
    by (by apply Hkeep).
  split.
  - rewrite Hall. repeat apply Forall_app_2.
    + eapply Forall_impl; [exact Hq|]. intros e. simpl.
      destruct (ev_cmd e); simpl; intros [? _]; done.
    + eapply Forall_impl; [exact So|]. intros e. simpl.
      destruct (ev_cmd e); try done.
      all: intros (? & ? & ? & ?); split; [done|]; left.
      all: by rewrite Eo.
    + eapply Forall_impl; [exact Sc|]. intros e. simpl.
      destruct (ev_cmd e); try done.
      all: intros (? & ? & ? & ?); split; [done|]; right.
      all: by rewrite Ecl.
    + eapply Forall_impl; [exact Sq|]. intros e. unfold quiet. simpl.
      destruct (ev_cmd e); simpl; done.
  - intros usert Hin Hlack. rewrite !elem_of_cons in Hin.
    destruct Hin as [->|[->|Hnil]]; [| |by inversion Hnil].
    + apply Xo in Hlack. apply Exists_exists in Hlack as (e & Hin & Hch).
      rewrite Forall_forall in So. specialize (So e Hin).
      assert (e ∈ issued st st') as Hin'
        by (rewrite Hall, !elem_of_app; tauto).
      rewrite Ho. change ("owner" +:+ "_password") with "owner_password" in *.
      rewrite Eo. simpl.
      revert So Hch. simpl. destruct (ev_cmd e) eqn:Hcmd; try discriminate.
      all: intros (_ & -> & _ & ->) _; simpl; eauto.
    + assert (lacks d1 "client_password" = true) as Hlack1.
      { unfold lacks in *.
        by rewrite (provision_role_names _ _ _ _ _ _ _ _ _ Ec). }
      apply Xc in Hlack1. apply Exists_exists in Hlack1 as (e & Hin & Hch).
      rewrite Forall_forall in Sc. specialize (Sc e Hin).
      assert (e ∈ issued st st') as Hin'
        by (rewrite Hall, !elem_of_app; tauto).
      rewrite Hc. change ("client" +:+ "_password") with "client_password" in *.
      rewrite Ecl. simpl.
      revert Sc Hch. simpl. destruct (ev_cmd e) eqn:Hcmd; try discriminate.
      all: intros (_ & -> & _ & ->) _; simpl; eauto.
Qed.

End Sent.

Section Tokens.

Context {W : Type}.
Variable psql : W → string → kwargs → W * option string.
Variable token : nat → nat → string.

Lemma lookup_if_insert_ne (b : bool) (m : dict) k v key :
  k ≠ key → (if b then <[k := v]> m else m) !! key = m !! key.
Proof. intros. destruct b; by rewrite ?lookup_insert_ne. Qed.

Lemma provision_role_tokens conn_data usert data (st : state W) d1 s1 :
  provision_role psql token conn_data usert data st = (Ok d1, s1) →
  d1 = (if lacks data (usert +:+ "_password")
        then <[usert +:+ "_password" := token (drawn st) 16]> data
        else data)
  ∧ drawn s1 = (drawn st + one_if (lacks data (usert +:+ "_password")))%nat.
Proof.
  intros H. unfold lacks.
  destruct (PyStr.nonempty (default EmptyString
                              (data !! (usert +:+ "_password")))) eqn:Hne.
  - destruct (data !! (usert +:+ "_password")) as [pw|] eqn:Hp; [|done].
    eapply provision_role_supplied in H as [-> ->]; [|done..].
    simpl. split; [done|lia].
  - eapply provision_role_generated in H as [-> ->]; [|done].
    simpl. split; [done|lia].
Qed.

Lemma provision_database_tokens database member conn_data dropdb data
    (st : state W) data' st' :
  provision_database psql token database member conn_data dropdb data st
    = (Ok data', st') →
  data' = <["auth_secret" :=
              if lacks data "auth_secret" then token (drawn st) 32
              else default EmptyString (data !! "auth_secret")]> data
  ∧ drawn st' = (drawn st + one_if (lacks data "auth_secret"))%nat.
Proof.
  intros H. apply provision_database_returns in H. simpl in H.
  unfold lacks. destruct (PyStr.nonempty _); destruct H as [-> ->]; simpl.
  all: split; [done|lia].
Qed.

(** X14. A run of [create_database] that returns draws one token for
    each of the owner's password, the client's password and the signing
    secret that its record lacks, an empty value counting as none: in
    this order, with 16 asked for a password and 32 for the secret. The
    tokens are what the record returned has under these keys; its other
    entries, and the secrets the record had, are returned as they
    were. *)
Theorem tokens_are_drawn_for_missing_secrets data conn_data dropdb
    (st : state W) data' st' :
  create_database psql token data conn_data dropdb st = (Ok data', st') →
  let o := one_if (lacks data "owner_password") in
  let c := one_if (lacks data "client_password") in
  let s := one_if (lacks data "auth_secret") in
  drawn st' = (drawn st + o + c + s)%nat
  ∧ (lacks data "owner_password" = true →
     data' !! "owner_password" = Some (token (drawn st) 16))
  ∧ (lacks data "client_password" = true →
     data' !! "client_password" = Some (token (drawn st + o) 16))
  ∧ (lacks data "auth_secret" = true →
     data' !! "auth_secret" = Some (token (drawn st + o + c) 32))
  ∧ ∀ key,
      lacks data key = false
      ∨ key ∉ ["owner_password"; "client_password"; "auth_secret"] →
      data' !! key = data !! key.
Proof.
  intros H o c s.
  destruct (create_database_rounds _ _ _ _ _ _ _ _ H)
    as (database & sb & d1 & sc & d2 & sd & Hdb & _ & Hd & Ec & Ed & He & _).
  apply provision_role_tokens in Ec as [E1 D1].
  apply provision_role_tokens in Ed as [E2 D2].
  apply provision_database_tokens in He as [E3 D3].
  change ("owner" +:+ "_password") with "owner_password" in *.
  change ("client" +:+ "_password") with "client_password" in *.
  assert (lacks d1 "client_password" = lacks data "client_password") as L1.
  { unfold lacks at 1. rewrite E1. by rewrite lookup_if_insert_ne. }
  assert (lacks d2 "auth_secret" = lacks data "auth_secret") as L2.
  { unfold lacks at 1. rewrite E2, E1. by rewrite !lookup_if_insert_ne. }
  rewrite L1 in *. rewrite L2 in *. rewrite Hd in *.
  unfold o, c, s. clear o c s L1 L2.
  split; [lia|].
  assert (∀ key, lacks data key = false →
                 data !! key = Some (default EmptyString (data !! key)))
    as Hhas.
  { intros key Hl. unfold lacks in Hl. apply negb_false_iff in Hl.
    destruct (data !! key); [done|discriminate]. }
  destruct (lacks data "owner_password") eqn:Lo;
    destruct (lacks data "client_password") eqn:Lc;
    destruct (lacks data "auth_secret") eqn:Ls;
    simpl in *; subst data' d2 d1; rewrite ?Nat.add_0_r in *.
  all: split_and!; try done.
  all: try (intros _; rewrite ?lookup_insert_ne by done;
            rewrite lookup_insert_eq, ?D2, ?D1; f_equal; f_equal; lia).
  all: intros key Hkey.
  all: destruct (decide (key = "auth_secret")) as [->|Hs];
    [rewrite lookup_insert_eq, ?lookup_insert_ne by done;
     destruct Hkey as [Hl|Hn];
     [try congruence; symmetry; by apply Hhas
     |destruct Hn; repeat constructor]|].
  all: rewrite (lookup_insert_ne _ "auth_secret") by done.
  all: destruct (decide (key = "client_password")) as [->|Hc];
    [destruct Hkey as [Hl|Hn];
     [try congruence; by rewrite ?lookup_insert_ne by done
     |destruct Hn; repeat constructor]|].
  all: rewrite ?(lookup_insert_ne _ "client_password") by done.
  all: destruct (decide (key = "owner_password")) as [->|Ho];
    [destruct Hkey as [Hl|Hn];
     [try congruence; by rewrite ?lookup_insert_ne by done
     |destruct Hn; repeat constructor]|].
  all: by rewrite ?(lookup_insert_ne _ "owner_password") by done.
Qed.

End Tokens.

Section Addressed.

Context {W : Type}.
Variable psql : W → string → kwargs → W * option string.
Variable token : nat → nat → string.



End Addressed.

(** ** Dropping needs [--dropdb] *)

Section Sends.

Context {W : Type}.
Variable psql : W → string → kwargs → W * option string.
Variable token : nat → nat → string.
Variable darwin : bool.
Variable getuser : string.

#[global] Instance sends_preorder P : PreOrder (sends (W:=W) P).
Proof.
  split.
  - intros st. exists []. rewrite app_nil_r. split; [done|constructor].
  - intros a b c (d1 & E1 & F1) (d2 & E2 & F2).
    exists (d1 ++ d2). rewrite E2, E1, <- app_assoc. split; [done|].
    by apply Forall_app.
Qed.

Lemma advances_sends P (st st' : state W) : advances P st st' → sends P st st'.
Proof. by intros (? & _). Qed.

Lemma sends_issued P (st st' : state W) :
  sends P st st' → Forall P (issued st st').
Proof. intros (d & E & F). by rewrite (issued_app _ _ _ E). Qed.

Lemma sends_write_conf P name content :
  keeps (sends P) (write_conf (W:=W) name content).
Proof. intros st r st' [= <- <-]. exists []. simpl. by rewrite app_nil_r. Qed.

Lemma sends_write_config P ini_file :
  keeps (sends P) (write_config (W:=W) ini_file).
Proof. intros st r st' [= <- <-]. exists []. simpl. by rewrite app_nil_r. Qed.

Lemma sends_startup P argv : keeps (sends (W:=W) P) (startup argv).
Proof. intros st r st' H. apply startup_pure in H as ->. reflexivity. Qed.

(** The probes of the administrator's connection are all [get_conn_params]
    sends. *)
Lemma prompt_loop_probes P lines user host rest :
  (∀ kw out, P (Event (SelectDatabase "postgres") kw out)) →
  keeps (advances P) (prompt_loop psql lines user host rest).
Proof.
  intros HP. revert user.
  induction lines as [lines IH] using (induction_ltof1 _ length).
  intros user. destruct lines as [|l1 [|l2 lines']]; simpl; repeat keeps_step.
  apply IH. unfold ltof. simpl. lia.
Qed.

Lemma connect_probes P args conn_data :
  (∀ kw out, P (Event (SelectDatabase "postgres") kw out)) →
  keeps (advances P) (connect psql darwin getuser args conn_data).
Proof.
  intros HP. unfold connect, get_conn_params. repeat keeps_step.
  intros st r st'. by apply prompt_loop_probes.
Qed.

Lemma create_database_drops data conn_data (dropdb : bool) :
  keeps (advances (fun e => drops (ev_cmd e) = true → dropdb = true))
    (create_database psql token data conn_data dropdb).
Proof.
  destruct dropdb.
  - unfold create_database, provision_role, provision_database.
    repeat keeps_step.
  - unfold create_database, provision_role, provision_database.
    repeat (rewrite ?andb_false_r; keeps_step).
Qed.

Lemma provision_all_drops args conn_data dbs :
  ∀ index ini_file,
    keeps (sends (fun e => drops (ev_cmd e) = true → dropdb args = true))
      (provision_all psql token args conn_data index dbs ini_file).
Proof.
  induction dbs as [|db dbs IH]; intros index ini_file; simpl.
  - apply keeps_ret, _.
  - apply keeps_bind; [apply _| |intros ?; apply IH].
    unfold provision_env. repeat keeps_walk.
    + eapply keeps_weaken; [apply advances_sends|].
      apply create_database_drops.
    + apply sends_write_conf.
Qed.

Lemma startup_args argv (st : state W) args conn_data ini_file st' :
  startup argv st = (Ok (args, conn_data, ini_file), st') →
  dropdb args = cli_dropdb argv
  ∧ store_password args = cli_store_password argv
  ∧ password args = opt_str (cli_password argv)
  ∧ (∀ db, create_arg args db = cli_create argv db)
  ∧ (sudo args = VNone ∨ ∃ b, sudo args = VBool b).
Proof.
  unfold startup, read_config, connection_defaults, getboolean.
  unfold mbind, M_bind, bind, mret, M_ret, ret, raise.
  intros H. repeat case_match; simplify_eq; simpl.
  all: split_and!; try done.
  all: destruct (cli_sudo argv); simpl; eauto.
  all: rewrite ?lookup_insert_eq, ?lookup_insert_ne by done; simpl; eauto.
Qed.

(** X17. The script sends a statement that drops a database or
    roles only when [--dropdb] is on its command line. *)
Theorem drops_need_dropdb argv (st : state W) :
  Forall (fun e => drops (ev_cmd e) = true → cli_dropdb argv = true)
    (issued st (main psql token darwin getuser argv st).2).
Proof.
  destruct (main psql token darwin getuser argv st) as [r st'] eqn:H.
  apply sends_issued. revert st r st' H.
  change (keeps (sends (fun e => drops (ev_cmd e) = true
                                 → cli_dropdb argv = true))
            (main psql token darwin getuser argv)).
  unfold main.
  apply (keeps_bind_with _ (fun x => dropdb x.1.1 = cli_dropdb argv)).
  { intros st [[args c] i] st1 H. by apply startup_args in H as (? & _). }
  { apply sends_startup. }
  intros [[args c0] ini_file] Hdrop. simpl in Hdrop.
  apply keeps_bind; [apply _| |intros c].
  { eapply keeps_weaken; [apply advances_sends|]. by apply connect_probes. }
  apply keeps_bind; [apply _| |intros ?; apply sends_write_config].
  rewrite <- Hdrop. apply provision_all_drops.
Qed.

End Sends.

Section OnlyProbes.

Context {W : Type}.
Variable psql : W → string → kwargs → W * option string.
Variable darwin : bool.
Variable getuser : string.

(** X10. Whatever comes of it, [get_conn_params] sends nothing but
    probes of the [postgres] database, and writes no file. *)
Theorem get_conn_params_only_probes conn_data (st : state W) :
  let run := get_conn_params psql darwin getuser conn_data st in
  Forall (fun e => ev_cmd e = SelectDatabase "postgres") (issued st run.2)
  ∧ conf_files run.2 = conf_files st ∧ config_ini run.2 = config_ini st.
Proof.
  intros run. unfold run.
  destruct (get_conn_params psql darwin getuser conn_data st)
    as [r st'] eqn:H. simpl.
  assert (keeps (advances (fun e => ev_cmd e = SelectDatabase "postgres"))
            (get_conn_params psql darwin getuser conn_data)) as Hk.
  { unfold get_conn_params. repeat keeps_step.
    intros s r' s'. by apply prompt_loop_probes. }
  pose proof (Hk _ _ _ H) as Hadv.
  split; [by apply advances_issued|].
  by destruct Hadv as (_ & _ & ? & ?).
Qed.

End OnlyProbes.

(** ** How the script fails *)

Section ScriptFailures.

Context {W : Type}.
Variable psql : W → string → kwargs → W * option string.
Variable token : nat → nat → string.
Variable darwin : bool.
Variable getuser : string.

#[global] Instance same_config_preorder : PreOrder (same_config (W:=W)).
Proof.
  split; [done|]. intros a b c. unfold same_config. congruence.
Qed.

Lemma advances_same_config P (st st' : state W) :
  advances P st st' → same_config st st'.
Proof. by intros (_ & _ & _ & ?). Qed.

Lemma provision_all_same_config args conn_data dbs :
  ∀ index ini_file,
    keeps same_config
      (provision_all psql token args conn_data index dbs ini_file).
Proof.
  induction dbs as [|db dbs IH]; intros index ini_file; simpl.
  - apply keeps_ret, _.
  - apply keeps_bind; [apply _| |intros ?; apply IH].
    unfold provision_env. repeat keeps_walk.
    + eapply keeps_weaken; [apply advances_same_config|].
      apply create_database_advances.
    + by intros st r st' [= <- <-].
Qed.

(** X18. A run of the script that raises leaves the state file as
    it was: the file is written at the very end, after the last
    environment. *)
Theorem failure_leaves_the_state_file argv (st : state W) e st' :
  main psql token darwin getuser argv st = (Raise e, st') →
  config_ini st' = config_ini st.
Proof.
  unfold main. intros H.
  apply bind_inv in H as [([[args c0] ini_file] & s0 & H0 & H)|(e0 & H0 & _)].
  2: { by apply startup_pure in H0 as ->. }
  apply startup_pure in H0 as ->.
  apply bind_inv in H as [(c & s1 & H1 & H)|(e1 & H1 & _)].
  2: { by apply connect_quiet in H1 as (_ & _ & _ & ?). }
  apply connect_quiet in H1 as (_ & _ & _ & E1).
  apply bind_inv in H as [(i & s2 & H2 & H)|(e2 & H2 & _)]; [done|].
  apply provision_all_same_config in H2. unfold same_config in H2.
  congruence.
Qed.








Lemma startup_unreadable argv (st : state W) :
  sudo_readable (config_ini st) = false →
  startup argv st = (Raise ValueError, st).
Proof.
  unfold sudo_readable, stored, ini_get. intros H.
  destruct (config_ini st) as [ini_file|] eqn:Hcfg; simpl in H; [|done].
  destruct (ini_file !! "postgres") as [options|] eqn:Hopt; simpl in H;
    [|done].
  destruct (options !! "sudo") as [v|] eqn:Hs; [|done].
  apply bool_decide_eq_false in H.
  change ["1"; "yes"; "true"; "on"; "0"; "no"; "false"; "off"]
    with (["1"; "yes"; "true"; "on"] ++ ["0"; "no"; "false"; "off"]) in H.
  rewrite elem_of_app in H.
  unfold startup.
  erewrite bind_eq; [|unfold read_config; rewrite Hcfg; reflexivity].
  simpl. apply bind_raise. unfold connection_defaults. rewrite Hopt.
  apply bind_raise. unfold getboolean. rewrite Hs.
  rewrite !bool_decide_eq_false_2 by tauto. reflexivity.
Qed.

(** X20. A state file whose [postgres] section has a [sudo] option
    that does not read as a boolean makes the script raise [ValueError]
    at its start, whatever the command line says: nothing is sent,
    nothing is written. *)
Theorem unreadable_sudo_is_refused argv (st : state W) :
  sudo_readable (config_ini st) = false →
  main psql token darwin getuser argv st = (Raise ValueError, st).
Proof.
  intros H. unfold main. apply bind_raise. by apply startup_unreadable.
Qed.

End ScriptFailures.

(** ** Where the connection parameters come from *)

Section Sources.

Context {W : Type}.
Variable psql : W → string → kwargs → W * option string.
Variable token : nat → nat → string.
Variable darwin : bool.
Variable getuser : string.







End Sources.

(** ** The state file, from one run to the next *)

Section StateFile.

Context {W : Type}.
Variable psql : W → string → kwargs → W * option string.
Variable token : nat → nat → string.
Variable darwin : bool.
Variable getuser : string.

Lemma ini_get_set (ini_file : ini) s k v s' k' :
  ini_get (ini_set s k v ini_file) s' k'
  = if decide (s = s' ∧ k = k') then Some v else ini_get ini_file s' k'.
Proof.
  unfold ini_get, ini_set. destruct (decide (s = s')) as [<-|Hs].
  - rewrite lookup_insert_eq. simpl. destruct (decide (k = k')) as [<-|Hk].
    + rewrite lookup_insert_eq. by rewrite decide_True.
    + rewrite lookup_insert_ne by done. rewrite decide_False by tauto.
      by destruct (ini_file !! s).
  - rewrite lookup_insert_ne by done. by rewrite decide_False by tauto.
Qed.

Lemma record_connection_options args c (ini_file : ini) :
  ini_get (record_connection args c ini_file) "postgres" "sudo"
  = Some (PyStr.lower (py_str (default VNone (c !! "sudo"))))
  ∧ ini_get (record_connection args c ini_file) "base" "app_name"
    = Some (app_name args)
  ∧ ∀ s k, set_by_script s k = false →
           ini_get (record_connection args c ini_file) s k
           = ini_get ini_file s k.
Proof.
  unfold record_connection. split_and!.
  - destruct (store_password args); rewrite !ini_get_set;
      repeat (rewrite decide_False by (intros [? ?]; done));
      by rewrite decide_True.
  - by rewrite ini_get_set, decide_True.
  - intros s k Hset. unfold set_by_script in Hset.
    apply orb_false_iff in Hset as [H1 H2].
    apply bool_decide_eq_false in H1, H2.
    destruct (store_password args); rewrite !ini_get_set.
    all: repeat (rewrite decide_False;
                 [|intros [<- <-];
                   first [apply H1; split; [done|repeat constructor]
                         |apply H2; by split]]).
    all: done.
Qed.


(** Across a round of the loop on the environments, an option of the
    state file stays, unless it is a secret to generate. *)
Lemma provision_env_keeps args conn_data index db ini_file (st : state W)
    ini_file' st' s k v :
  provision_env psql token args conn_data index db ini_file st
    = (Ok ini_file', st') →
  ini_get ini_file s k = Some v →
  empty_secret k v = false →
  ini_get ini_file' s k = Some v.
Proof.
  intros H Hv Hsecret. destruct (create_arg args db) eqn:Hcreate.
  2: { by apply provision_env_skip in H as [[= ->] _]. }
  destruct (provision_env_ok _ _ _ _ _ _ _ _ _ _ H Hcreate)
    as (data' & sc & client & pw & jwt & Hrun & _ & _ & _ & -> & _).
  unfold ini_get in *. destruct (decide (s = db)) as [->|Hs].
  2: { by rewrite lookup_insert_ne. }
  rewrite lookup_insert_eq. simpl.
  destruct (ini_file !! db) as [options|] eqn:Hopt; [|done]. simpl in *.
  apply lookup_union_Some_l.
  assert (env_data (db_name args index db) (Some options) !! k = Some v)
    as Hdata by (unfold env_data; by apply lookup_union_Some_l).
  unfold env_data in Hdata.
  unfold empty_secret in Hsecret. apply andb_false_iff in Hsecret.
  destruct (decide (k = "auth_secret")) as [->|Hk1].
  { destruct Hsecret as [Hn|Hne].
    { apply bool_decide_eq_false in Hn. destruct Hn. repeat constructor. }
    apply negb_false_iff in Hne.
    destruct (create_database_rounds _ _ _ _ _ _ _ _ Hrun)
      as (database & sb & d1 & scc & d2 & sd & _ & _ & _ & Ec & Ed & He & _).
    apply provision_database_tokens in He as [-> _].
    rewrite lookup_insert_eq.
    assert (d2 !! "auth_secret" = Some v) as E2.
    { rewrite (provision_role_names _ _ _ _ _ _ _ _ _ Ed) by done.
      by rewrite (provision_role_names _ _ _ _ _ _ _ _ _ Ec). }
    unfold lacks. rewrite E2. simpl. by rewrite Hne. }
  destruct (decide (k = "owner_password")) as [->|Hk2].
  { destruct Hsecret as [Hn|Hne].
    { apply bool_decide_eq_false in Hn. destruct Hn. repeat constructor. }
    apply negb_false_iff in Hne.
    destruct (create_database_passwords _ _ _ _ _ _ _ _ "owner" Hrun)
      as (p & Hp & Hgiven); [repeat constructor|].
    change ("owner" +:+ "_password") with "owner_password" in *.
    rewrite Hdata in Hgiven. simpl in Hgiven. rewrite Hne in Hgiven.
    by subst p. }
  destruct (decide (k = "client_password")) as [->|Hk3].
  { destruct Hsecret as [Hn|Hne].
    { apply bool_decide_eq_false in Hn. destruct Hn. repeat constructor. }
    apply negb_false_iff in Hne.
    destruct (create_database_passwords _ _ _ _ _ _ _ _ "client" Hrun)
      as (p & Hp & Hgiven); [repeat constructor|].
    change ("client" +:+ "_password") with "client_password" in *.
    rewrite Hdata in Hgiven. simpl in Hgiven. rewrite Hne in Hgiven.
    by subst p. }
  by rewrite (create_database_names _ _ _ _ _ _ _ _ _ Hrun).
Qed.

(** X23. A run that ends well keeps what the state file had: every
    option it read is in the state file it writes, with the same value,
    unless it is one of those the script sets in the [postgres] and
    [base] sections, or a secret of an environment that was empty. *)
Theorem options_survive_a_run argv (st st' : state W) section key v :
  main psql token darwin getuser argv st = (Ok (), st') →
  stored (config_ini st) section key = Some v →
  set_by_script section key = false →
  empty_secret key v = false →
  stored (config_ini st') section key = Some v.
Proof.
  intros H Hv Hset Hsecret.
  destruct (main_ok _ _ _ _ _ _ _ H)
    as (conn_data & ini_file & name & c & s1 & i1 & s2 & i2 & s3 & i3 & s4
        & _ & Hget & _ & _ & H1 & H2 & H3 & Hw & _).
  rewrite Hw. simpl. rewrite <- Hget in Hv.
  eapply provision_env_keeps; [exact H3| |done].
  eapply provision_env_keeps; [exact H2| |done].
  eapply provision_env_keeps; [exact H1| |done].
  destruct (record_connection_options
              (parse_args argv ini_file conn_data name) c ini_file)
    as (_ & _ & Hkeep).
  by rewrite Hkeep.
Qed.

(** A run of the script that ends well, from its start on. *)
Lemma main_cut argv (st st' : state W) :
  main psql token darwin getuser argv st = (Ok (), st') →
  ∃ args conn_data ini_file c s1 i1 s2 i2 s3 i3 s4,
    startup argv st = (Ok (args, conn_data, ini_file), st)
    ∧ app_name args = resolved_app_name argv (config_ini st)
    ∧ resolved_app_name argv (config_ini st) ≠ "MISSING"
    ∧ (∀ s k, ini_get ini_file s k = stored (config_ini st) s k)
    ∧ connect psql darwin getuser args conn_data st = (Ok c, s1)
    ∧ provision_env psql token args c 0 "development"
        (record_connection args c ini_file) s1 = (Ok i1, s2)
    ∧ provision_env psql token args c 1 "test" i1 s2 = (Ok i2, s3)
    ∧ provision_env psql token args c 2 "production" i2 s3 = (Ok i3, s4)
    ∧ config_ini st' = Some i3
    ∧ conf_files st' = conf_files s4
    ∧ stdin st' = stdin s4.
Proof.
  unfold main. intros H.
  apply bind_ok in H as ([[args c0] ini_file] & s0 & H0 & H).
  pose proof (startup_pure _ _ _ _ H0) as ->.
  pose proof (startup_ok_readable _ _ _ _ H0) as Hsudo.
  destruct (startup_cases argv st Hsudo)
    as (conn_data & ini0 & name & Hname & Hget & _ & Hstart).
  pose proof H0 as H0'. rewrite Hstart in H0'. unfold PyStr.eqb in H0'.
  case_bool_decide as Hmiss; [discriminate|].
  injection H0' as <- <- <-.
  apply bind_ok in H as (c & s1 & Hc & H).
  apply bind_ok in H as (i3 & s4 & Hall & H).
  injection H as <-. simpl in Hall.
  apply bind_ok in Hall as (i1 & s2 & H1 & Hall).
  apply bind_ok in Hall as (i2 & s3 & H2 & Hall).
  apply bind_ok in Hall as (i3' & s4' & H3 & Hall).
  apply mret_ok in Hall as [-> ->].
  eexists _, _, _, c, s1, i1, s2, i2, s3, i3', s4'.
  split; [exact H0|]. split_and!; done.
Qed.


End StateFile.

(** ** The environments *)

Section Environments2.

Context {W : Type}.
Variable psql : W → string → kwargs → W * option string.
Variable token : nat → nat → string.
Variable darwin : bool.
Variable getuser : string.

Lemma db_url_database client pw host port dbname :
  ∃ pre, db_url client pw host port dbname = pre +:+ "/" +:+ dbname.
Proof.
  unfold db_url.
  exists ("postgres://" +:+ client +:+ ":" +:+ pw +:+ "@" +:+ py_str host
          +:+ ":" +:+ py_str port).
  by rewrite !append_assoc.
Qed.

(** X25. The database name of the state file wins over the one of
    the command line. When both name the database of an environment, a
    run that ends well provisions the stored name, on which it sets the
    signing secret and which it writes back to the state file, while the
    URL in the REST-proxy configuration ends with the name of the command
    line. *)
Theorem stored_database_name_wins argv (st st' : state W) index db
    new old :
  main psql token darwin getuser argv st = (Ok (), st') →
  DATABASES !! index = Some db →
  cli_create argv db = true →
  cli_database argv db = Some new →
  new ≠ EmptyString →
  stored (config_ini st) db "database" = Some old →
  stored (config_ini st') db "database" = Some old
  ∧ (∃ e secret, e ∈ issued st st' ∧ ev_cmd e = SetJwtSecret old secret)
  ∧ ∃ content url pre,
      conf_files st' !! conf_name db = Some content
      ∧ contains ("db-uri = " +:+ PyStr.dquote +:+ url +:+ PyStr.dquote
                    +:+ PyStr.nl) content
      ∧ url = pre +:+ "/" +:+ new.
Proof.
  intros H Hdb Hcreate Hnew Hne Hold.
  destruct (main_environment _ _ _ _ _ _ _ _ _ H Hdb Hcreate)
    as (written & args & c & s & sc & data' & client & pw & jwt
        & Hw & Hparsed & Gs & Gsc & _ & _ & Hrun & Hsec & _ & _ & _ & Hconf).
  destruct Hparsed as (_ & _ & Harg & _).
  assert (db_name args index db = new) as Edb.
  { unfold db_name.
    rewrite Harg, Hnew by (by eapply list_elem_of_lookup_2). simpl.
    by destruct new. }
  rewrite Edb in Hrun, Hconf.
  set (data := env_data new (default ∅ (config_ini st) !! db)) in *.
  assert (data !! "database" = Some old) as Ed.
  { unfold data, env_data. unfold stored, ini_get in Hold.
    destruct (config_ini st) as [cfg|]; simpl in *; [|done].
    destruct (cfg !! db) as [options|]; simpl in *; [|done].
    by apply lookup_union_Some_l. }
  split_and!.
  - rewrite Hw. simpl. eapply stored_written; [done|].
    apply lookup_union_Some_l.
    by rewrite (create_database_names _ _ _ _ _ _ _ _ _ Hrun).
  - destruct (create_database_stages _ _ _ _ _ _ _ _ _ Ed Hrun)
      as (data2 & st2 & before & _ & _ & _ & H2 & Hsplit).
    destruct (provision_database_trace _ _ _ _ _ _ _ _ _ _ H2)
      as (owner & client' & secret & o & middle & _ & _ & _ & _ & Hcmds & _).
    assert (SetJwtSecret old secret ∈ ev_cmd <$> issued st2 sc) as Hin.
    { rewrite Hcmds. apply elem_of_cons. right. apply elem_of_app. right.
      unfold closing. repeat constructor. }
    apply list_elem_of_fmap in Hin as (e & He & Hin).
    exists e, secret. split; [|done].
    pose proof (advances_grows _ _ _
                  (create_database_advances _ _ _ _ _ _ _ _ Hrun)) as Grun.
    eapply issued_within; [exact Gs|exact Grun|exact Gsc|].
    rewrite Hsplit. apply elem_of_app. by right.
  - destruct (db_url_database client pw (default VNone (c !! "host"))
                (default VNone (c !! "port")) new) as [pre Hpre].
    eexists _, _, pre. split; [exact Hconf|]. split; [|exact Hpre].
    apply postgrest_config_uri.
Qed.

Lemma provision_env_aside args conn_data index db' ini_file (st : state W)
    ini_file' st' db key :
  provision_env psql token args conn_data index db' ini_file st
    = (Ok ini_file', st') →
  db ∈ DATABASES → db' ∈ DATABASES →
  db' ≠ db ∨ create_arg args db' = false →
  ini_get ini_file' db key = ini_get ini_file db key
  ∧ conf_files st' !! conf_name db = conf_files st !! conf_name db.
Proof.
  intros H Hdb Hdb' [Hne|Hskip].
  - destruct (provision_env_frame _ _ _ _ _ _ _ _ _ _ H) as (Hi & Hf & _).
    split.
    + unfold ini_get. by rewrite Hi.
    + apply Hf. unfold DATABASES in *. rewrite !elem_of_cons in Hdb, Hdb'.
      destruct Hdb as [->|[->|[->|Hn]]]; [| | |by inversion Hn].
      all: destruct Hdb' as [->|[->|[->|Hn]]]; [| | |by inversion Hn].
      all: done.
  - by apply provision_env_skip in H as [[= ->] ->].
Qed.

(** X26. An environment that [--no-create-...] excludes is left
    alone by a run that ends well: its section of the state file has the
    options it had, and its REST-proxy configuration file is as it
    was. *)
Theorem skipped_environment_is_left_alone argv (st st' : state W) db :
  main psql token darwin getuser argv st = (Ok (), st') →
  db ∈ DATABASES →
  cli_create argv db = false →
  (∀ key, stored (config_ini st') db key = stored (config_ini st) db key)
  ∧ conf_files st' !! conf_name db = conf_files st !! conf_name db.
Proof.
  intros H Hdb Hcreate.
  destruct (main_cut _ _ _ _ _ _ _ H)
    as (args & conn_data & ini_file & c & s1 & i1 & s2 & i2 & s3 & i3 & s4
        & Hstart & _ & _ & Hget & Hc & H1 & H2 & H3 & Hw & Hf & _).
  apply startup_args in Hstart as (_ & _ & _ & Hcr & _).
  assert (create_arg args db = false) as Hskip by (by rewrite Hcr).
  assert (∀ db', db' ≠ db ∨ create_arg args db' = false) as Hside.
  { intros db'. destruct (decide (db' = db)) as [->|]; eauto. }
  destruct (connect_quiet _ _ _ _ _ _ _ _ Hc) as (_ & _ & F0 & _).
  assert (∀ key, set_by_script db key = false) as Hset.
  { intros key. unfold set_by_script, DATABASES in *.
    rewrite !elem_of_cons in Hdb.
    destruct Hdb as [->|[->|[->|Hn]]]; [| | |by inversion Hn].
    all: apply orb_false_iff; split; apply bool_decide_eq_false;
      by intros [? _]. }
  destruct (record_connection_options args c ini_file) as (_ & _ & Hkeep).
  split.
  - intros key. rewrite Hw. simpl.
    destruct (provision_env_aside _ _ _ _ _ _ _ _ db key H3 Hdb
                ltac:(repeat constructor) (Hside _)) as [-> _].
    destruct (provision_env_aside _ _ _ _ _ _ _ _ db key H2 Hdb
                ltac:(repeat constructor) (Hside _)) as [-> _].
    destruct (provision_env_aside _ _ _ _ _ _ _ _ db key H1 Hdb
                ltac:(repeat constructor) (Hside _)) as [-> _].
    by rewrite Hkeep, Hget.
  - rewrite Hf.
    destruct (provision_env_aside _ _ _ _ _ _ _ _ db "" H3 Hdb
                ltac:(repeat constructor) (Hside _)) as [_ ->].
    destruct (provision_env_aside _ _ _ _ _ _ _ _ db "" H2 Hdb
                ltac:(repeat constructor) (Hside _)) as [_ ->].
    destruct (provision_env_aside _ _ _ _ _ _ _ _ db "" H1 Hdb
                ltac:(repeat constructor) (Hside _)) as [_ ->].
    by rewrite F0.
Qed.

End Environments2.

Section Owner.

Context {W : Type}.
Variable psql : W → string → kwargs → W * option string.
Variable token : nat → nat → string.

(** X16. Without [dropdb], a run of [create_database] that returns
    and finds the database asks for its owner; when the answer is not the
    owner expected it sends one statement about it, whose text is ALTER,
    the name of the database, SET OWNER TO and the owner, with no
    DATABASE keyword. The database is neither dropped nor created: the
    memberships, the secret and the schema follow at once. *)
Theorem owner_is_set_without_dropdb data conn_data (st : state W) data' st'
    database owner client :
  data !! "database" = Some database →
  data !! "owner" = Some owner →
  data !! "client" = Some client →
  create_database psql token data conn_data false st = (Ok data', st') →
  Forall (fun e => ev_cmd e = SelectDatabase database →
                   ∃ o, ev_out e = Some o ∧ PyStr.strip o = database)
         (issued st st') →
  ∃ before after out secret,
    issued st st' = before ++ after
    ∧ Forall role_stage before
    ∧ Event (SelectOwner database) conn_data (Some out) ∈ after
    ∧ ev_cmd <$> after
      = [SelectDatabase database; SelectOwner database]
          ++ (if PyStr.eqb (PyStr.strip out) owner then []
              else [AlterSetOwner database owner])
          ++ closing database (database +:+ "__member") owner client secret
    ∧ render (AlterSetOwner database owner)
      = "ALTER " +:+ database +:+ " SET OWNER TO " +:+ owner.
Proof.
  intros Hdb Ho Hc H Hexists.
  destruct (create_database_stages _ _ _ _ _ _ _ _ _ Hdb H)
    as (data2 & st2 & before & Ebefore & Hbefore & Hkeys & H2 & Hsplit).
  assert (data2 !! "owner" = data !! "owner") as Ho2 by by apply Hkeys.
  assert (data2 !! "client" = data !! "client") as Hc2 by by apply Hkeys.
  destruct (provision_database_trace _ _ _ _ _ _ _ _ _ _ H2)
    as (owner' & client' & secret & o & middle
        & Ho' & Hc' & Hs' & Hprobe & Hcmds & Houts & Hpath).
  pose proof (provision_database_returns _ _ _ _ _ _ _ _ _ _ H2) as Hret.
  assert (data' !! "owner" = data2 !! "owner"
          ∧ data' !! "client" = data2 !! "client") as [Eo Ec].
  { simpl in Hret. destruct (PyStr.nonempty _); destruct Hret as [-> _];
      by rewrite !lookup_insert_ne. }
  assert (owner' = owner) as -> by congruence.
  assert (client' = client) as -> by congruence.
  assert (PyStr.eqb (PyStr.strip o) database = true) as Hyes.
  { rewrite Forall_forall in Hexists.
    destruct (Hexists (Event (SelectDatabase database) conn_data (Some o)))
      as (o' & [= <-] & Hstrip); [|done|].
    - rewrite Hsplit. apply elem_of_app. by right.
    - unfold PyStr.eqb. by apply bool_decide_eq_true. }
  rewrite Hyes in Hpath. destruct Hpath as (out & Hout & ->).
  exists before, (issued st2 st'), out, secret.
  split_and!; done.
Qed.

End Owner.

(** ** The administrator's password in the state file *)

Section StoredPassword.

Context {W : Type}.
Variable psql : W → string → kwargs → W * option string.
Variable token : nat → nat → string.
Variable darwin : bool.
Variable getuser : string.

#[global] Instance same_stdin_preorder : PreOrder (same_stdin (W:=W)).
Proof.
  split; [done|]. intros a b c. unfold same_stdin. congruence.
Qed.

Lemma same_stdin_psql c kw : keeps same_stdin (psql_command psql c kw).
Proof.
  intros st r st'. unfold psql_command.
  destruct (psql _ _ _) as [w' [o|]]; by intros [= <- <-].
Qed.

Lemma same_stdin_token n : keeps same_stdin (token_urlsafe (W:=W) token n).
Proof. by intros st r st' [= <- <-]. Qed.

Lemma same_stdin_write_conf name content :
  keeps same_stdin (write_conf (W:=W) name content).
Proof. by intros st r st' [= <- <-]. Qed.

End StoredPassword.

(** Walks through a computation that asks the operator nothing. *)
Ltac stdin_step :=
  lazymatch goal with
  | |- keeps _ (mret _) => apply keeps_ret, _
  | |- keeps _ (raise _) => apply keeps_raise, _
  | |- keeps _ (_ ≫= _) => apply keeps_bind; [apply _| |intros ?]
  | |- keeps _ (try_except _ _) => apply keeps_try; [apply _| |]
  | |- keeps _ (getitem _ _) => apply keeps_getitem, _
  | |- keeps _ (token_urlsafe _ _) => apply same_stdin_token
  | |- keeps _ (psql_command _ _ _) => apply same_stdin_psql
  | |- keeps _ (write_conf _ _) => apply same_stdin_write_conf
  | |- keeps _ (test_user_exists _ _ _) => unfold test_user_exists
  | |- keeps _ (test_db_exists _ _ _) => unfold test_db_exists
  | |- keeps _ (let '(_, _) := ?x in _) => destruct x
  | |- keeps _ (if ?b then _ else _) => destruct b
  | |- keeps _ (match ?x with _ => _ end) => destruct x
  end.

Section StoredPassword2.

Context {W : Type}.
Variable psql : W → string → kwargs → W * option string.
Variable token : nat → nat → string.
Variable darwin : bool.
Variable getuser : string.

Lemma provision_env_same_stdin args conn_data index db ini_file :
  keeps same_stdin
    (provision_env psql token args conn_data index db ini_file).
Proof.
  unfold provision_env, create_database, provision_role, provision_database.
  repeat stdin_step.
Qed.

Lemma connect_typed args conn_data (st : state W) c st' :
  connect psql darwin getuser args conn_data st = (Ok c, st') →
  ∃ typed,
    stdin st = typed ++ stdin st'
    ∧ c !! "password" = Some (default (password args) (VStr <$> last typed)).
Proof.
  unfold connect. intros H.
  apply bind_ok in H as (c1 & s1 & H1 & H). apply mret_ok in H as [-> ->].
  apply get_conn_params_typed in H1 as (typed & Hin & _ & Hpw & _).
  exists typed. split; [done|].
  rewrite lookup_insert_ne by done. rewrite Hpw.
  by rewrite lookup_insert_ne, lookup_insert_eq.
Qed.

(** X27. With [--store-password], a run that ends well writes to
    the [postgres] section the password it ended up with, as text: the
    last line the operator typed when the run had to prompt, else the
    password of the command line, and the text [None] when there was
    neither. *)
Theorem store_password_writes_the_password_used argv (st st' : state W) :
  main psql token darwin getuser argv st = (Ok (), st') →
  cli_store_password argv = true →
  ∃ typed,
    stdin st = typed ++ stdin st'
    ∧ stored (config_ini st') "postgres" "password"
      = Some (py_str (default (opt_str (cli_password argv))
                        (VStr <$> last typed))).
Proof.
  intros H Hstore.
  destruct (main_cut _ _ _ _ _ _ _ H)
    as (args & conn_data & ini_file & c & s1 & i1 & s2 & i2 & s3 & i3 & s4
        & Hstart & _ & _ & _ & Hc & H1 & H2 & H3 & Hw & _ & E4).
  apply startup_args in Hstart as (_ & Hsp & Hpw & _).
  apply connect_typed in Hc as (typed & Hin & Hc).
  rewrite Hpw in Hc. rewrite Hstore in Hsp.
  apply provision_env_same_stdin in H1 as E1.
  apply provision_env_same_stdin in H2 as E2.
  apply provision_env_same_stdin in H3 as E3.
  unfold same_stdin in *.
  exists typed. split; [congruence|].
  rewrite Hw. simpl.
  eapply provision_env_keeps; [exact H3| |done].
  eapply provision_env_keeps; [exact H2| |done].
  eapply provision_env_keeps; [exact H1| |done].
  unfold record_connection. rewrite Hsp.
  rewrite !ini_get_set. rewrite decide_False by (by intros [? ?]).
  rewrite decide_True by done. by rewrite Hc.
Qed.

End StoredPassword2.

(** ** The further properties, on sample runs *)

Lemma existence_tests_need_trimmed_names_witness :
  let st := boot [Some " app "] [] None in
  let run := test_db_exists scripted "app" Sample.conn_data st in
  run.1 = Ok true
  ∧ (∃ e, issued st run.2 = [e] ∧ ev_conn e = Sample.conn_data
          ∧ (ev_out e = None ↔ run.1 = Raise AssertionError))
  ∧ (run.1 = Ok true → trimmed "app" = true)
  ∧ drawn run.2 = drawn st ∧ stdin run.2 = stdin st.
Proof.
  intros st run. split; [vm_compute; reflexivity|].
  refine (existence_tests_need_trimmed_names scripted "app" Sample.conn_data
            st run.1 run.2 _).
  left. apply surjective_pairing.
Defined.


Lemma prompted_credentials_witness :
  let st := boot Trial.refused_twice Trial.keyboard_twice None in
  let run := get_conn_params scripted false "me" Sample.conn_fresh st in
  let c := default ∅ (returned run.1) in
  (c !! "user", c !! "password")
  = (Some (VStr "admin"), Some (VStr "secret"))
  ∧ ∃ typed,
      stdin st = typed ++ stdin run.2
      ∧ (2 * length (issued st run.2) = length typed + 2)%nat
      ∧ c !! "password"
        = Some (default (default VNone (Sample.conn_fresh !! "password"))
                  (VStr <$> last typed))
      ∧ c !! "user"
        = Some (default
                  (py_or (default VNone (Sample.conn_fresh !! "user"))
                     (VStr (if false then "me" else "postgres")))
                  (VStr <$> last (filter (.≠ EmptyString)
                                    (role_answers typed)))).
Proof.
  intros st run c. split; [vm_compute; reflexivity|].
  refine (prompted_credentials scripted false "me" Sample.conn_fresh st c
            run.2 _).
  apply run_returned. vm_compute. reflexivity.
Defined.

Lemma get_conn_params_keeps_the_rest_witness :
  let st := boot Sample.probe_refused_once Sample.keyboard None in
  let run := get_conn_params scripted false "me" Sample.conn_fresh st in
  let c := default ∅ (returned run.1) in
  c !! "port" = Some (VInt 5432)
  ∧ (∀ key, key ∉ ["user"; "host"; "password"; "sudo"] →
            c !! key = Sample.conn_fresh !! key)
  ∧ c !! "host"
    = Some (default (VStr "localhost") (Sample.conn_fresh !! "host"))
  ∧ (∀ b, Sample.conn_fresh !! "sudo" = Some (VBool b) →
          c !! "sudo" = Some (VBool b))
  ∧ (∃ e, last (issued st run.2) = Some e ∧ is_Some (ev_out e)
          ∧ ∀ key, key ≠ "sudo" → ev_conn e !! key = c !! key)
  ∧ conf_files run.2 = conf_files st ∧ config_ini run.2 = config_ini st.
Proof.
  intros st run c. split; [vm_compute; reflexivity|].
  refine (get_conn_params_keeps_the_rest scripted false "me"
            Sample.conn_fresh st c run.2 _).
  apply run_returned. vm_compute. reflexivity.
Defined.


Lemma recorded_passwords_are_those_sent_witness :
  let st := boot [] [] None in
  let run := create_database scripted numbered Trial.fresh Sample.conn_data
               false st in
  let data' := default ∅ (returned run.1) in
  (data' !! "owner_password", data' !! "client_password")
  = (Some "tok0", Some "tok1")
  ∧ Forall (fun e =>
              match ev_cmd e with
              | AlterRole u perms pw | CreateUser u perms pw =>
                  ev_conn e = Sample.conn_data
                  ∧ (u = "app__owner" ∧ perms = "CREATEROLE"
                     ∧ data' !! "owner_password" = Some pw
                     ∨ u = "app__client" ∧ perms = "NOINHERIT"
                       ∧ data' !! "client_password" = Some pw)
              | _ => True
              end) (issued st run.2)
  ∧ ∀ usert, usert ∈ ["owner"; "client"] →
      lacks Trial.fresh (usert +:+ "_password") = true →
      ∃ e perms,
        e ∈ issued st run.2
        ∧ (ev_cmd e
           = AlterRole (default EmptyString (Trial.fresh !! usert)) perms
               (default EmptyString (data' !! (usert +:+ "_password")))
           ∨ ev_cmd e
             = CreateUser (default EmptyString (Trial.fresh !! usert)) perms
                 (default EmptyString (data' !! (usert +:+ "_password")))).
Proof.
  intros st run data'. split; [vm_compute; reflexivity|].
  refine (recorded_passwords_are_those_sent scripted numbered Trial.fresh
            Sample.conn_data false st data' run.2 "app__owner" "app__client"
            _ _ _).
  - apply run_returned. vm_compute. reflexivity.
  - vm_compute. reflexivity.
  - vm_compute. reflexivity.
Defined.

Lemma tokens_are_drawn_for_missing_secrets_witness :
  let st := boot [] [] None in
  let run := create_database scripted numbered Trial.fresh Sample.conn_data
               false st in
  let data' := default ∅ (returned run.1) in
  drawn run.2 = 3%nat
  ∧ let o := one_if (lacks Trial.fresh "owner_password") in
    let c := one_if (lacks Trial.fresh "client_password") in
    let s := one_if (lacks Trial.fresh "auth_secret") in
    drawn run.2 = (drawn st + o + c + s)%nat
    ∧ (lacks Trial.fresh "owner_password" = true →
       data' !! "owner_password" = Some (numbered (drawn st) 16))
    ∧ (lacks Trial.fresh "client_password" = true →
       data' !! "client_password" = Some (numbered (drawn st + o) 16))
    ∧ (lacks Trial.fresh "auth_secret" = true →
       data' !! "auth_secret" = Some (numbered (drawn st + o + c) 32))
    ∧ ∀ key,
        lacks Trial.fresh key = false
        ∨ key ∉ ["owner_password"; "client_password"; "auth_secret"] →
        data' !! key = Trial.fresh !! key.
Proof.
  intros st run data'. split; [vm_compute; reflexivity|].
  refine (tokens_are_drawn_for_missing_secrets scripted numbered Trial.fresh
            Sample.conn_data false st data' run.2 _).
  apply run_returned. vm_compute. reflexivity.
Defined.


Lemma failure_leaves_the_state_file_witness :
  let st := boot Trial.refuses_the_owner [] None in
  let run := main scripted numbered false "me" Sample.argv st in
  (run.1, drawn run.2) = (Raise AssertionError, 1%nat)
  ∧ config_ini run.2 = config_ini st.
Proof.
  intros st run. split; [vm_compute; reflexivity|].
  refine (failure_leaves_the_state_file scripted numbered false "me"
            Sample.argv st AssertionError run.2 _).
  apply run_result. vm_compute. reflexivity.
Defined.


Lemma unreadable_sudo_is_refused_witness :
  let st := boot [] [] (Some Trial.config_unreadable) in
  sudo_readable (config_ini st) = false
  ∧ main scripted numbered false "me" Sample.argv st
    = (Raise ValueError, st).
Proof.
  intros st. split; [vm_compute; reflexivity|].
  refine (unreadable_sudo_is_refused scripted numbered false "me"
            Sample.argv st _).
  vm_compute. reflexivity.
Defined.



Lemma options_survive_a_run_witness :
  let st := boot [] [] (Some Trial.config_rerun) in
  let run := main scripted numbered false "me" Trial.argv_rename st in
  run.1 = Ok ()
  ∧ stored (config_ini run.2) "development" "notes" = Some "keep".
Proof.
  intros st run. split; [vm_compute; reflexivity|].
  refine (options_survive_a_run scripted numbered false "me"
            Trial.argv_rename st run.2 "development" "notes" "keep"
            _ _ _ _).
  - apply run_result. vm_compute. reflexivity.
  - vm_compute. reflexivity.
  - vm_compute. reflexivity.
  - vm_compute. reflexivity.
Defined.


Lemma stored_database_name_wins_witness :
  let st := boot [] [] (Some Trial.config_rerun) in
  let run := main scripted numbered false "me" Trial.argv_rename st in
  run.1 = Ok ()
  ∧ stored (config_ini run.2) "development" "database" = Some "old_dev"
  ∧ (∃ e secret, e ∈ issued st run.2
                 ∧ ev_cmd e = SetJwtSecret "old_dev" secret)
  ∧ ∃ content url pre,
      conf_files run.2 !! conf_name "development" = Some content
      ∧ contains ("db-uri = " +:+ PyStr.dquote +:+ url +:+ PyStr.dquote
                    +:+ PyStr.nl) content
      ∧ url = pre +:+ "/" +:+ "new_dev".
Proof.
  intros st run. split; [vm_compute; reflexivity|].
  refine (stored_database_name_wins scripted numbered false "me"
            Trial.argv_rename st run.2 0 "development" "new_dev" "old_dev"
            _ _ _ _ _ _).
  - apply run_result. vm_compute. reflexivity.
  - reflexivity.
  - reflexivity.
  - reflexivity.
  - discriminate.
  - vm_compute. reflexivity.
Defined.

Lemma skipped_environment_is_left_alone_witness :
  let st := boot [] [] None in
  let run := main scripted numbered false "me" Sample.argv st in
  run.1 = Ok ()
  ∧ (∀ key, stored (config_ini run.2) "test" key
            = stored (config_ini st) "test" key)
  ∧ conf_files run.2 !! conf_name "test" = conf_files st !! conf_name "test".
Proof.
  intros st run. split; [vm_compute; reflexivity|].
  refine (skipped_environment_is_left_alone scripted numbered false "me"
            Sample.argv st run.2 "test" _ _ _).
  - apply run_result. vm_compute. reflexivity.
  - unfold DATABASES. rewrite !elem_of_cons. tauto.
  - reflexivity.
Defined.

Lemma owner_is_set_without_dropdb_witness :
  let st := boot Trial.other_owner [] None in
  let run := create_database scripted numbered Sample.data Sample.conn_data
               false st in
  (render <$> (ev_cmd <$> drop 3 (issued st run.2)))
  = ["select datname from pg_catalog.pg_database where datname='app'";
     render (SelectOwner "app");
     "ALTER app SET OWNER TO app__owner";
     "ALTER GROUP app__owner ADD USER app__client";
     "ALTER GROUP app__member ADD USER app__client";
     render (SetJwtSecret "app" "jwt");
     "ALTER SCHEMA public OWNER TO app__owner"]
  ∧ ∃ before after out secret,
      issued st run.2 = before ++ after
      ∧ Forall role_stage before
      ∧ Event (SelectOwner "app") Sample.conn_data (Some out) ∈ after
      ∧ ev_cmd <$> after
        = [SelectDatabase "app"; SelectOwner "app"]
            ++ (if PyStr.eqb (PyStr.strip out) "app__owner" then []
                else [AlterSetOwner "app" "app__owner"])
            ++ closing "app" ("app" +:+ "__member") "app__owner"
                 "app__client" secret
      ∧ render (AlterSetOwner "app" "app__owner")
        = "ALTER " +:+ "app" +:+ " SET OWNER TO " +:+ "app__owner".
Proof.
  intros st run. split; [vm_compute; reflexivity|].
  refine (owner_is_set_without_dropdb scripted numbered Sample.data
            Sample.conn_data st (default ∅ (returned run.1)) run.2
            "app" "app__owner" "app__client" _ _ _ _ _).
  1-3: vm_compute; reflexivity.
  - apply run_returned. vm_compute. reflexivity.
  - apply probes_found. vm_compute. reflexivity.
Defined.

Lemma store_password_writes_the_password_used_witness :
  let st := boot [] [] None in
  let run := main scripted numbered false "me" Trial.argv_store st in
  (run.1, stored (config_ini run.2) "postgres" "password")
  = (Ok (), Some "None")
  ∧ ∃ typed,
      stdin st = typed ++ stdin run.2
      ∧ stored (config_ini run.2) "postgres" "password"
        = Some (py_str (default (opt_str (cli_password Trial.argv_store))
                          (VStr <$> last typed))).
Proof.
  intros st run. split; [vm_compute; reflexivity|].
  refine (store_password_writes_the_password_used scripted numbered false
            "me" Trial.argv_store st run.2 _ _).
  - apply run_result. vm_compute. reflexivity.
  - reflexivity.
Defined.
